(** * cdevents-webhook-adapter: the message pipeline and the Gitea translators

    A shallow embedding of [internal/adapter/adapter.go] ([Process]), of the
    translator package ([GiteaPushTranslator], [GiteaPullRequestTranslator],
    [GiteaCreateTranslator], [GiteaDeleteTranslator] and their two helpers)
    and of the translator registry of [main], followed by the properties the
    specification states about them.

    Go values are modelled as follows.
    - [string] is a Go string (a byte sequence), [list byte] a [[]byte].
    - A function that returns [(T, error)] and may panic returns
      [outcome T]; [error] values carry their message.
    - Calls on the collaborators of [Process] (the message's [Ack], the
      logger, a translator, the publisher) are recorded, in order, in a
      trace of [Call]s, so that "is invoked", "exactly once" and "never"
      are statements about that trace.
    - The translator registry is a [gmap string CDEventTranslator]. *)

From Stdlib Require Import ZArith Strings.String Strings.Ascii Strings.Byte.
From Stdlib Require Import Numbers.DecimalString Numbers.DecimalPos Numbers.DecimalZ.
From Stdlib Require Import Lists.List Bool.Bool.
From stdpp Require Import base option list gmap strings fin_maps.

Local Open Scope string_scope.
Local Open Scope list_scope.

(** ** Go errors, panics and the call trace *)

(** An [error] value; [Errorf] is [fmt.Errorf] after formatting. *)
Inductive error : Type :=
| Errorf (msg : string).

Definition Error (e : error) : string :=
  match e with Errorf m => m end.

(** What a Go call can do: return a value, return a non-nil error, or
    panic with a value (rendered as its message). *)
Inductive outcome (A : Type) : Type :=
| Ok (a : A)
| Err (e : error)
| Panic (v : string).

Arguments Ok {A} a.
Arguments Err {A} e.
Arguments Panic {A} v.

(** What a library call that returns [(T, error)] and does not panic can
    do. *)
Inductive result (A : Type) : Type :=
| Value (a : A)
| Failure (e : error).

Arguments Value {A} a.
Arguments Failure {A} e.

(** A library call seen from its caller. *)
Definition returns {A} (r : result A) : outcome A :=
  match r with
  | Value a => Ok a
  | Failure e => Err e
  end.

(** The panic value of an out-of-range index expression [s[i]]. *)
Definition index_out_of_range (i len : nat) : string :=
  "runtime error: index out of range [" ++
  NilZero.string_of_uint (Nat.to_uint i) ++ "] with length " ++
  NilZero.string_of_uint (Nat.to_uint len).

(** ** package strings *)

Module strings.

(** [strings.Split(s, sep)] for a separator of one byte: the substrings
    between the separators, in order; never empty, [Split "" sep] is
    [[""]]. *)
Fixpoint Split (s : string) (sep : ascii) : list string :=
  match s with
  | EmptyString => [EmptyString]
  | String c s' =>
      if Ascii.eqb c sep then EmptyString :: Split s' sep
      else match Split s' sep with
           | [] => [String c EmptyString]
           | p :: ps => String c p :: ps
           end
  end.

(** [strings.Join(elems, sep)]. *)
Fixpoint Join (elems : list string) (sep : string) : string :=
  match elems with
  | [] => EmptyString
  | x :: xs =>
      match xs with
      | [] => x
      | _ :: _ => x ++ sep ++ Join xs sep
      end
  end.

(** [strings.Contains(s, string(c))] for one byte. *)
Fixpoint ContainsByte (s : string) (c : ascii) : bool :=
  match s with
  | EmptyString => false
  | String d s' => Ascii.eqb d c || ContainsByte s' c
  end.

End strings.

(** ** package structs *)

Module structs.

(** Modelled from the spec: the declarations of package [internal/structs]
    are not among the sources.  Each record has the fields the translators
    read, with the types their uses fix: [TotalCommits] is compared with
    [0], [PullRequest.Id] is formatted with [%d], the others are strings,
    and [Commits] is a slice indexed at [0].  A field that several structs
    have is prefixed with its struct where the names would clash.  This
    one is the struct of the [Repository] fields. *)
Record GiteaRepository : Type :=
  { FullName : string;
    HtmlUrl : string }.

(** Modelled from the spec: [structs.GiteaCommit], the field the push
    translator reads. *)
Record GiteaCommit : Type :=
  { Id : string }.

(** Modelled from the spec: [structs.GiteaPushEvent], the fields the push
    translator and the shared helper read. *)
Record GiteaPushEvent : Type :=
  { TotalCommits : Z;
    Commits : list GiteaCommit;
    PushRepository : GiteaRepository }.

(** Modelled from the spec: the struct of [GiteaPullRequestEvent.PullRequest],
    with its [Id] field. *)
Record GiteaPullRequest : Type :=
  { PullRequestId : Z }.

(** Modelled from the spec: [structs.GiteaPullRequestEvent]. *)
Record GiteaPullRequestEvent : Type :=
  { Action : string;
    PullRequest : GiteaPullRequest;
    PullRequestRepository : GiteaRepository }.

(** Modelled from the spec: [structs.GiteaCreateEvent]; its fields are
    [Ref], [RefType] and [Repository]. *)
Record GiteaCreateEvent : Type :=
  { CreateRef : string;
    CreateRefType : string;
    CreateRepository : GiteaRepository }.

(** Modelled from the spec: [structs.GiteaDeleteEvent]; its fields are
    [Ref], [RefType] and [Repository]. *)
Record GiteaDeleteEvent : Type :=
  { DeleteRef : string;
    DeleteRefType : string;
    DeleteRepository : GiteaRepository }.

End structs.

(** The values of type [interface{}] that occur in the translators: the
    four payload structs, a byte slice, and the anonymous
    [struct{Kind string; Content interface{}}] of
    [addGiteaEventAsCustomData]. *)
Inductive any : Type :=
| any_GiteaCreateEvent (v : structs.GiteaCreateEvent)
| any_GiteaDeleteEvent (v : structs.GiteaDeleteEvent)
| any_GiteaPushEvent (v : structs.GiteaPushEvent)
| any_GiteaPullRequestEvent (v : structs.GiteaPullRequestEvent)
| any_bytes (b : list byte)
| any_KindContent (Kind : string) (Content : any).

(** [fmt.Sprintf("%T", v)]. *)
Definition Sprintf_T (v : any) : string :=
  match v with
  | any_GiteaCreateEvent _ => "structs.GiteaCreateEvent"
  | any_GiteaDeleteEvent _ => "structs.GiteaDeleteEvent"
  | any_GiteaPushEvent _ => "structs.GiteaPushEvent"
  | any_GiteaPullRequestEvent _ => "structs.GiteaPullRequestEvent"
  | any_bytes _ => "[]uint8"
  | any_KindContent _ _ => "struct { Kind string; Content interface {} }"
  end.

(** [fmt.Sprintf("%d", n)]. *)
Definition Sprintf_d (n : Z) : string :=
  NilZero.string_of_int (Z.to_int n).

(** ** The CDEvents SDK (github.com/cdevents/sdk-go), as far as the
    translators use it *)

Module cdevents.

(** The event types the four constructors of package [v04] produce. *)
Inductive CDEventType : Type :=
| ChangeCreatedEventTypeV0_3_0
| ChangeMergedEventTypeV0_2_0
| BranchCreatedEventTypeV0_2_0
| BranchDeletedEventTypeV0_2_0.

(** [CDEventType.String()]. *)
Definition TypeString (t : CDEventType) : string :=
  match t with
  | ChangeCreatedEventTypeV0_3_0 => "dev.cdevents.change.created.0.3.0"
  | ChangeMergedEventTypeV0_2_0 => "dev.cdevents.change.merged.0.2.0"
  | BranchCreatedEventTypeV0_2_0 => "dev.cdevents.branch.created.0.2.0"
  | BranchDeletedEventTypeV0_2_0 => "dev.cdevents.branch.deleted.0.2.0"
  end.

(** [cdevents.Reference]; the translators set [Id] only. *)
Record Reference : Type :=
  { Id : string }.

(** The state of an event object behind the [CDEvent] interface.  The
    projections are the interface's getters.  The context's random id and
    its timestamp are left out: nothing in the pipeline reads them. *)
Record CDEvent : Type :=
  { GetType : CDEventType;
    GetSource : string;
    GetSubjectId : string;
    GetSubjectSource : string;
    GetSubjectRepository : option Reference;
    GetCustomData : option any;
    GetCustomDataContentType : string }.

(** A freshly constructed event of type [t]: every settable field has its
    zero value. *)
Definition newEvent (t : CDEventType) : CDEvent :=
  {| GetType := t;
     GetSource := "";
     GetSubjectId := "";
     GetSubjectSource := "";
     GetSubjectRepository := None;
     GetCustomData := None;
     GetCustomDataContentType := "" |}.

(** [SetSource] sets the source of the context and, as the SDK's generated
    setters do ("Default the subject source to the event source"), sets the
    subject source to it as well when that is still empty. *)
Definition SetSource (source : string) (e : CDEvent) : CDEvent :=
  {| GetType := GetType e;
     GetSource := source;
     GetSubjectId := GetSubjectId e;
     GetSubjectSource :=
       if String.eqb (GetSubjectSource e) "" then source else GetSubjectSource e;
     GetSubjectRepository := GetSubjectRepository e;
     GetCustomData := GetCustomData e;
     GetCustomDataContentType := GetCustomDataContentType e |}.

Definition SetSubjectId (subjectId : string) (e : CDEvent) : CDEvent :=
  {| GetType := GetType e;
     GetSource := GetSource e;
     GetSubjectId := subjectId;
     GetSubjectSource := GetSubjectSource e;
     GetSubjectRepository := GetSubjectRepository e;
     GetCustomData := GetCustomData e;
     GetCustomDataContentType := GetCustomDataContentType e |}.

Definition SetSubjectSource (subjectSource : string) (e : CDEvent) : CDEvent :=
  {| GetType := GetType e;
     GetSource := GetSource e;
     GetSubjectId := GetSubjectId e;
     GetSubjectSource := subjectSource;
     GetSubjectRepository := GetSubjectRepository e;
     GetCustomData := GetCustomData e;
     GetCustomDataContentType := GetCustomDataContentType e |}.

Definition SetSubjectRepository (repository : Reference) (e : CDEvent) : CDEvent :=
  {| GetType := GetType e;
     GetSource := GetSource e;
     GetSubjectId := GetSubjectId e;
     GetSubjectSource := GetSubjectSource e;
     GetSubjectRepository := Some repository;
     GetCustomData := GetCustomData e;
     GetCustomDataContentType := GetCustomDataContentType e |}.

(** [CheckCustomData]: a value that is not a byte slice is accepted for the
    JSON and XML content types only.  (The SDK's message goes on with the
    rejected value printed with [%v]; that tail is left out.) *)
Definition CheckCustomData (contentType : string) (data : any) : option error :=
  match data with
  | any_bytes _ => None
  | _ =>
      if String.eqb contentType "application/json" then None
      else if String.eqb contentType "application/xml" then None
      else Some (Errorf (contentType ++ " data must be set as []bytes"))
  end.

(** [SetCustomData]: the event after the call, and the error returned. *)
Definition SetCustomData (contentType : string) (data : any) (e : CDEvent)
  : CDEvent * option error :=
  match CheckCustomData contentType data with
  | Some err => (e, Some err)
  | None =>
      ({| GetType := GetType e;
          GetSource := GetSource e;
          GetSubjectId := GetSubjectId e;
          GetSubjectSource := GetSubjectSource e;
          GetSubjectRepository := GetSubjectRepository e;
          GetCustomData := Some data;
          GetCustomDataContentType := contentType |}, None)
  end.

End cdevents.

(** Package [v04]: the constructors return [(event, error)].  The error is
    that of the SDK's random id generator; it is not modelled, the
    constructors succeed. *)
Module cdeventsv04.

Definition NewChangeCreatedEvent : outcome cdevents.CDEvent :=
  Ok (cdevents.newEvent cdevents.ChangeCreatedEventTypeV0_3_0).

Definition NewChangeMergedEvent : outcome cdevents.CDEvent :=
  Ok (cdevents.newEvent cdevents.ChangeMergedEventTypeV0_2_0).

Definition NewBranchCreatedEvent : outcome cdevents.CDEvent :=
  Ok (cdevents.newEvent cdevents.BranchCreatedEventTypeV0_2_0).

Definition NewBranchDeletedEvent : outcome cdevents.CDEvent :=
  Ok (cdevents.newEvent cdevents.BranchDeletedEventTypeV0_2_0).

End cdeventsv04.

(** ** package net/url: the [URL] struct *)

Module url.

(** [url.URL] without its [User] field, which nothing here reads. *)
Record URL : Type :=
  { Scheme : string;
    Opaque : string;
    Host : string;
    Path : string;
    OmitHost : bool;
    ForceQuery : bool;
    RawQuery : string;
    Fragment : string }.

End url.

(** ** The library calls the program makes

    [encoding/json] and [net/url] are not part of the repository.  The
    program is modelled over any behaviour of the calls it makes to them,
    collected in [GoLibraries]; [GoStd.libraries], further down, is a model
    of what the Go implementations compute, used to run the program on
    concrete payloads. *)
Class GoLibraries : Type :=
  { (** [json.Unmarshal(data, &v)] for [v] of type
        [map[string]interface{}]: the error returned, if any. *)
    json_Unmarshal_map : list byte -> option error;
    (** [json.Unmarshal(data, &giteaEvent)] for each payload struct: the
        struct after the call, or the error. *)
    json_Unmarshal_GiteaPushEvent : list byte -> result structs.GiteaPushEvent;
    json_Unmarshal_GiteaPullRequestEvent :
      list byte -> result structs.GiteaPullRequestEvent;
    json_Unmarshal_GiteaCreateEvent : list byte -> result structs.GiteaCreateEvent;
    json_Unmarshal_GiteaDeleteEvent : list byte -> result structs.GiteaDeleteEvent;
    (** [url.Parse(rawURL)] and [url.JoinPath(base, elem...)]. *)
    url_Parse : string -> result url.URL;
    url_JoinPath : string -> list string -> result string }.

(** Sequencing of calls that return [(value, error)]: an error or a panic
    of the first ends the function, as [if err != nil { return nil, err }]
    does. *)
Definition bind {A B} (o : outcome A) (k : A -> outcome B) : outcome B :=
  match o with
  | Ok a => k a
  | Err e => Err e
  | Panic v => Panic v
  end.

Notation "'let?' x ':=' o 'in' k" := (bind o (fun x => k))
  (at level 10, x pattern, o at level 100, k at level 200).

(** The same among library functions. *)
Definition rbind {A B} (r : result A) (k : A -> result B) : result B :=
  match r with
  | Value a => k a
  | Failure e => Failure e
  end.

Notation "'let+' x ':=' r 'in' k" := (rbind r (fun x => k))
  (at level 10, x pattern, r at level 100, k at level 200).

(** ** package translator *)

Module translator.

Import structs cdevents.

(** The [CDEventTranslator] interface: an implementation is its one
    method, [Translate]. *)
Definition CDEventTranslator : Type := list byte -> outcome CDEvent.

(** [addGiteaEventAsCustomData]: the event after the call and the error
    returned. *)
Definition addGiteaEventAsCustomData (giteaEvent : any) (cdEvent : CDEvent)
  : CDEvent * option error :=
  let customData := any_KindContent (Sprintf_T giteaEvent) giteaEvent in
  match SetCustomData "application/json" customData cdEvent with
  | (cdEvent', Some err) => (cdEvent', Some err)
  | (cdEvent', None) => (cdEvent', None)
  end.

(** The type switch of [addSourcesFromRepositoryUrl]: the value it leaves
    in [rawRepoUrl], or the panic of its default case. *)
Definition rawRepoUrl (giteaEvent : any) : outcome string :=
  match giteaEvent with
  | any_GiteaCreateEvent v => Ok (HtmlUrl (CreateRepository v))
  | any_GiteaDeleteEvent v => Ok (HtmlUrl (DeleteRepository v))
  | any_GiteaPushEvent v => Ok (HtmlUrl (PushRepository v))
  | any_GiteaPullRequestEvent v => Ok (HtmlUrl (PullRequestRepository v))
  | _ =>
      Panic ("failed to extract repository URL from Gitea event with type: "
             ++ Sprintf_T giteaEvent)
  end.

(** [addSourcesFromRepositoryUrl]: the event after the call and the error
    returned, or the panic of the type switch. *)
Definition addSourcesFromRepositoryUrl `{GoLibraries}
    (giteaEvent : any) (cdEvent : CDEvent) : outcome (CDEvent * option error) :=
  let? rawRepoUrl := rawRepoUrl giteaEvent in
  match url_Parse rawRepoUrl with
  | Failure err => Ok (cdEvent, Some err)
  | Value repoUrl =>
      let cdEvent := SetSource (url.Host repoUrl) cdEvent in
      match url_JoinPath (url.Host repoUrl) [url.Path repoUrl] with
      | Failure err => Ok (cdEvent, Some err)
      | Value subjectSource => Ok (SetSubjectSource subjectSource cdEvent, None)
      end
  end.

(** A call whose returned error the caller drops: only the event it left
    behind is kept. *)
Definition ignore_error (r : outcome (CDEvent * option error)) : outcome CDEvent :=
  let? p := r in Ok (fst p).

(** A call followed by [if err != nil { return nil, err }]. *)
Definition check_error (r : CDEvent * option error) : outcome CDEvent :=
  match r with
  | (_, Some err) => Err err
  | (cdEvent, None) => Ok cdEvent
  end.

(** The index expression [s[i]]. *)
Definition index {A} (s : list A) (i : nat) : outcome A :=
  match s !! i with
  | Some x => Ok x
  | None => Panic (index_out_of_range i (length s))
  end.

Module GiteaPushTranslator.

Definition Translate `{GoLibraries} (data : list byte) : outcome CDEvent :=
  let? giteaEvent := returns (json_Unmarshal_GiteaPushEvent data) in
  if (TotalCommits giteaEvent =? 0)%Z then
    Err (Errorf "Push event contains no new commits, will not convert to a CD Event")
  else
    let? cdEvent := cdeventsv04.NewChangeMergedEvent in
    let? cdEvent :=
      ignore_error (addSourcesFromRepositoryUrl (any_GiteaPushEvent giteaEvent) cdEvent) in
    let? commit := index (Commits giteaEvent) 0 in
    let cdEvent := SetSubjectId (structs.Id commit) cdEvent in
    let cdEvent :=
      SetSubjectRepository {| Id := FullName (PushRepository giteaEvent) |} cdEvent in
    let? cdEvent :=
      check_error (addGiteaEventAsCustomData (any_GiteaPushEvent giteaEvent) cdEvent) in
    Ok cdEvent.

End GiteaPushTranslator.

Module GiteaPullRequestTranslator.

Definition Translate `{GoLibraries} (data : list byte) : outcome CDEvent :=
  let? giteaEvent := returns (json_Unmarshal_GiteaPullRequestEvent data) in
  let? cdEvent :=
    if String.eqb (Action giteaEvent) "opened" then
      let? changeCreatedEvent := cdeventsv04.NewChangeCreatedEvent in
      Ok (SetSubjectRepository
            {| Id := FullName (PullRequestRepository giteaEvent) |} changeCreatedEvent)
    else if String.eqb (Action giteaEvent) "closed" then
      let? changeMergedEvent := cdeventsv04.NewChangeMergedEvent in
      Ok (SetSubjectRepository
            {| Id := FullName (PullRequestRepository giteaEvent) |} changeMergedEvent)
    else
      Err (Errorf ("unsupported Gitea Pull Request action: " ++ Action giteaEvent)) in
  let? cdEvent :=
    ignore_error
      (addSourcesFromRepositoryUrl (any_GiteaPullRequestEvent giteaEvent) cdEvent) in
  let cdEvent :=
    SetSubjectId ("pr-" ++ Sprintf_d (PullRequestId (PullRequest giteaEvent))) cdEvent in
  let? cdEvent :=
    check_error
      (SetCustomData "application/json" (any_GiteaPullRequestEvent giteaEvent) cdEvent) in
  let? cdEvent :=
    check_error
      (addGiteaEventAsCustomData (any_GiteaPullRequestEvent giteaEvent) cdEvent) in
  Ok cdEvent.

End GiteaPullRequestTranslator.

Module GiteaCreateTranslator.

Definition Translate `{GoLibraries} (data : list byte) : outcome CDEvent :=
  let? giteaEvent := returns (json_Unmarshal_GiteaCreateEvent data) in
  let? cdEvent :=
    if String.eqb (CreateRefType giteaEvent) "branch" then
      let? branchCreatedEvent := cdeventsv04.NewBranchCreatedEvent in
      Ok (SetSubjectRepository
            {| Id := FullName (CreateRepository giteaEvent) |} branchCreatedEvent)
    else
      Err (Errorf ("unsupported Gitea create ref type: " ++ CreateRefType giteaEvent)) in
  let? cdEvent :=
    ignore_error (addSourcesFromRepositoryUrl (any_GiteaCreateEvent giteaEvent) cdEvent) in
  let cdEvent := SetSubjectId (CreateRef giteaEvent) cdEvent in
  let? cdEvent :=
    check_error
      (SetCustomData "application/json" (any_GiteaCreateEvent giteaEvent) cdEvent) in
  let? cdEvent :=
    check_error (addGiteaEventAsCustomData (any_GiteaCreateEvent giteaEvent) cdEvent) in
  Ok cdEvent.

End GiteaCreateTranslator.

Module GiteaDeleteTranslator.

Definition Translate `{GoLibraries} (data : list byte) : outcome CDEvent :=
  let? giteaEvent := returns (json_Unmarshal_GiteaDeleteEvent data) in
  let? cdEvent :=
    if String.eqb (DeleteRefType giteaEvent) "branch" then
      let? branchDeletedEvent := cdeventsv04.NewBranchDeletedEvent in
      Ok (SetSubjectRepository
            {| Id := FullName (DeleteRepository giteaEvent) |} branchDeletedEvent)
    else
      Err (Errorf ("unsupported Gitea create ref type: " ++ DeleteRefType giteaEvent)) in
  let? cdEvent :=
    ignore_error (addSourcesFromRepositoryUrl (any_GiteaDeleteEvent giteaEvent) cdEvent) in
  let cdEvent := SetSubjectId (DeleteRef giteaEvent) cdEvent in
  let? cdEvent :=
    check_error (addGiteaEventAsCustomData (any_GiteaDeleteEvent giteaEvent) cdEvent) in
  Ok cdEvent.

End GiteaDeleteTranslator.

(** [decodes_to data giteaEvent]: [json.Unmarshal] of [data] into the
    struct type of [giteaEvent] succeeds and gives it. *)
Definition decodes_to `{GoLibraries} (data : list byte) (giteaEvent : any) : Prop :=
  match giteaEvent with
  | any_GiteaCreateEvent v => json_Unmarshal_GiteaCreateEvent data = Value v
  | any_GiteaDeleteEvent v => json_Unmarshal_GiteaDeleteEvent data = Value v
  | any_GiteaPushEvent v => json_Unmarshal_GiteaPushEvent data = Value v
  | any_GiteaPullRequestEvent v => json_Unmarshal_GiteaPullRequestEvent data = Value v
  | _ => False
  end.

End translator.

(** ** package adapter *)

Module adapter.

Import cdevents.

(** [jetstream.MsgMetadata], the fields [Process] logs and the test double
    sets. *)
Record MsgMetadata : Type :=
  { Sequence_Consumer : N;
    Sequence_Stream : N;
    NumDelivered : N;
    Stream : string;
    Consumer : string }.

(** The [JetstreamMsg] interface.  A message is immutable once received, so
    each method is given by what it returns: [Data] and [Subject] their
    value, [Metadata] the metadata or an error, [Ack] its error, if any. *)
Record JetstreamMsg : Type :=
  { Data : list byte;
    Subject : string;
    Ack : option error;
    Metadata : outcome MsgMetadata }.

(** A value logged under a key by [slog]. *)
Inductive attr : Type :=
| attr_string (s : string)
| attr_uint64 (n : N).

(** The calls [Process] makes on its collaborators. *)
Inductive Call : Type :=
| CallAck
| CallDebug (text : string) (args : list (string * attr))
| CallTranslate (translator : translator.CDEventTranslator) (data : list byte)
| CallPublish (cdEvent : CDEvent).

(** A computation that makes calls: the calls made, in order, and how it
    ended. *)
Definition traced (A : Type) : Type := list Call * outcome A.

Definition ret {A} (a : A) : traced A := ([], Ok a).

Definition throw {A} (e : error) : traced A := ([], Err e).

Definition tbind {A B} (m : traced A) (k : A -> traced B) : traced B :=
  match m with
  | (t, Ok a) => let (t', r) := k a in (t ++ t', r)
  | (t, Err e) => (t, Err e)
  | (t, Panic v) => (t, Panic v)
  end.

Notation "'let*' x ':=' m 'in' k" := (tbind m (fun x => k))
  (at level 10, x pattern, m at level 100, k at level 200).

(** A call recorded in the trace, with its result. *)
Definition call {A} (c : Call) (r : outcome A) : traced A := ([c], r).

(** A call that leaves no trace (a getter, a library function). *)
Definition pure {A} (r : outcome A) : traced A := ([], r).

Definition of_error (e : option error) : outcome unit :=
  match e with
  | Some err => Err err
  | None => Ok tt
  end.

(** [defer f()]: the deferred call runs when the body is left, whether by
    a return or by a panic; what it returns is dropped and the body's
    outcome stands. *)
Definition defer {A B} (deferred : traced B) (body : traced A) : traced A :=
  (fst body ++ fst deferred, snd body).

(** The [CDEventPublisher] interface: an implementation is its one method,
    [Publish].  [CloudEventJetstreamPublisher] sends over the network and
    is not modelled further. *)
Definition CDEventPublisher : Type := CDEvent -> outcome unit.

Record CDEventAdapter : Type :=
  { publisher : CDEventPublisher;
    translators : gmap string translator.CDEventTranslator }.

Definition metadata_args (msg : JetstreamMsg) (metadata : MsgMetadata)
  : list (string * attr) :=
  [("subject", attr_string (Subject msg));
   ("stream_seq", attr_uint64 (Sequence_Stream metadata));
   ("num_delivered", attr_uint64 (NumDelivered metadata));
   ("stream", attr_string (Stream metadata));
   ("consumer", attr_string (Consumer metadata))].

(** The statements of [Process] after its [defer]. *)
Definition Process_body `{GoLibraries} (c : CDEventAdapter) (msg : JetstreamMsg)
  : traced unit :=
  let* metadata := pure (Metadata msg) in
  let* _ :=
    call (CallDebug "Processing incoming webhook message"
            (metadata_args msg metadata)) (Ok tt) in
  let* _ := pure (of_error (json_Unmarshal_map (Data msg))) in
  let subjectParts := strings.Split (Subject msg) "." in
  if (length subjectParts <? 2)%nat then
    throw (Errorf
             ("unable to determine type of message as subject has to few parts: "
              ++ Subject msg))
  else
    let eventSubject := strings.Join (drop 1 subjectParts) "." in
    match translators c !! eventSubject with
    | None => throw (Errorf ("no translator found for subject: " ++ eventSubject))
    | Some translator =>
        let* cdEvent := call (CallTranslate translator (Data msg))
                          (translator (Data msg)) in
        let* _ :=
          call (CallDebug "Translated incoming webhook message into CDEvent"
                  (("type", attr_string (TypeString (GetType cdEvent)))
                   :: metadata_args msg metadata)) (Ok tt) in
        call (CallPublish cdEvent) (publisher c cdEvent)
    end.

(** [Process]: [defer msg.Ack()], then the body. *)
Definition Process `{GoLibraries} (c : CDEventAdapter) (msg : JetstreamMsg)
  : traced unit :=
  defer (call CallAck (of_error (Ack msg))) (Process_body c msg).

(** What a trace says about each collaborator. *)
Definition translate_calls (t : list Call)
  : list (translator.CDEventTranslator * list byte) :=
  omap (fun c => match c with
                 | CallTranslate tr data => Some (tr, data)
                 | _ => None
                 end) t.

Definition publish_calls (t : list Call) : list CDEvent :=
  omap (fun c => match c with CallPublish e => Some e | _ => None end) t.

Definition ack_calls (t : list Call) : nat :=
  length (omap (fun c => match c with CallAck => Some tt | _ => None end) t).

(** The routing key of a subject: the subject without its first segment. *)
Definition routing_key (subject : string) : string :=
  strings.Join (drop 1 (strings.Split subject ".")) ".".

(** The ways through the body of [Process]: what each leaves in the
    trace, and how it ends. *)
Inductive path `{GoLibraries} (c : CDEventAdapter) (msg : JetstreamMsg)
  : traced unit -> Prop :=
| path_metadata_error e :
    Metadata msg = Err e -> path c msg ([], Err e)
| path_metadata_panic v :
    Metadata msg = Panic v -> path c msg ([], Panic v)
| path_not_json md e :
    Metadata msg = Ok md ->
    json_Unmarshal_map (Data msg) = Some e ->
    path c msg
      ([CallDebug "Processing incoming webhook message" (metadata_args msg md)],
       Err e)
| path_few_parts md :
    Metadata msg = Ok md ->
    json_Unmarshal_map (Data msg) = None ->
    length (strings.Split (Subject msg) ".") < 2 ->
    path c msg
      ([CallDebug "Processing incoming webhook message" (metadata_args msg md)],
       Err (Errorf
              ("unable to determine type of message as subject has to few parts: "
               ++ Subject msg)))
| path_no_translator md :
    Metadata msg = Ok md ->
    json_Unmarshal_map (Data msg) = None ->
    2 <= length (strings.Split (Subject msg) ".") ->
    translators c !! routing_key (Subject msg) = None ->
    path c msg
      ([CallDebug "Processing incoming webhook message" (metadata_args msg md)],
       Err (Errorf ("no translator found for subject: "
                    ++ routing_key (Subject msg))))
| path_translate_error md (tr : translator.CDEventTranslator) e :
    Metadata msg = Ok md ->
    json_Unmarshal_map (Data msg) = None ->
    2 <= length (strings.Split (Subject msg) ".") ->
    translators c !! routing_key (Subject msg) = Some tr ->
    tr (Data msg) = Err e ->
    path c msg
      ([CallDebug "Processing incoming webhook message" (metadata_args msg md);
        CallTranslate tr (Data msg)], Err e)
| path_translate_panic md (tr : translator.CDEventTranslator) v :
    Metadata msg = Ok md ->
    json_Unmarshal_map (Data msg) = None ->
    2 <= length (strings.Split (Subject msg) ".") ->
    translators c !! routing_key (Subject msg) = Some tr ->
    tr (Data msg) = Panic v ->
    path c msg
      ([CallDebug "Processing incoming webhook message" (metadata_args msg md);
        CallTranslate tr (Data msg)], Panic v)
| path_published md (tr : translator.CDEventTranslator) cdEvent :
    Metadata msg = Ok md ->
    json_Unmarshal_map (Data msg) = None ->
    2 <= length (strings.Split (Subject msg) ".") ->
    translators c !! routing_key (Subject msg) = Some tr ->
    tr (Data msg) = Ok cdEvent ->
    path c msg
      ([CallDebug "Processing incoming webhook message" (metadata_args msg md);
        CallTranslate tr (Data msg);
        CallDebug "Translated incoming webhook message into CDEvent"
          (("type", attr_string (TypeString (GetType cdEvent)))
           :: metadata_args msg md);
        CallPublish cdEvent],
       publisher c cdEvent).

End adapter.

(** ** package main: the translator registry *)

Module main.

Definition translators `{GoLibraries} : gmap string translator.CDEventTranslator :=
  list_to_map
    [("gitea.push", translator.GiteaPushTranslator.Translate);
     ("gitea.pull_request", translator.GiteaPullRequestTranslator.Translate);
     ("gitea.create", translator.GiteaCreateTranslator.Translate);
     ("gitea.delete", translator.GiteaDeleteTranslator.Translate)].

End main.

(** ** A model of the library calls

    [GoStd] models what [encoding/json] and [net/url] compute, so that the
    program can be run on payloads such as those of the repository's tests.
    It is a model of the libraries' documented behaviour, with these limits:
    error values say which call fails, their text is abbreviated; ill-formed
    UTF-8 inside a JSON string is copied, not replaced by U+FFFD; a JSON
    number is not checked against the range of [float64]; field names are
    matched without regard to ASCII case only; [url.Parse] covers raw URLs
    without userinfo, IP literal and percent escape, and [url.JoinPath]
    paths of unreserved characters, [/] and [:] (on anything else they
    answer with an error that says so).  The properties of the program are
    proved for every [GoLibraries], not for this one alone. *)

Module GoStd.

Local Open Scope char_scope.

Definition dquote : ascii := "034".
Definition backslash : ascii := "092".

Definition between (lo hi c : ascii) : bool :=
  (N.leb (N_of_ascii lo) (N_of_ascii c)) && (N.leb (N_of_ascii c) (N_of_ascii hi)).

Definition is_digit (c : ascii) : bool := between "0" "9" c.

Definition is_alpha (c : ascii) : bool := between "a" "z" c || between "A" "Z" c.

Definition hexval (c : ascii) : option N :=
  if is_digit c then Some (N_of_ascii c - 48)%N
  else if between "a" "f" c then Some (N_of_ascii c - 87)%N
  else if between "A" "F" c then Some (N_of_ascii c - 55)%N
  else None.

Definition lower (c : ascii) : ascii :=
  if between "A" "Z" c then ascii_of_N (N_of_ascii c + 32)%N else c.

Fixpoint ToLower (s : string) : string :=
  match s with
  | EmptyString => EmptyString
  | String c r => String (lower c) (ToLower r)
  end.

(** *** encoding/json: the syntax of a JSON text *)

#[warnings="-register-all"] Inductive json : Type :=
| JNull
| JBool (b : bool)
| JNumber (literal : string)
| JString (s : string)
| JArray (elements : list json)
| JObject (members : list (string * json)).

Definition is_space (c : ascii) : bool :=
  Ascii.eqb c " " || Ascii.eqb c "009" || Ascii.eqb c "010" || Ascii.eqb c "013".

Fixpoint skip_space (s : string) : string :=
  match s with
  | String c r => if is_space c then skip_space r else s
  | EmptyString => s
  end.

(** [utf8.EncodeRune]; a surrogate half is encoded as U+FFFD. *)
Definition EncodeRune (r : N) : string :=
  let r := if (N.leb 55296 r && N.leb r 57343)%N then 65533%N else r in
  let b (n : N) := ascii_of_N n in
  let cont (n : N) := b (128 + N.land n 63)%N in
  if (r <? 128)%N then String (b r) EmptyString
  else if (r <? 2048)%N then
    String (b (192 + N.shiftr r 6)%N) (String (cont r) EmptyString)
  else if (r <? 65536)%N then
    String (b (224 + N.shiftr r 12)%N)
      (String (cont (N.shiftr r 6)) (String (cont r) EmptyString))
  else
    String (b (240 + N.shiftr r 18)%N)
      (String (cont (N.shiftr r 12))
         (String (cont (N.shiftr r 6)) (String (cont r) EmptyString))).

(** [getu4]: the code unit of a leading [\uXXXX], with what follows it. *)
Definition getu4 (s : string) : option (N * string) :=
  match s with
  | String c0 (String c1 (String h1 (String h2 (String h3 (String h4 r))))) =>
      if Ascii.eqb c0 backslash && Ascii.eqb c1 "u" then
        match hexval h1, hexval h2, hexval h3, hexval h4 with
        | Some a, Some b, Some c, Some d =>
            Some (4096 * a + 256 * b + 16 * c + d, r)%N
        | _, _, _, _ => None
        end
      else None
  | _ => None
  end.

(** The character a one-letter escape stands for. *)
Definition simple_escape (c : ascii) : option ascii :=
  if Ascii.eqb c dquote then Some dquote
  else if Ascii.eqb c backslash then Some backslash
  else if Ascii.eqb c "/" then Some "/"
  else if Ascii.eqb c "b" then Some "008"
  else if Ascii.eqb c "f" then Some "012"
  else if Ascii.eqb c "n" then Some "010"
  else if Ascii.eqb c "r" then Some "013"
  else if Ascii.eqb c "t" then Some "009"
  else None.

(** A string literal after its opening quote: its value and the text after
    the closing quote. *)
Fixpoint scan_string (fuel : nat) (s : string) : option (string * string) :=
  match fuel with
  | O => None
  | S fuel =>
      match s with
      | EmptyString => None
      | String c r =>
          if Ascii.eqb c dquote then Some (EmptyString, r)
          else if Ascii.eqb c backslash then
            match r with
            | EmptyString => None
            | String e r' =>
                match simple_escape e with
                | Some x =>
                    match scan_string fuel r' with
                    | Some (t, rest) => Some (String x t, rest)
                    | None => None
                    end
                | None =>
                    match getu4 s with
                    | None => None
                    | Some (rr, r1) =>
                        let '(rune, r2) :=
                          if (N.leb 55296 rr && N.leb rr 57343)%N then
                            match getu4 r1 with
                            | Some (rr1, r2) =>
                                if (N.leb rr 56319 && N.leb 56320 rr1
                                    && N.leb rr1 57343)%N
                                then (65536 + 1024 * (rr - 55296) + (rr1 - 56320),
                                      r2)%N
                                else (65533%N, r1)
                            | None => (65533%N, r1)
                            end
                          else (rr, r1) in
                        match scan_string fuel r2 with
                        | Some (t, rest) => Some ((EncodeRune rune ++ t)%string, rest)
                        | None => None
                        end
                    end
                end
            end
          else if (N_of_ascii c <? 32)%N then None
          else
            match scan_string fuel r with
            | Some (t, rest) => Some (String c t, rest)
            | None => None
            end
      end
  end.

(** The longest prefix of digits, and the rest. *)
Fixpoint scan_digits (s : string) : string * string :=
  match s with
  | String c r =>
      if is_digit c then let (d, rest) := scan_digits r in (String c d, rest)
      else (EmptyString, s)
  | EmptyString => (EmptyString, s)
  end.

(** A number literal: its text and the rest. *)
Definition scan_number (s : string) : option (string * string) :=
  let (sign, s1) :=
    match s with
    | String "-" r => ("-"%string, r)
    | _ => (EmptyString, s)
    end in
  let (int, s2) := scan_digits s1 in
  let int_ok :=
    match int with
    | EmptyString => false
    | String "0" (String _ _) => false
    | _ => true
    end in
  if negb int_ok then None
  else
    let frac :=
      match s2 with
      | String "." r =>
          let (d, s3) := scan_digits r in
          match d with
          | EmptyString => None
          | _ => Some (("." ++ d)%string, s3)
          end
      | _ => Some (EmptyString, s2)
      end in
    match frac with
    | None => None
    | Some (f, s3) =>
        let exp :=
          match s3 with
          | String e r =>
              if Ascii.eqb e "e" || Ascii.eqb e "E" then
                let (esign, r1) :=
                  match r with
                  | String "+" r' => ("+"%string, r')
                  | String "-" r' => ("-"%string, r')
                  | _ => (EmptyString, r)
                  end in
                let (d, s4) := scan_digits r1 in
                match d with
                | EmptyString => None
                | _ => Some ((String e esign ++ d)%string, s4)
                end
              else Some (EmptyString, s3)
          | EmptyString => Some (EmptyString, s3)
          end in
        match exp with
        | None => None
        | Some (x, s4) => Some ((sign ++ int ++ f ++ x)%string, s4)
        end
    end.

(** [prefix p s]: [s] without its prefix [p], if it has it. *)
Fixpoint strip_prefix (p s : string) : option string :=
  match p with
  | EmptyString => Some s
  | String c p' =>
      match s with
      | String d s' => if Ascii.eqb c d then strip_prefix p' s' else None
      | EmptyString => None
      end
  end.

(** The scanner's bound on the nesting of arrays and objects. *)
Definition maxNestingDepth : N := 10000.

(** A JSON value at the head of [s], after optional white space. *)
Fixpoint scan_value (fuel : nat) (depth : N) (s : string) : option (json * string) :=
  match fuel with
  | O => None
  | S fuel =>
      match skip_space s with
      | EmptyString => None
      | String c r =>
          if Ascii.eqb c "{" then
            if (maxNestingDepth <? depth + 1)%N then None
            else
              match skip_space r with
              | String "}" r' => Some (JObject [], r')
              | _ => scan_members fuel (depth + 1) r []
              end
          else if Ascii.eqb c "[" then
            if (maxNestingDepth <? depth + 1)%N then None
            else
              match skip_space r with
              | String "]" r' => Some (JArray [], r')
              | _ => scan_elements fuel (depth + 1) r []
              end
          else if Ascii.eqb c dquote then
            match scan_string (S (String.length r)) r with
            | Some (v, rest) => Some (JString v, rest)
            | None => None
            end
          else if Ascii.eqb c "t" then
            option_map (fun rest => (JBool true, rest)) (strip_prefix "rue" r)
          else if Ascii.eqb c "f" then
            option_map (fun rest => (JBool false, rest)) (strip_prefix "alse" r)
          else if Ascii.eqb c "n" then
            option_map (fun rest => (JNull, rest)) (strip_prefix "ull" r)
          else
            option_map (fun p => (JNumber (fst p), snd p))
              (scan_number (String c r))
      end
  end
with scan_members (fuel : nat) (depth : N) (s : string) (acc : list (string * json))
  : option (json * string) :=
  match fuel with
  | O => None
  | S fuel =>
      match skip_space s with
      | String c r =>
          if Ascii.eqb c dquote then
            match scan_string (S (String.length r)) r with
            | None => None
            | Some (key, r1) =>
                match skip_space r1 with
                | String ":" r2 =>
                    match scan_value fuel depth r2 with
                    | None => None
                    | Some (v, r3) =>
                        match skip_space r3 with
                        | String "," r4 =>
                            scan_members fuel depth r4 ((key, v) :: acc)
                        | String "}" r4 =>
                            Some (JObject (rev ((key, v) :: acc)), r4)
                        | _ => None
                        end
                    end
                | _ => None
                end
            end
          else None
      | EmptyString => None
      end
  end
with scan_elements (fuel : nat) (depth : N) (s : string) (acc : list json)
  : option (json * string) :=
  match fuel with
  | O => None
  | S fuel =>
      match scan_value fuel depth s with
      | None => None
      | Some (v, r1) =>
          match skip_space r1 with
          | String "," r2 => scan_elements fuel depth r2 (v :: acc)
          | String "]" r2 => Some (JArray (rev (v :: acc)), r2)
          | _ => None
          end
      end
  end.

(** The value of a whole JSON text, if it is one: a value with white space
    around it and nothing else. *)
Definition parse (data : list byte) : option json :=
  let s := string_of_list_byte data in
  match scan_value (2 * String.length s + 2) 0 s with
  | Some (v, rest) =>
      match skip_space rest with
      | EmptyString => Some v
      | _ => None
      end
  | None => None
  end.

Definition syntax_error : error := Errorf "json: syntax error".

Definition type_error (value type : string) : error :=
  Errorf ("json: cannot unmarshal " ++ value ++ " into Go value of type " ++ type).

(** How [UnmarshalTypeError] names a JSON value. *)
Definition describe (v : json) : string :=
  match v with
  | JNull => "null"
  | JBool _ => "bool"
  | JNumber literal => "number " ++ literal
  | JString _ => "string"
  | JArray _ => "array"
  | JObject _ => "object"
  end.

(** *** encoding/json: decoding into Go values *)

(** [json.Unmarshal] into a [map[string]interface{}]: an object fills the
    map and [null] leaves it nil; any other value is a type error. *)
Definition Unmarshal_map (data : list byte) : option error :=
  match parse data with
  | None => Some syntax_error
  | Some (JObject _) => None
  | Some JNull => None
  | Some v => Some (type_error (describe v) "map[string]interface {}")
  end.

(** A value into a [string] that holds [old]: [null] leaves it alone. *)
Definition decode_string (v : json) (old : string) : result string :=
  match v with
  | JString s => Value s
  | JNull => Value old
  | _ => Failure (type_error (describe v) "string")
  end.

Fixpoint digits_value (s : string) (acc : Z) : option Z :=
  match s with
  | EmptyString => Some acc
  | String c r =>
      if is_digit c
      then digits_value r (10 * acc + (Z.of_N (N_of_ascii c) - 48))%Z
      else None
  end.

(** [strconv.ParseInt(s, 10, 64)] on a JSON number literal. *)
Definition ParseInt (s : string) : option Z :=
  let (neg, d) :=
    match s with
    | String "-" r => (true, r)
    | _ => (false, s)
    end in
  match d with
  | EmptyString => None
  | _ =>
      match digits_value d 0 with
      | Some n =>
          let z := if neg then (- n)%Z else n in
          if ((- 2 ^ 63 <=? z) && (z <=? 2 ^ 63 - 1))%Z then Some z else None
      | None => None
      end
  end.

(** A value into an [int] (64 bits) that holds [old]. *)
Definition decode_int (v : json) (old : Z) : result Z :=
  match v with
  | JNumber literal =>
      match ParseInt literal with
      | Some z => Value z
      | None => Failure (type_error (describe v) "int")
      end
  | JNull => Value old
  | _ => Failure (type_error (describe v) "int")
  end.

(** Field names match a key whatever the case of its ASCII letters. *)
Definition EqualFold (a b : string) : bool :=
  String.eqb (ToLower a) (ToLower b).

(** The members of an object, in order, each into the field of its name;
    a later member for the same field overwrites the earlier one. *)
Fixpoint decode_members {T : Type} (field : string -> json -> T -> result T)
    (members : list (string * json)) (acc : T) : result T :=
  match members with
  | [] => Value acc
  | (key, v) :: rest =>
      let+ acc := field key v acc in decode_members field rest acc
  end.

(** A value into a struct that holds [old]. *)
Definition decode_struct {T : Type} (name : string)
    (field : string -> json -> T -> result T) (v : json) (old : T) : result T :=
  match v with
  | JObject members => decode_members field members old
  | JNull => Value old
  | _ => Failure (type_error (describe v) name)
  end.

(** The elements of an array, each into a fresh element of the slice. *)
Fixpoint decode_elements {T : Type} (element : json -> result T) (l : list json)
  : result (list T) :=
  match l with
  | [] => Value []
  | v :: rest =>
      let+ x := element v in
      let+ xs := decode_elements element rest in
      Value (x :: xs)
  end.

(** A value into a slice that holds [old]. *)
Definition decode_slice {T : Type} (name : string) (element : json -> result T)
    (v : json) (old : list T) : result (list T) :=
  match v with
  | JArray elements => decode_elements element elements
  | JNull => Value old
  | _ => Failure (type_error (describe v) name)
  end.

Import structs.

(** Modelled from the spec: the struct tags of package [internal/structs]
    are not among the sources; the JSON names of the fields are those of
    the Gitea payloads in the translator tests. *)
Definition GiteaRepository_field (key : string) (v : json) (r : GiteaRepository)
  : result GiteaRepository :=
  if EqualFold key "full_name" then
    let+ s := decode_string v (FullName r) in
    Value {| FullName := s; HtmlUrl := HtmlUrl r |}
  else if EqualFold key "html_url" then
    let+ s := decode_string v (HtmlUrl r) in
    Value {| FullName := FullName r; HtmlUrl := s |}
  else Value r.

Definition decode_GiteaRepository : json -> GiteaRepository -> result GiteaRepository :=
  decode_struct "structs.GiteaRepository" GiteaRepository_field.

Definition GiteaCommit_field (key : string) (v : json) (c : GiteaCommit)
  : result GiteaCommit :=
  if EqualFold key "id" then
    let+ s := decode_string v (structs.Id c) in Value {| structs.Id := s |}
  else Value c.

Definition GiteaPushEvent_field (key : string) (v : json) (e : GiteaPushEvent)
  : result GiteaPushEvent :=
  if EqualFold key "total_commits" then
    let+ n := decode_int v (TotalCommits e) in
    Value {| TotalCommits := n; Commits := Commits e;
          PushRepository := PushRepository e |}
  else if EqualFold key "commits" then
    let+ l :=
      decode_slice "[]structs.GiteaCommit"
        (fun x => decode_struct "structs.GiteaCommit" GiteaCommit_field x
                    {| structs.Id := "" |})
        v (Commits e) in
    Value {| TotalCommits := TotalCommits e; Commits := l;
          PushRepository := PushRepository e |}
  else if EqualFold key "repository" then
    let+ r := decode_GiteaRepository v (PushRepository e) in
    Value {| TotalCommits := TotalCommits e; Commits := Commits e;
          PushRepository := r |}
  else Value e.

Definition GiteaPullRequest_field (key : string) (v : json) (p : GiteaPullRequest)
  : result GiteaPullRequest :=
  if EqualFold key "id" then
    let+ n := decode_int v (PullRequestId p) in Value {| PullRequestId := n |}
  else Value p.

Definition GiteaPullRequestEvent_field (key : string) (v : json)
    (e : GiteaPullRequestEvent) : result GiteaPullRequestEvent :=
  if EqualFold key "action" then
    let+ s := decode_string v (Action e) in
    Value {| Action := s; PullRequest := PullRequest e;
          PullRequestRepository := PullRequestRepository e |}
  else if EqualFold key "pull_request" then
    let+ p :=
      decode_struct "structs.GiteaPullRequest" GiteaPullRequest_field v
        (PullRequest e) in
    Value {| Action := Action e; PullRequest := p;
          PullRequestRepository := PullRequestRepository e |}
  else if EqualFold key "repository" then
    let+ r := decode_GiteaRepository v (PullRequestRepository e) in
    Value {| Action := Action e; PullRequest := PullRequest e;
          PullRequestRepository := r |}
  else Value e.

Definition GiteaCreateEvent_field (key : string) (v : json) (e : GiteaCreateEvent)
  : result GiteaCreateEvent :=
  if EqualFold key "ref" then
    let+ s := decode_string v (CreateRef e) in
    Value {| CreateRef := s; CreateRefType := CreateRefType e;
          CreateRepository := CreateRepository e |}
  else if EqualFold key "ref_type" then
    let+ s := decode_string v (CreateRefType e) in
    Value {| CreateRef := CreateRef e; CreateRefType := s;
          CreateRepository := CreateRepository e |}
  else if EqualFold key "repository" then
    let+ r := decode_GiteaRepository v (CreateRepository e) in
    Value {| CreateRef := CreateRef e; CreateRefType := CreateRefType e;
          CreateRepository := r |}
  else Value e.

Definition GiteaDeleteEvent_field (key : string) (v : json) (e : GiteaDeleteEvent)
  : result GiteaDeleteEvent :=
  if EqualFold key "ref" then
    let+ s := decode_string v (DeleteRef e) in
    Value {| DeleteRef := s; DeleteRefType := DeleteRefType e;
          DeleteRepository := DeleteRepository e |}
  else if EqualFold key "ref_type" then
    let+ s := decode_string v (DeleteRefType e) in
    Value {| DeleteRef := DeleteRef e; DeleteRefType := s;
          DeleteRepository := DeleteRepository e |}
  else if EqualFold key "repository" then
    let+ r := decode_GiteaRepository v (DeleteRepository e) in
    Value {| DeleteRef := DeleteRef e; DeleteRefType := DeleteRefType e;
          DeleteRepository := r |}
  else Value e.

(** [json.Unmarshal(data, &x)] for [x] a struct at its zero value. *)
Definition Unmarshal_struct {T : Type} (name : string)
    (field : string -> json -> T -> result T) (zero : T) (data : list byte)
  : result T :=
  match parse data with
  | None => Failure syntax_error
  | Some v => decode_struct name field v zero
  end.

Definition zero_GiteaRepository : GiteaRepository :=
  {| FullName := ""; HtmlUrl := "" |}.

Definition Unmarshal_GiteaPushEvent : list byte -> result GiteaPushEvent :=
  Unmarshal_struct "structs.GiteaPushEvent" GiteaPushEvent_field
    {| TotalCommits := 0; Commits := []; PushRepository := zero_GiteaRepository |}.

Definition Unmarshal_GiteaPullRequestEvent
  : list byte -> result GiteaPullRequestEvent :=
  Unmarshal_struct "structs.GiteaPullRequestEvent" GiteaPullRequestEvent_field
    {| Action := ""; PullRequest := {| PullRequestId := 0 |};
       PullRequestRepository := zero_GiteaRepository |}.

Definition Unmarshal_GiteaCreateEvent : list byte -> result GiteaCreateEvent :=
  Unmarshal_struct "structs.GiteaCreateEvent" GiteaCreateEvent_field
    {| CreateRef := ""; CreateRefType := "";
       CreateRepository := zero_GiteaRepository |}.

Definition Unmarshal_GiteaDeleteEvent : list byte -> result GiteaDeleteEvent :=
  Unmarshal_struct "structs.GiteaDeleteEvent" GiteaDeleteEvent_field
    {| DeleteRef := ""; DeleteRefType := "";
       DeleteRepository := zero_GiteaRepository |}.

(** *** net/url and path *)

Definition HasPrefix (s p : string) : bool :=
  match strip_prefix p s with
  | Some _ => true
  | None => false
  end.

Fixpoint HasSuffixByte (s : string) (c : ascii) : bool :=
  match s with
  | EmptyString => false
  | String d EmptyString => Ascii.eqb d c
  | String _ r => HasSuffixByte r c
  end.

(** [strings.Cut(s, string(sep))]: the text before the first [sep], and
    the text after it when there is one. *)
Fixpoint Cut (s : string) (sep : ascii) : string * option string :=
  match s with
  | EmptyString => (EmptyString, None)
  | String c r =>
      if Ascii.eqb c sep then (EmptyString, Some r)
      else let (before, after) := Cut r sep in (String c before, after)
  end.

(** [s[strings.LastIndex(s, string(c)):]], when [c] occurs in [s]. *)
Fixpoint from_last (s : string) (c : ascii) : option string :=
  match s with
  | EmptyString => None
  | String d r =>
      match from_last r c with
      | Some t => Some t
      | None => if Ascii.eqb d c then Some s else None
      end
  end.

Fixpoint all_bytes (f : ascii -> bool) (s : string) : bool :=
  match s with
  | EmptyString => true
  | String c r => f c && all_bytes f r
  end.

Fixpoint find_byte (f : ascii -> bool) (s : string) : option ascii :=
  match s with
  | EmptyString => None
  | String c r => if f c then Some c else find_byte f r
  end.

(** [strconv.Quote] of a string of printable ASCII without quote and
    backslash. *)
Definition Quote (s : string) : string :=
  (String dquote s ++ String dquote EmptyString)%string.

Definition not_modelled (what : string) : error :=
  Errorf ("GoStd: " ++ what ++ " is outside the model").

Definition is_CTL (c : ascii) : bool :=
  (N_of_ascii c <? 32)%N || Ascii.eqb c "127".

(** [getScheme]: [None] for the error "missing protocol scheme", else the
    scheme (empty if there is none) and the rest. *)
Fixpoint getScheme_from (first : bool) (s : string) : option (option (string * string)) :=
  match s with
  | EmptyString => Some None
  | String c r =>
      let continue :=
        match getScheme_from false r with
        | Some (Some (scheme, rest)) => Some (Some (String c scheme, rest))
        | other => other
        end in
      if is_alpha c then continue
      else if is_digit c || strings.ContainsByte "+-." c then
        if first then Some None else continue
      else if Ascii.eqb c ":" then
        if first then None else Some (Some (EmptyString, r))
      else Some None
  end.

Definition getScheme (rawURL : string) : option (string * string) :=
  match getScheme_from true rawURL with
  | None => None
  | Some None => Some (EmptyString, rawURL)
  | Some (Some p) => Some p
  end.

(** [validOptionalPort]. *)
Definition validOptionalPort (port : string) : bool :=
  match port with
  | EmptyString => true
  | String c digits => Ascii.eqb c ":" && all_bytes is_digit digits
  end.

(** The bytes [unescape] rejects in a host name: ASCII bytes that
    [shouldEscape] would escape there. *)
Definition invalid_in_host (c : ascii) : bool :=
  (N_of_ascii c <? 128)%N
  && negb (is_alpha c || is_digit c
           || strings.ContainsByte "!$&'()*+,;=:[]<>-_.~" c
           || Ascii.eqb c dquote).

(** [parseHost] for a host that is not an IP literal. *)
Definition parseHost (host : string) : result string :=
  if HasPrefix host "[" then Failure (not_modelled "an IP literal")
  else
    let port_ok :=
      match from_last host ":" with
      | Some colonPort =>
          if validOptionalPort colonPort then None else Some colonPort
      | None => None
      end in
    match port_ok with
    | Some colonPort =>
        Failure (Errorf ("invalid port " ++ Quote colonPort ++ " after host"))
    | None =>
        match find_byte invalid_in_host host with
        | Some c =>
            Failure (Errorf ("invalid character " ++ Quote (String c EmptyString)
                         ++ " in host name"))
        | None => Value host
        end
    end.

(** [parseAuthority] for an authority without userinfo. *)
Definition parseAuthority (authority : string) : result string :=
  if strings.ContainsByte authority "@" then Failure (not_modelled "userinfo")
  else parseHost authority.

Definition emptyURL : url.URL :=
  {| url.Scheme := ""; url.Opaque := ""; url.Host := ""; url.Path := "";
     url.OmitHost := false; url.ForceQuery := false; url.RawQuery := "";
     url.Fragment := "" |}.

(** [parse(rawURL, false)], for a raw URL without [%]. *)
Definition parse_url (rawURL : string) : result url.URL :=
  if negb (all_bytes (fun c => negb (is_CTL c)) rawURL) then
    Failure (Errorf "net/url: invalid control character in URL")
  else if String.eqb rawURL "*" then
    Value {| url.Scheme := ""; url.Opaque := ""; url.Host := ""; url.Path := "*";
          url.OmitHost := false; url.ForceQuery := false; url.RawQuery := "";
          url.Fragment := "" |}
  else
    match getScheme rawURL with
    | None => Failure (Errorf "missing protocol scheme")
    | Some (scheme, rest) =>
        let scheme := ToLower scheme in
        let '(rest, forceQuery, rawQuery) :=
          match Cut rest "?" with
          | (before, Some EmptyString) => (before, true, EmptyString)
          | (before, Some query) => (before, false, query)
          | (before, None) => (before, false, EmptyString)
          end in
        let rooted := HasPrefix rest "/" in
        let has_scheme := negb (String.eqb scheme "") in
        if negb rooted && has_scheme then
          Value {| url.Scheme := scheme; url.Opaque := rest; url.Host := "";
                url.Path := ""; url.OmitHost := false;
                url.ForceQuery := forceQuery; url.RawQuery := rawQuery;
                url.Fragment := "" |}
        else if negb rooted && strings.ContainsByte (fst (Cut rest "/")) ":" then
          Failure (Errorf "first path segment in URL cannot contain colon")
        else if (has_scheme || negb (HasPrefix rest "///")) && HasPrefix rest "//" then
          let after := match strip_prefix "//" rest with
                       | Some a => a
                       | None => EmptyString
                       end in
          let '(authority, path) :=
            match Cut after "/" with
            | (authority, Some p) => (authority, String "/" p)
            | (authority, None) => (authority, EmptyString)
            end in
          let+ host := parseAuthority authority in
          Value {| url.Scheme := scheme; url.Opaque := ""; url.Host := host;
                url.Path := path; url.OmitHost := false;
                url.ForceQuery := forceQuery; url.RawQuery := rawQuery;
                url.Fragment := "" |}
        else
          Value {| url.Scheme := scheme; url.Opaque := ""; url.Host := "";
                url.Path := rest; url.OmitHost := has_scheme && rooted;
                url.ForceQuery := forceQuery; url.RawQuery := rawQuery;
                url.Fragment := "" |}
    end.

(** [url.Parse]: the fragment is cut off first, and an error of [parse]
    is wrapped with the operation and the URL. *)
Definition Parse (rawURL : string) : result url.URL :=
  if strings.ContainsByte rawURL "%" then Failure (not_modelled "a percent escape")
  else
    let (u, frag) := Cut rawURL "#" in
    match parse_url u with
    | Value parsed =>
        Value {| url.Scheme := url.Scheme parsed; url.Opaque := url.Opaque parsed;
              url.Host := url.Host parsed; url.Path := url.Path parsed;
              url.OmitHost := url.OmitHost parsed;
              url.ForceQuery := url.ForceQuery parsed;
              url.RawQuery := url.RawQuery parsed;
              url.Fragment := match frag with
                              | Some f => f
                              | None => EmptyString
                              end |}
    | Failure (Errorf msg) =>
        if HasPrefix msg "GoStd: " then Failure (Errorf msg)
        else Failure (Errorf ("parse " ++ Quote u ++ ": " ++ msg))
    end.

(** [path.Clean]. *)
Definition Clean (p : string) : string :=
  let rooted := HasPrefix p "/" in
  let step (stack : list string) (segment : string) : list string :=
    if String.eqb segment "" || String.eqb segment "." then stack
    else if String.eqb segment ".." then
      match stack with
      | top :: below => if String.eqb top ".." then segment :: stack else below
      | [] => if rooted then [] else [segment]
      end
    else segment :: stack in
  let stack := fold_left step (strings.Split p "/") [] in
  let cleaned :=
    ((if rooted then "/" else "") ++ strings.Join (rev stack) "/")%string in
  if String.eqb cleaned "" then "."%string else cleaned.

(** [path.Join]. *)
Definition path_Join (elem : list string) : string :=
  match filter (fun e => negb (String.eqb e "")) elem with
  | [] => EmptyString
  | parts => Clean (strings.Join parts "/")
  end.

Definition tail_string (s : string) : string :=
  match s with
  | String _ r => r
  | EmptyString => EmptyString
  end.

(** The method [URL.JoinPath], for a URL whose path needs no escaping. *)
Definition URL_JoinPath (u : url.URL) (elem : list string) : url.URL :=
  let first := url.Path u in
  let p :=
    if negb (HasPrefix first "/")
    then tail_string (path_Join (String "/" first :: elem))
    else path_Join (first :: elem) in
  let p :=
    if HasSuffixByte (List.last (first :: elem) EmptyString) "/"
       && negb (HasSuffixByte p "/")
    then (p ++ "/")%string else p in
  {| url.Scheme := url.Scheme u; url.Opaque := url.Opaque u;
     url.Host := url.Host u; url.Path := p; url.OmitHost := url.OmitHost u;
     url.ForceQuery := url.ForceQuery u; url.RawQuery := url.RawQuery u;
     url.Fragment := url.Fragment u |}.

(** The method [URL.String], for a URL without userinfo whose host, path
    and fragment need no escaping. *)
Definition URL_String (u : url.URL) : string :=
  let nonempty (s : string) := negb (String.eqb s "") in
  let buf := if nonempty (url.Scheme u) then (url.Scheme u ++ ":")%string
             else EmptyString in
  let buf :=
    if nonempty (url.Opaque u) then (buf ++ url.Opaque u)%string
    else
      let buf :=
        if nonempty (url.Scheme u) || nonempty (url.Host u) then
          if url.OmitHost u && negb (nonempty (url.Host u)) then buf
          else
            ((buf ++ if nonempty (url.Host u) || nonempty (url.Path u)
                     then "//" else "") ++ url.Host u)%string
        else buf in
      let path := url.Path u in
      let buf :=
        if nonempty path && negb (HasPrefix path "/") && nonempty (url.Host u)
        then (buf ++ "/")%string else buf in
      let buf :=
        if String.eqb buf "" && strings.ContainsByte (fst (Cut path "/")) ":"
        then (buf ++ "./")%string else buf in
      (buf ++ path)%string in
  let buf :=
    if url.ForceQuery u || nonempty (url.RawQuery u)
    then (buf ++ "?" ++ url.RawQuery u)%string else buf in
  if nonempty (url.Fragment u) then (buf ++ "#" ++ url.Fragment u)%string else buf.

(** The bytes that are never escaped in a path. *)
Definition plain_byte (c : ascii) : bool :=
  is_alpha c || is_digit c || strings.ContainsByte "-_.~/:" c.

(** [url.JoinPath(base, elem...)], for plain arguments. *)
Definition JoinPath (base : string) (elem : list string) : result string :=
  if negb (all_bytes plain_byte base && forallb (all_bytes plain_byte) elem)
  then Failure (not_modelled "a path that needs escaping")
  else
    let+ u := Parse base in
    Value (URL_String (URL_JoinPath u elem)).

(** The library calls, as Go computes them. *)
Definition libraries : GoLibraries :=
  {| json_Unmarshal_map := Unmarshal_map;
     json_Unmarshal_GiteaPushEvent := Unmarshal_GiteaPushEvent;
     json_Unmarshal_GiteaPullRequestEvent := Unmarshal_GiteaPullRequestEvent;
     json_Unmarshal_GiteaCreateEvent := Unmarshal_GiteaCreateEvent;
     json_Unmarshal_GiteaDeleteEvent := Unmarshal_GiteaDeleteEvent;
     url_Parse := Parse;
     url_JoinPath := JoinPath |}.

End GoStd.

(** ** The payloads and test doubles of the repository's tests *)

Module tests.

(** A JSON text written with ['] for its double quotes. *)
Fixpoint requote (s : string) : string :=
  match s with
  | EmptyString => EmptyString
  | String c r => String (if Ascii.eqb c "'" then GoStd.dquote else c) (requote r)
  end.

Definition json_text (s : string) : list byte :=
  list_byte_of_string (requote s).

(** [pushMainPayload] of [TestGiteaPushTranslator]. *)
Definition pushMainPayload : list byte := json_text
"{
    'ref': 'refs/heads/main',
    'before': 'a359287123178c5d05654864e80ab6f3bfc3d78a',
    'after': '9d7b2d18bf7f315c666a4b3607f47bd452e7c8d2',
    'commits': [
      {
        'id': '9d7b2d18bf7f315c666a4b3607f47bd452e7c8d2',
        'message': 'Update README.md\n',
        'url': 'http://git.example.com/yoloco/project1/commit/9d7b2d18bf7f315c666a4b3607f47bd452e7c8d2',
        'author': {
          'name': 'anders',
          'email': 'gi@tea.com',
          'username': 'anders'
        },
        'committer': {
          'name': 'anders',
          'email': 'gi@tea.com',
          'username': 'anders'
        },
        'timestamp': '2024-11-17T18:19:39Z',
        'added': [],
        'removed': [],
        'modified': [
          'README.md'
        ]
      }
    ],
    'total_commits': 1,
    'head_commit': {
      'id': '9d7b2d18bf7f315c666a4b3607f47bd452e7c8d2',
      'message': 'Update README.md\n',
      'url': 'http://git.example.com/yoloco/project1/commit/9d7b2d18bf7f315c666a4b3607f47bd452e7c8d2',
      'author': {
        'name': 'anders',
        'email': 'gi@tea.com',
        'username': 'anders'
      },
      'committer': {
        'name': 'anders',
        'email': 'gi@tea.com',
        'username': 'anders'
      },
      'timestamp': '2024-11-17T18:19:39Z',
      'added': [],
      'removed': [],
      'modified': [
        'README.md'
      ]
    },
    'repository': {
      'full_name': 'yoloco/project1',
      'html_url': 'http://git.example.com/yoloco/project1',
      'ssh_url': 'git@git.example.com:yoloco/project1.git'
    }
  }".

(** [pushNewBranchPayload] of [TestGiteaPushTranslator]. *)
Definition pushNewBranchPayload : list byte := json_text
"{
    'ref': 'refs/heads/foo',
    'before': '0000000000000000000000000000000000000000',
    'after': 'a5c0a10b8a2f5ce6b9ce27d8f63c411d06ededd5',
    'commits': [],
    'total_commits': 0,
    'head_commit': {
      'id': '9d7b2d18bf7f315c666a4b3607f47bd452e7c8d2',
      'message': 'Update README.md\n',
      'url': 'http://git.example.com/yoloco/project1/commit/9d7b2d18bf7f315c666a4b3607f47bd452e7c8d2',
      'author': {
        'name': 'anders',
        'email': 'gi@tea.com',
        'username': 'anders'
      },
      'committer': {
        'name': 'anders',
        'email': 'gi@tea.com',
        'username': 'anders'
      },
      'timestamp': '2024-11-17T18:19:39Z',
      'added': [],
      'removed': [],
      'modified': [
        'README.md'
      ]
    },
    'repository': {
      'full_name': 'yoloco/project1',
      'html_url': 'http://git.example.com/yoloco/project1',
      'ssh_url': 'git@git.example.com:yoloco/project1.git'
    }
  }".

(** [prOpenedPayload] of [TestGiteaPullRequestTranslator]. *)
Definition prOpenedPayload : list byte := json_text
"{
    'action': 'opened',
    'number': 1,
    'pull_request': {
      'id': 3,
      'url': 'http://git.example.com/yoloco/project1/pulls/1',
      'number': 1,
      'title': 'Fix something PR',
      'base': {
        'label': 'main',
        'ref': 'main',
        'sha': '14a81e9adf2f116077ae960019448583a01fdde1'
      },
      'head': {
        'label': 'foo',
        'ref': 'foo',
        'sha': '9d7b2d18bf7f315c666a4b3607f47bd452e7c8d2'
      },
      'merge_base': '9d7b2d18bf7f315c666a4b3607f47bd452e7c8d2',
      'due_date': null,
      'created_at': '2024-11-17T18:21:54Z',
      'closed_at': null
    },
    'repository': {
      'id': 3,
      'owner': {
        'username': 'yoloco'
      },
      'name': 'project1',
      'full_name': 'yoloco/project1',
      'html_url': 'http://git.example.com/yoloco/project1',
      'ssh_url': 'git@git.example.com:yoloco/project1.git'
    }
  }".

(** [prClosedPayload] of [TestGiteaPullRequestTranslator]. *)
Definition prClosedPayload : list byte := json_text
"{
    'action': 'closed',
    'number': 1,
    'pull_request': {
      'id': 3,
      'url': 'http://git.example.com/yoloco/project1/pulls/1',
      'number': 1,
      'title': 'Fix something PR',
      'base': {
        'label': 'main',
        'ref': 'main',
        'sha': '14a81e9adf2f116077ae960019448583a01fdde1'
      },
      'head': {
        'label': 'foo',
        'ref': 'foo',
        'sha': '14a81e9adf2f116077ae960019448583a01fdde1'
      },
      'created_at': '2024-11-17T18:21:54Z',
      'updated_at': '2024-11-17T18:24:31Z',
      'closed_at': '2024-11-17T18:24:31Z'
    },
    'repository': {
      'id': 3,
      'owner': {
        'username': 'yoloco'
      },
      'name': 'project1',
      'full_name': 'yoloco/project1',
      'html_url': 'http://git.example.com/yoloco/project1',
      'ssh_url': 'git@git.example.com:yoloco/project1.git'
    }
  }".

(** [payload] of [TestGiteaCreateTranslator]. *)
Definition createPayload : list byte := json_text
"{
    'sha': '9d7b2d18bf7f315c666a4b3607f47bd452e7c8d2',
    'ref': 'foo',
    'ref_type': 'branch',
    'repository': {
      'full_name': 'yoloco/project1',
      'html_url': 'http://git.example.com/yoloco/project1',
      'url': 'http://git.example.com/api/v1/repos/yoloco/project1',
      'ssh_url': 'git@git.example.com:yoloco/project1.git'
    }
    }".

(** [payload] of [TestGiteaDeleteTranslator]. *)
Definition deletePayload : list byte := json_text
"{
    'ref': 'foo',
    'ref_type': 'branch',
    'repository': {
      'full_name': 'yoloco/project1',
      'html_url': 'http://git.example.com/yoloco/project1',
      'url': 'http://git.example.com/api/v1/repos/yoloco/project1',
      'ssh_url': 'git@git.example.com:yoloco/project1.git'
    }
    }".

(** [newMockJetstreamMsg]: [Metadata] of the mock returns zero sequence
    numbers and no error, [Ack] returns [nil]. *)
Definition newMockJetstreamMsg (subject : string) (data : list byte)
  : adapter.JetstreamMsg :=
  {| adapter.Data := data;
     adapter.Subject := subject;
     adapter.Ack := None;
     adapter.Metadata :=
       Ok {| adapter.Sequence_Consumer := 0; adapter.Sequence_Stream := 0;
             adapter.NumDelivered := 0; adapter.Stream := "";
             adapter.Consumer := "" |} |}.

(** A message whose [Metadata] returns an error. *)
Definition msgWithoutMetadata (subject : string) (data : list byte)
  : adapter.JetstreamMsg :=
  {| adapter.Data := data;
     adapter.Subject := subject;
     adapter.Ack := None;
     adapter.Metadata := Err (Errorf "nats: not a JetStream message") |}.

(** What the translator tests assert of the event they get. *)
Definition asserted (r : outcome cdevents.CDEvent) (type : cdevents.CDEventType)
    (subjectId source subjectSource repositoryId : string) : Prop :=
  exists cdEvent,
    r = Ok cdEvent /\
    cdevents.GetType cdEvent = type /\
    cdevents.GetSubjectId cdEvent = subjectId /\
    cdevents.GetSource cdEvent = source /\
    cdevents.GetSubjectSource cdEvent = subjectSource /\
    cdevents.GetSubjectRepository cdEvent = Some {| cdevents.Id := repositoryId |}.

(** The event [TestProcess] lets its mock translator return. *)
Definition cde : cdevents.CDEvent :=
  cdevents.newEvent cdevents.ChangeMergedEventTypeV0_2_0.

(** [MockCDEventTranslator] set up with [Return(cde, nil)]. *)
Definition MockCDEventTranslator : translator.CDEventTranslator :=
  fun _ => Ok cde.

(** [MockCDEventPublisher] set up with [Return(nil)]. *)
Definition MockCDEventPublisher : adapter.CDEventPublisher :=
  fun _ => Ok tt.

(** The adapter [TestProcess] builds: one translator, registered under
    [translatorSubject]. *)
Definition testAdapter (translatorSubject : string) : adapter.CDEventAdapter :=
  {| adapter.publisher := MockCDEventPublisher;
     adapter.translators := {[ translatorSubject := MockCDEventTranslator ]} |}.

(** [msgData] of [TestProcess]. *)
Definition msgData : list byte := json_text "{'foo': 'bar'}".

(** The adapter [main] builds, with a publisher that succeeds. *)
Definition mainAdapter : adapter.CDEventAdapter :=
  {| adapter.publisher := MockCDEventPublisher;
     adapter.translators := @main.translators GoStd.libraries |}.

(** A payload that is not JSON. *)
Definition notJson : list byte := list_byte_of_string "hello".

(** A push of one commit to a repository served from an address with a
    port. *)
Definition pushWithPortPayload : list byte := json_text
"{
    'commits': [ { 'id': '9d7b2d18bf7f315c666a4b3607f47bd452e7c8d2' } ],
    'total_commits': 1,
    'repository': {
      'full_name': 'yoloco/project1',
      'html_url': 'http://192.168.1.1:3000/yoloco/project1'
    }
  }".

(** The same push, from a named host with a port. *)
Definition pushWithNamedPortPayload : list byte := json_text
"{
    'commits': [ { 'id': '9d7b2d18bf7f315c666a4b3607f47bd452e7c8d2' } ],
    'total_commits': 1,
    'repository': {
      'full_name': 'yoloco/project1',
      'html_url': 'http://git.example.com:3000/yoloco/project1'
    }
  }".

(** A push that counts one commit and lists none. *)
Definition pushWithoutCommitsPayload : list byte := json_text
"{
    'commits': [],
    'total_commits': 1,
    'repository': {
      'full_name': 'yoloco/project1',
      'html_url': 'http://git.example.com/yoloco/project1'
    }
  }".

(** A pull request, a created branch and a deleted branch of a repository
    served from an address with a port. *)
Definition prWithPortPayload : list byte := json_text
"{
    'action': 'opened',
    'pull_request': { 'id': 3 },
    'repository': {
      'full_name': 'yoloco/project1',
      'html_url': 'http://192.168.1.1:3000/yoloco/project1'
    }
  }".

Definition createWithPortPayload : list byte := json_text
"{
    'ref': 'foo',
    'ref_type': 'branch',
    'repository': {
      'full_name': 'yoloco/project1',
      'html_url': 'http://192.168.1.1:3000/yoloco/project1'
    }
  }".

Definition deleteWithPortPayload : list byte := json_text
"{
    'ref': 'foo',
    'ref_type': 'branch',
    'repository': {
      'full_name': 'yoloco/project1',
      'html_url': 'http://192.168.1.1:3000/yoloco/project1'
    }
  }".

(** The same pull request, from a named host with a port. *)
Definition prWithNamedPortPayload : list byte := json_text
"{
    'action': 'opened',
    'pull_request': { 'id': 3 },
    'repository': {
      'full_name': 'yoloco/project1',
      'html_url': 'http://git.example.com:3000/yoloco/project1'
    }
  }".

(** A delete payload without ref and repository. *)
Definition deleteWithoutRepositoryPayload : list byte :=
  json_text "{'ref_type': 'branch'}".

End tests.

(** ** Computations that make calls, over any type of call *)

Module trace.

(** The calls made, in order, and how the computation ended. *)
Definition traced (C A : Type) : Type := list C * outcome A.

Definition call {C A} (c : C) (r : outcome A) : traced C A := ([c], r).

Definition tbind {C A B} (m : traced C A) (k : A -> traced C B) : traced C B :=
  match m with
  | (t, Ok a) => let (t', r) := k a in (t ++ t', r)
  | (t, Err e) => (t, Err e)
  | (t, Panic v) => (t, Panic v)
  end.

(** [defer f()] around a body, as in [adapter.defer]. *)
Definition defer {C A} (deferred : list C) (body : traced C A) : traced C A :=
  (fst body ++ deferred, snd body).

End trace.

Notation "'let!' x ':=' m 'in' k" := (trace.tbind m (fun x => k))
  (at level 10, x pattern, m at level 100, k at level 200).

(** ** package adapter: the publisher *)

(** The calls [Publish] makes into the CDEvents SDK, the CloudEvents SDK
    and its NATS JetStream protocol.  They reach the network and are not
    part of the repository: [Publish] is modelled over any behaviour of
    them. *)
Class CloudEventsLibraries : Type :=
  { (** [*nats.Conn], [cloudevents.Event], the protocol of [cejsm.New] and
        the client of [cloudevents.NewClient]. *)
    Conn : Type;
    Event : Type;
    Protocol : Type;
    Client : Type;
    (** [cdevents.AsCloudEvent(cdEvent)]. *)
    AsCloudEvent : cdevents.CDEvent -> result Event;
    (** [cloudEvent.Context.GetType()]. *)
    Context_GetType : Event -> string;
    (** [cejsm.New(ctx, cejsm.WithConnection(nc), cejsm.WithSendSubject(subject))],
        by the seconds of the deadline of [ctx]. *)
    cejsm_New : N -> Conn -> string -> result Protocol;
    (** [cloudevents.NewClient(proto)]. *)
    cloudevents_NewClient : Protocol -> result Client;
    (** [client.Send(ctx, event)]: the result, [None] for [nil]. *)
    Client_Send : N -> Client -> Event -> option error }.

Module CloudEventJetstreamPublisher.

Import trace.

(** The struct: its one field. *)
Record t `{CloudEventsLibraries} : Type :=
  { nc : Conn }.

(** The calls of [Publish], with the arguments they get. *)
Inductive Call `{CloudEventsLibraries} : Type :=
| CallAsCloudEvent (cdEvent : cdevents.CDEvent)
| CallWithTimeout (seconds : N)
| CallNew (seconds : N) (conn : Conn) (sendSubject : string)
| CallNewClient (proto : Protocol)
| CallSend (seconds : N) (client : Client) (event : Event)
| CallCancel.

Definition Publish `{CloudEventsLibraries} (p : t) (cdEvent : cdevents.CDEvent)
  : traced Call unit :=
  let! cloudEvent := call (CallAsCloudEvent cdEvent) (returns (AsCloudEvent cdEvent)) in
  let connOpt := nc p in
  let sendopt := Context_GetType cloudEvent in
  let! ctx := call (CallWithTimeout 10) (Ok 10%N) in
  defer [CallCancel]
    (let! proto := call (CallNew ctx connOpt sendopt)
                     (returns (cejsm_New ctx connOpt sendopt)) in
     let! client := call (CallNewClient proto)
                      (returns (cloudevents_NewClient proto)) in
     call (CallSend ctx client cloudEvent)
       (adapter.of_error (Client_Send ctx client cloudEvent))).

(** What a trace says: the events sent. *)
Definition sends `{CloudEventsLibraries} (t : list Call) : list Event :=
  omap (fun c => match c with CallSend _ _ e => Some e | _ => None end) t.

Definition cancels `{CloudEventsLibraries} (t : list Call) : nat :=
  length (omap (fun c => match c with CallCancel => Some tt | _ => None end) t).

Definition timeouts `{CloudEventsLibraries} (t : list Call) : nat :=
  length (omap (fun c => match c with CallWithTimeout _ => Some tt | _ => None end) t).

End CloudEventJetstreamPublisher.

(** [NewCDEventAdapter]: the publisher is a [CloudEventJetstreamPublisher]
    on the connection, seen by [Process] through what [Publish] returns;
    the logger is left out, its calls are in the trace. *)
Definition NewCDEventAdapter `{CloudEventsLibraries} (nc : Conn)
    (translators : gmap string translator.CDEventTranslator) : adapter.CDEventAdapter :=
  {| adapter.publisher :=
       fun cdEvent =>
         snd (CloudEventJetstreamPublisher.Publish
                {| CloudEventJetstreamPublisher.nc := nc |} cdEvent);
     adapter.translators := translators |}.

(** ** package main: streams and the worker *)

Module jetstream.

(** [jetstream.RetentionPolicy]. *)
Inductive RetentionPolicy : Type :=
| LimitsPolicy
| InterestPolicy
| WorkQueuePolicy.

(** [jetstream.StreamConfig], the fields [main] sets. *)
Record StreamConfig : Type :=
  { Name : string;
    Subjects : list string;
    Description : string;
    Retention : RetentionPolicy }.

(** The errors of [CreateStream], as [MustCreateStream] tells them apart:
    the value [ErrStreamNameAlreadyInUse], or any other. *)
Inductive CreateError : Type :=
| ErrStreamNameAlreadyInUse
| OtherError (text : string).

End jetstream.

(** The JetStream calls of [MustCreateStream]: each returns a stream ([None]
    for [nil]) and an error ([None] for [nil]). *)
Class JetStream : Type :=
  { Stream : Type;
    CreateStream : jetstream.StreamConfig -> option Stream * option jetstream.CreateError;
    UpdateStream : jetstream.StreamConfig -> option Stream * option error }.

Module main_streams.

Import trace jetstream.

Inductive Call : Type :=
| CallCreateStream (config : StreamConfig)
| CallUpdateStream (config : StreamConfig)
| CallInfo (text : string)
| CallError (text : string) (error : string)
| CallExit (code : Z).

(** How a function that may call [os.Exit] ends. *)
Inductive ending (A : Type) : Type :=
| Returned (a : A)
| Exited (code : Z).

Arguments Returned {A} a.
Arguments Exited {A} code.

Definition MustCreateStream `{JetStream} (config : StreamConfig)
  : list Call * ending (option Stream) :=
  let '(stream, err) := CreateStream config in
  match err with
  | Some ErrStreamNameAlreadyInUse =>
      let '(stream, err) := UpdateStream config in
      match err with
      | Some e =>
          ([CallCreateStream config;
            CallInfo ("Updating existing stream: " ++ Name config);
            CallUpdateStream config;
            CallError "Failed to update existing stream" (Error e);
            CallExit 1],
           Exited 1)
      | None =>
          ([CallCreateStream config;
            CallInfo ("Updating existing stream: " ++ Name config);
            CallUpdateStream config],
           Returned stream)
      end
  | Some (OtherError text) =>
      ([CallCreateStream config; CallError "Error when creating stream" text],
       Returned stream)
  | None => ([CallCreateStream config], Returned stream)
  end.

End main_streams.

Module main_worker.

Import trace.

(** What the worker goroutine of [main] does: the calls of [Process], its
    own log lines, and its two deferred calls. *)
Inductive Call : Type :=
| InProcess (c : adapter.Call)
| CallError (text : string) (error : string)
| CallInfo (text : string)
| CallStop
| CallDone.

(** The loop of the worker, by the messages its [select] receives before
    it receives from [done]: each is passed to [Process], an error is
    logged and the loop goes on; a panic of [Process] ends the loop. *)
Fixpoint loop `{GoLibraries} (c : adapter.CDEventAdapter)
    (messages : list adapter.JetstreamMsg) : traced Call unit :=
  match messages with
  | [] => ([CallInfo "Stopped processing messages"], Ok tt)
  | msg :: rest =>
      let '(t, r) := adapter.Process c msg in
      match r with
      | Ok _ =>
          let '(t', r') := loop c rest in (map InProcess t ++ t', r')
      | Err err =>
          let '(t', r') := loop c rest in
          (map InProcess t
           ++ CallError "Error when processing message" (Error err) :: t', r')
      | Panic v => (map InProcess t, Panic v)
      end
  end.

(** The goroutine: [defer wg.Done()], [defer consContext.Stop()], then the
    loop; the deferred calls run last registered first. *)
Definition worker `{GoLibraries} (c : adapter.CDEventAdapter)
    (messages : list adapter.JetstreamMsg) : traced Call unit :=
  defer [CallDone] (defer [CallStop] (loop c messages)).

(** What a trace says. *)
Definition acks (t : list Call) : nat :=
  length (omap (fun c => match c with InProcess adapter.CallAck => Some tt | _ => None end) t).

Definition errors_logged (t : list Call) : list string :=
  omap (fun c => match c with CallError _ e => Some e | _ => None end) t.

Definition published (t : list Call) : list cdevents.CDEvent :=
  omap (fun c => match c with
                 | InProcess (adapter.CallPublish e) => Some e
                 | _ => None
                 end) t.

End main_worker.

(** ** Test doubles for the publisher and for JetStream *)

Module doubles.

(** A transport on which every step succeeds: the cloud event is the
    CDEvent, the protocol its send subject, the client the protocol. *)
Definition transport_up : CloudEventsLibraries :=
  {| Conn := unit;
     Event := cdevents.CDEvent;
     Protocol := string;
     Client := string;
     AsCloudEvent := fun cdEvent => Value cdEvent;
     Context_GetType := fun e => cdevents.TypeString (cdevents.GetType e);
     cejsm_New := fun _ _ subject => Value subject;
     cloudevents_NewClient := fun proto => Value proto;
     Client_Send := fun _ _ _ => None |}.

(** The same, with a broker that cannot be reached: [cejsm.New] fails. *)
Definition transport_down : CloudEventsLibraries :=
  {| Conn := unit;
     Event := cdevents.CDEvent;
     Protocol := string;
     Client := string;
     AsCloudEvent := fun cdEvent => Value cdEvent;
     Context_GetType := fun e => cdevents.TypeString (cdevents.GetType e);
     cejsm_New := fun _ _ _ => Failure (Errorf "nats: no servers available for connection");
     cloudevents_NewClient := fun proto => Value proto;
     Client_Send := fun _ _ _ => None |}.

(** A JetStream on which the stream exists and cannot be updated. *)
Definition stream_in_use_update_fails : JetStream :=
  {| Stream := string;
     CreateStream := fun _ => (None, Some jetstream.ErrStreamNameAlreadyInUse);
     UpdateStream := fun _ => (None, Some (Errorf "nats: timeout")) |}.

(** A JetStream on which creation fails for another reason. *)
Definition stream_create_fails : JetStream :=
  {| Stream := string;
     CreateStream := fun _ => (None, Some (jetstream.OtherError "nats: timeout"));
     UpdateStream := fun config => (Some (jetstream.Name config), None) |}.

(** A JetStream on which the stream exists and is updated. *)
Definition stream_in_use : JetStream :=
  {| Stream := string;
     CreateStream := fun _ => (None, Some jetstream.ErrStreamNameAlreadyInUse);
     UpdateStream := fun config => (Some (jetstream.Name config), None) |}.

(** The stream of incoming webhooks, as [main] configures it by default. *)
Definition webhookStream : jetstream.StreamConfig :=
  {| jetstream.Name := "cdevents-adapter-webhooks";
     jetstream.Subjects := ["webhooks.>"];
     jetstream.Description := "CDEvents adapter incoming webhook stream";
     jetstream.Retention := jetstream.WorkQueuePolicy |}.

End doubles.

(** * Properties *)

(** ** Splitting and joining subjects *)

Lemma Split_length (s : string) (sep : ascii) : 1 <= length (strings.Split s sep).
Proof.
  induction s as [|c s IH]; simpl; [lia|].
  destruct (Ascii.eqb c sep); simpl; [lia|].
  destruct (strings.Split s sep); simpl in *; lia.
Qed.

Lemma Join_Split (s : string) (sep : ascii) :
  strings.Join (strings.Split s sep) (String sep EmptyString) = s.
Proof.
  induction s as [|c s IH]; simpl; [reflexivity|].
  destruct (Ascii.eqb_spec c sep) as [->|Hne].
  - pose proof (Split_length s sep) as Hlen.
    destruct (strings.Split s sep) as [|p ps] eqn:E; simpl in *; [lia|].
    now rewrite IH.
  - destruct (strings.Split s sep) as [|p ps] eqn:E; simpl in *.
    + now rewrite <- IH.
    + destruct ps; simpl in *; now rewrite <- IH.
Qed.

Lemma Split_no_sep (s : string) (sep : ascii) :
  strings.ContainsByte s sep = false -> strings.Split s sep = [s].
Proof.
  induction s as [|c s IH]; simpl; [reflexivity|].
  intros H. apply orb_false_iff in H as [Hc Hs].
  rewrite Hc, (IH Hs). reflexivity.
Qed.

Lemma Split_first (first rest : string) (sep : ascii) :
  strings.ContainsByte first sep = false ->
  strings.Split (first ++ String sep rest) sep = first :: strings.Split rest sep.
Proof.
  induction first as [|c s IH]; simpl; intros H.
  - now rewrite Ascii.eqb_refl.
  - apply orb_false_iff in H as [Hc Hs]. now rewrite Hc, (IH Hs).
Qed.

Lemma Split_few_parts (s : string) (sep : ascii) :
  length (strings.Split s sep) < 2 <-> strings.ContainsByte s sep = false.
Proof.
  split.
  - induction s as [|c s IH]; simpl; [reflexivity|].
    pose proof (Split_length s sep) as Hlen.
    destruct (Ascii.eqb c sep); simpl; [lia|].
    destruct (strings.Split s sep) eqn:E; simpl in *; [lia|].
    intros H. apply IH. simpl. lia.
  - intros H. rewrite (Split_no_sep _ _ H). simpl. lia.
Qed.

(** The routing key is the subject with its first segment dropped. *)
Lemma routing_key_drops_first_segment (first rest : string) :
  strings.ContainsByte first "." = false ->
  adapter.routing_key (first ++ String "." rest) = rest.
Proof.
  intros H. unfold adapter.routing_key. rewrite (Split_first _ _ _ H).
  simpl. apply (Join_Split rest ".").
Qed.

(** ** The message processor *)

Section Process.

Import adapter.

Context {L : GoLibraries}.

Implicit Types (c : CDEventAdapter) (msg : JetstreamMsg) (t : list Call).

Lemma ack_calls_app t1 t2 : ack_calls (t1 ++ t2) = ack_calls t1 + ack_calls t2.
Proof. unfold ack_calls. now rewrite omap_app, length_app. Qed.

Lemma translate_calls_app t1 t2 :
  translate_calls (t1 ++ t2) = translate_calls t1 ++ translate_calls t2.
Proof. apply omap_app. Qed.

Lemma publish_calls_app t1 t2 :
  publish_calls (t1 ++ t2) = publish_calls t1 ++ publish_calls t2.
Proof. apply omap_app. Qed.

(** The trace of [Process] is that of its body followed by the deferred
    [Ack]; its outcome is that of the body. *)
Lemma Process_defer c msg :
  Process c msg = (fst (Process_body c msg) ++ [CallAck], snd (Process_body c msg)).
Proof. reflexivity. Qed.

(** Every run of the body of [Process] takes one of the paths. *)
Lemma Process_body_path c msg : path c msg (Process_body c msg).
Proof.
  unfold Process_body, tbind, pure, call, throw.
  destruct (Metadata msg) as [md|e|v] eqn:Hmd;
    [|now apply path_metadata_error|now apply path_metadata_panic].
  simpl.
  destruct (json_Unmarshal_map (Data msg)) as [e|] eqn:Hjson;
    [now apply (path_not_json c msg md)|].
  simpl.
  destruct (Nat.ltb_spec (length (strings.Split (Subject msg) ".")) 2) as [Hlt|Hge];
    [now apply path_few_parts|].
  fold (routing_key (Subject msg)).
  destruct (translators c !! routing_key (Subject msg)) as [tr|] eqn:Htr;
    [|now apply path_no_translator].
  destruct (tr (Data msg)) as [cdEvent|e|v] eqn:Hev.
  - simpl. destruct (publisher c cdEvent) eqn:Hpub;
      rewrite <- Hpub; now apply path_published.
  - now apply (path_translate_error c msg md tr).
  - now apply (path_translate_panic c msg md tr).
Qed.

(** Facts about the trace that hold on every path. *)
Lemma body_never_acks c msg : ack_calls (fst (Process_body c msg)) = 0.
Proof. destruct (Process_body_path c msg); reflexivity. Qed.

Lemma body_publishes_what_was_translated c msg :
  match translate_calls (fst (Process_body c msg)) with
  | [] => publish_calls (fst (Process_body c msg)) = []
  | [(tr, data)] =>
      data = Data msg /\
      translators c !! routing_key (Subject msg) = Some tr /\
      match tr data with
      | Ok cdEvent => publish_calls (fst (Process_body c msg)) = [cdEvent]
      | _ => publish_calls (fst (Process_body c msg)) = []
      end
  | _ => False
  end.
Proof.
  destruct (Process_body_path c msg)
    as [| | | | |md tr e ? ? ? ? Hev|md tr v ? ? ? ? Hev|md tr cdEvent ? ? ? ? Hev];
    simpl; auto; repeat split; auto; now rewrite Hev.
Qed.

(** C3. [Process] acknowledges the message on every return path, whatever
    the outcome: the deferred [Ack] is the last call [Process] makes, and
    it is made exactly once, whether [Process] returns [nil], returns an
    error of any step, or panics. *)
Theorem Process_always_acknowledges c msg :
  last (fst (Process c msg)) = Some CallAck /\
  ack_calls (fst (Process c msg)) = 1.
Proof.
  rewrite Process_defer. simpl fst. split.
  - apply last_snoc.
  - rewrite ack_calls_app, body_never_acks. reflexivity.
Qed.

(** C4, amended. If the delivery metadata cannot be extracted, [Process]
    returns that error, calls neither a translator nor the publisher, and
    still makes the deferred call of [Ack]: [Ack] is the one call made,
    and what it returns is dropped. *)
Theorem Process_metadata_error_is_acknowledged c msg e :
  Metadata msg = Err e ->
  Process c msg = ([CallAck], Err e).
Proof.
  intros H. unfold Process, defer, Process_body, tbind, pure. now rewrite H.
Qed.

(** C1, amended. For a message whose metadata can be extracted, whose
    payload decodes as a JSON object, whose subject has at least two
    segments and whose routing key is registered, [Process] calls exactly
    the translator registered for that key, exactly once, with the payload
    bytes of the message. *)
Theorem Process_invokes_registered_translator c msg md tr :
  Metadata msg = Ok md ->
  json_Unmarshal_map (Data msg) = None ->
  2 <= length (strings.Split (Subject msg) ".") ->
  translators c !! routing_key (Subject msg) = Some tr ->
  translate_calls (fst (Process c msg)) = [(tr, Data msg)].
Proof.
  intros Hmd Hjson Hparts Htr. rewrite Process_defer. simpl fst.
  rewrite translate_calls_app, app_nil_r.
  destruct (Process_body_path c msg); simpl; try congruence; try lia.
Qed.

(** C2. Whenever the translator [Process] calls returns an event,
    [Process] calls [Publish] exactly once, with that event: the calls to
    the publisher are that one call. *)
Theorem Process_publishes_translated_event c msg tr data cdEvent :
  In (tr, data) (translate_calls (fst (Process c msg))) ->
  tr data = Ok cdEvent ->
  publish_calls (fst (Process c msg)) = [cdEvent].
Proof.
  rewrite Process_defer. simpl fst.
  rewrite translate_calls_app, publish_calls_app, !app_nil_r.
  intros Hin Hev. pose proof (body_publishes_what_was_translated c msg) as H.
  destruct (translate_calls (fst (Process_body c msg))) as [|[tr' data'] rest];
    [destruct Hin|].
  destruct rest; [|destruct H].
  destruct Hin as [[= -> ->]|[]]. destruct H as (_ & _ & H).
  now rewrite Hev in H.
Qed.

(** C5, amended. For a message whose subject has fewer than two segments,
    [Process] fails and calls neither a translator nor the publisher; when
    the metadata can be extracted and the payload decodes as a JSON object,
    the error is the "too few parts" error, otherwise it is the error of
    the metadata or that of [json.Unmarshal]. *)
Theorem Process_few_parts c msg :
  length (strings.Split (Subject msg) ".") < 2 ->
  translate_calls (fst (Process c msg)) = [] /\
  publish_calls (fst (Process c msg)) = [] /\
  snd (Process c msg) <> Ok tt /\
  (forall md,
     Metadata msg = Ok md ->
     json_Unmarshal_map (Data msg) = None ->
     snd (Process c msg) =
     Err (Errorf ("unable to determine type of message as subject has to few parts: "
                  ++ Subject msg))) /\
  (forall e, Metadata msg = Err e -> snd (Process c msg) = Err e) /\
  (forall md e,
     Metadata msg = Ok md ->
     json_Unmarshal_map (Data msg) = Some e ->
     snd (Process c msg) = Err e).
Proof.
  intros Hparts. rewrite Process_defer. simpl fst. simpl snd.
  rewrite translate_calls_app, publish_calls_app, !app_nil_r.
  destruct (Process_body_path c msg); simpl; try lia;
    repeat split; try discriminate; try congruence.
Qed.

(** C6, amended. For a message whose subject has at least two segments and
    whose routing key is not registered, [Process] fails and calls neither
    a translator nor the publisher; when the metadata can be extracted and
    the payload decodes as a JSON object, the error is "no translator found
    for subject: <key>", otherwise it is the error of the metadata or that
    of [json.Unmarshal]. *)
Theorem Process_no_translator c msg :
  2 <= length (strings.Split (Subject msg) ".") ->
  translators c !! routing_key (Subject msg) = None ->
  translate_calls (fst (Process c msg)) = [] /\
  publish_calls (fst (Process c msg)) = [] /\
  snd (Process c msg) <> Ok tt /\
  (forall md,
     Metadata msg = Ok md ->
     json_Unmarshal_map (Data msg) = None ->
     snd (Process c msg) =
     Err (Errorf ("no translator found for subject: " ++ routing_key (Subject msg)))) /\
  (forall e, Metadata msg = Err e -> snd (Process c msg) = Err e) /\
  (forall md e,
     Metadata msg = Ok md ->
     json_Unmarshal_map (Data msg) = Some e ->
     snd (Process c msg) = Err e).
Proof.
  intros Hparts Htr. rewrite Process_defer. simpl fst. simpl snd.
  rewrite translate_calls_app, publish_calls_app, !app_nil_r.
  destruct (Process_body_path c msg); simpl; try lia; try congruence;
    repeat split; try discriminate; try congruence.
Qed.

(** X27. The check that comes before routing: a payload that
    [json.Unmarshal] rejects ends [Process] with that error, before any
    translator is looked up. *)
Lemma Process_rejects_undecodable_payload c msg md e :
  Metadata msg = Ok md ->
  json_Unmarshal_map (Data msg) = Some e ->
  snd (Process c msg) = Err e /\
  translate_calls (fst (Process c msg)) = [] /\
  publish_calls (fst (Process c msg)) = [].
Proof.
  intros Hmd Hjson. rewrite Process_defer. simpl fst. simpl snd.
  rewrite translate_calls_app, publish_calls_app, !app_nil_r.
  destruct (Process_body_path c msg); simpl; repeat split; congruence.
Qed.

End Process.

(** ** The translators *)

Section Translators.

Import structs cdevents translator.

Context {L : GoLibraries}.

(** What [addSourcesFromRepositoryUrl] leaves in the event, by the outcome
    of the two library calls. *)
Lemma addSourcesFromRepositoryUrl_spec giteaEvent raw cdEvent :
  rawRepoUrl giteaEvent = Ok raw ->
  exists err,
    addSourcesFromRepositoryUrl giteaEvent cdEvent =
    Ok (match url_Parse raw with
        | Failure _ => cdEvent
        | Value u =>
            match url_JoinPath (url.Host u) [url.Path u] with
            | Failure _ => SetSource (url.Host u) cdEvent
            | Value s => SetSubjectSource s (SetSource (url.Host u) cdEvent)
            end
        end, err).
Proof.
  intros Hraw. unfold addSourcesFromRepositoryUrl. rewrite Hraw. simpl.
  destruct (url_Parse raw) as [u|e]; [|eauto].
  destruct (url_JoinPath (url.Host u) [url.Path u]); eauto.
Qed.

(** Setting the same source twice is setting it once: the default of the
    subject source is taken the first time. *)
Lemma SetSource_again source cdEvent :
  SetSource source (SetSource source cdEvent) = SetSource source cdEvent.
Proof.
  unfold SetSource. simpl. f_equal.
  destruct (String.eqb_spec (GetSubjectSource cdEvent) "") as [_|Hss].
  - now destruct (String.eqb source "").
  - apply String.eqb_neq in Hss. now rewrite Hss.
Qed.

(** X26. The derivation is idempotent: applying the helper again to the
    event it returned, for the same payload, returns that event and the
    same error. *)
Lemma addSourcesFromRepositoryUrl_idempotent giteaEvent cdEvent cdEvent' err :
  addSourcesFromRepositoryUrl giteaEvent cdEvent = Ok (cdEvent', err) ->
  addSourcesFromRepositoryUrl giteaEvent cdEvent' = Ok (cdEvent', err).
Proof.
  unfold addSourcesFromRepositoryUrl.
  destruct (rawRepoUrl giteaEvent) as [raw| |]; simpl; try discriminate.
  destruct (url_Parse raw) as [u|e]; [|congruence].
  destruct (url_JoinPath (url.Host u) [url.Path u]);
    intros [= <- <-]; [reflexivity|].
  now rewrite SetSource_again.
Qed.

Ltac run_translator :=
  unfold ignore_error, check_error, addGiteaEventAsCustomData, SetCustomData,
    CheckCustomData, index, cdeventsv04.NewChangeMergedEvent,
    cdeventsv04.NewChangeCreatedEvent, cdeventsv04.NewBranchCreatedEvent,
    cdeventsv04.NewBranchDeletedEvent, returns, bind;
  simpl.

(** The numeral [fmt.Sprintf("%d", n)] returns reads back as [n]. *)
Lemma Sprintf_d_reads_back (n : Z) :
  option_map Z.of_int (NilZero.int_of_string (Sprintf_d n)) = Some n.
Proof.
  unfold Sprintf_d. rewrite NilZero.isi.
  - simpl. now rewrite DecimalZ.of_to.
  - destruct n; simpl; try discriminate. intros [= H].
    now apply DecimalPos.Unsigned.to_uint_nonnil in H.
  - destruct n; simpl; try discriminate. intros [= H].
    now apply DecimalPos.Unsigned.to_uint_nonnil in H.
Qed.

(** C9. On a pull-request payload, [Translate] returns a "change created"
    event when the action is [opened] and a "change merged" event when it
    is [closed], both with subject id [pr-<pull request id>]: [pr-] and
    then the decimal numeral of the id (its digits without leading zeros,
    after a [-] when the id is negative), from which the id is read back;
    on any other action it fails with an error that names the action. *)
Theorem GiteaPullRequestTranslator_selects_by_action data p :
  json_Unmarshal_GiteaPullRequestEvent data = Value p ->
  (Action p = "opened" ->
   exists cdEvent,
     GiteaPullRequestTranslator.Translate data = Ok cdEvent /\
     GetType cdEvent = ChangeCreatedEventTypeV0_3_0 /\
     GetSubjectId cdEvent
     = ("pr-" ++ NilZero.string_of_int (Z.to_int (PullRequestId (PullRequest p))))%string) /\
  (Action p = "closed" ->
   exists cdEvent,
     GiteaPullRequestTranslator.Translate data = Ok cdEvent /\
     GetType cdEvent = ChangeMergedEventTypeV0_2_0 /\
     GetSubjectId cdEvent
     = ("pr-" ++ NilZero.string_of_int (Z.to_int (PullRequestId (PullRequest p))))%string) /\
  (Action p <> "opened" -> Action p <> "closed" ->
   GiteaPullRequestTranslator.Translate data =
   Err (Errorf ("unsupported Gitea Pull Request action: " ++ Action p))) /\
  (forall cdEvent,
     GiteaPullRequestTranslator.Translate data = Ok cdEvent ->
     exists digits,
       GetSubjectId cdEvent = ("pr-" ++ digits)%string /\
       option_map Z.of_int (NilZero.int_of_string digits)
       = Some (PullRequestId (PullRequest p))).
Proof.
  intros Hp. unfold GiteaPullRequestTranslator.Translate. rewrite Hp.
  cbn [returns bind]. split; [|split; [|split]].
  - intros Ha. rewrite Ha.
    destruct (addSourcesFromRepositoryUrl_spec (any_GiteaPullRequestEvent p)
                _ (SetSubjectRepository
                     {| Id := FullName (PullRequestRepository p) |}
                     (newEvent ChangeCreatedEventTypeV0_3_0)) eq_refl)
      as [err Hs].
    run_translator. rewrite Hs. simpl. eexists. split; [reflexivity|].
    destruct (url_Parse _) as [u|]; [destruct (url_JoinPath _ _)|]; now simpl.
  - intros Ha. rewrite Ha.
    destruct (addSourcesFromRepositoryUrl_spec (any_GiteaPullRequestEvent p)
                _ (SetSubjectRepository
                     {| Id := FullName (PullRequestRepository p) |}
                     (newEvent ChangeMergedEventTypeV0_2_0)) eq_refl)
      as [err Hs].
    run_translator. rewrite Hs. simpl. eexists. split; [reflexivity|].
    destruct (url_Parse _) as [u|]; [destruct (url_JoinPath _ _)|]; now simpl.
  - intros Ho Hc. apply String.eqb_neq in Ho, Hc.
    run_translator. now rewrite Ho, Hc.
  - intros cdEvent.
    destruct (String.eqb (Action p) "opened");
      [|destruct (String.eqb (Action p) "closed"); [|discriminate]].
    + destruct (addSourcesFromRepositoryUrl_spec (any_GiteaPullRequestEvent p)
                  _ (SetSubjectRepository
                       {| Id := FullName (PullRequestRepository p) |}
                       (newEvent ChangeCreatedEventTypeV0_3_0)) eq_refl)
        as [err Hs].
      run_translator. rewrite Hs. simpl. intros [= <-].
      exists (Sprintf_d (PullRequestId (PullRequest p))).
      split; [|apply Sprintf_d_reads_back].
      destruct (url_Parse _) as [u|]; [destruct (url_JoinPath _ _)|]; now simpl.
    + destruct (addSourcesFromRepositoryUrl_spec (any_GiteaPullRequestEvent p)
                  _ (SetSubjectRepository
                       {| Id := FullName (PullRequestRepository p) |}
                       (newEvent ChangeMergedEventTypeV0_2_0)) eq_refl)
        as [err Hs].
      run_translator. rewrite Hs. simpl. intros [= <-].
      exists (Sprintf_d (PullRequestId (PullRequest p))).
      split; [|apply Sprintf_d_reads_back].
      destruct (url_Parse _) as [u|]; [destruct (url_JoinPath _ _)|]; now simpl.
Qed.

(** C10. [GiteaPushTranslator.Translate] guards [Commits[0]] by
    [TotalCommits] alone: with [TotalCommits = 0] it returns the "no new
    commits" error whatever the commits list holds, and with
    [TotalCommits <> 0] and an empty commits list the index expression is
    out of range and the call panics. *)
Theorem GiteaPushTranslator_index_guarded_by_total_commits data p :
  json_Unmarshal_GiteaPushEvent data = Value p ->
  (TotalCommits p = 0%Z ->
   GiteaPushTranslator.Translate data =
   Err (Errorf "Push event contains no new commits, will not convert to a CD Event")) /\
  (TotalCommits p <> 0%Z -> Commits p = [] ->
   GiteaPushTranslator.Translate data = Panic (index_out_of_range 0 0)).
Proof.
  intros Hp. unfold GiteaPushTranslator.Translate. rewrite Hp.
  cbn [returns bind]. split.
  - intros ->. reflexivity.
  - intros Hn Hc. apply Z.eqb_neq in Hn. rewrite Hn, Hc.
    destruct (addSourcesFromRepositoryUrl_spec (any_GiteaPushEvent p)
                _ (newEvent ChangeMergedEventTypeV0_2_0) eq_refl) as [err Hs].
    run_translator. rewrite Hs. reflexivity.
Qed.

(** X28. Where the push translator does what is asked of it: for a push
    payload with [TotalCommits <> 0] and a commits list that is not empty, whose
    repository URL parses and whose host and path join, [Translate]
    returns a "change merged" event whose subject id is the id of the
    first listed commit, whose source is the URL's host, whose subject
    source is the join of host and path, and whose subject repository id
    is the repository's full name. *)
Theorem GiteaPushTranslator_change_merged data p commit rest u subjectSource :
  json_Unmarshal_GiteaPushEvent data = Value p ->
  TotalCommits p <> 0%Z ->
  Commits p = commit :: rest ->
  url_Parse (HtmlUrl (PushRepository p)) = Value u ->
  url_JoinPath (url.Host u) [url.Path u] = Value subjectSource ->
  exists cdEvent,
    GiteaPushTranslator.Translate data = Ok cdEvent /\
    GetType cdEvent = ChangeMergedEventTypeV0_2_0 /\
    GetSubjectId cdEvent = structs.Id commit /\
    GetSource cdEvent = url.Host u /\
    GetSubjectSource cdEvent = subjectSource /\
    GetSubjectRepository cdEvent = Some {| Id := FullName (PushRepository p) |}.
Proof.
  intros Hp Hn Hc Hu Hs. unfold GiteaPushTranslator.Translate. rewrite Hp.
  cbn [returns bind]. apply Z.eqb_neq in Hn. rewrite Hn, Hc.
  destruct (addSourcesFromRepositoryUrl_spec (any_GiteaPushEvent p)
              _ (newEvent ChangeMergedEventTypeV0_2_0) eq_refl) as [err Ha].
  run_translator. rewrite Ha. simpl in *. rewrite Hu, Hs.
  eexists. split; [reflexivity|]. simpl. auto.
Qed.

(** X29. The error of the shared helper is dropped: when the host and path
    do not join, the push translator still returns its event, with the
    source set to the host and the subject source left at what [SetSource]
    defaulted it to, the host again, without the path. *)
Lemma GiteaPushTranslator_join_error_dropped data p commit rest u e :
  json_Unmarshal_GiteaPushEvent data = Value p ->
  TotalCommits p <> 0%Z ->
  Commits p = commit :: rest ->
  url_Parse (HtmlUrl (PushRepository p)) = Value u ->
  url_JoinPath (url.Host u) [url.Path u] = Failure e ->
  exists cdEvent,
    GiteaPushTranslator.Translate data = Ok cdEvent /\
    GetSource cdEvent = url.Host u /\
    GetSubjectSource cdEvent = url.Host u.
Proof.
  intros Hp Hn Hc Hu Hs. unfold GiteaPushTranslator.Translate. rewrite Hp.
  cbn [returns bind]. apply Z.eqb_neq in Hn. rewrite Hn, Hc.
  destruct (addSourcesFromRepositoryUrl_spec (any_GiteaPushEvent p)
              _ (newEvent ChangeMergedEventTypeV0_2_0) eq_refl) as [err Ha].
  run_translator. rewrite Ha. simpl in *. rewrite Hu, Hs.
  eexists. split; [reflexivity|]. simpl. auto.
Qed.

(** So it is when the repository URL does not parse: neither field is
    set. *)
Lemma GiteaPushTranslator_parse_error_dropped data p commit rest e :
  json_Unmarshal_GiteaPushEvent data = Value p ->
  TotalCommits p <> 0%Z ->
  Commits p = commit :: rest ->
  url_Parse (HtmlUrl (PushRepository p)) = Failure e ->
  exists cdEvent,
    GiteaPushTranslator.Translate data = Ok cdEvent /\
    GetSource cdEvent = "" /\
    GetSubjectSource cdEvent = "".
Proof.
  intros Hp Hn Hc Hu. unfold GiteaPushTranslator.Translate. rewrite Hp.
  cbn [returns bind]. apply Z.eqb_neq in Hn. rewrite Hn, Hc.
  destruct (addSourcesFromRepositoryUrl_spec (any_GiteaPushEvent p)
              _ (newEvent ChangeMergedEventTypeV0_2_0) eq_refl) as [err Ha].
  run_translator. rewrite Ha. simpl in *. rewrite Hu.
  eexists. split; [reflexivity|]. simpl. auto.
Qed.

(** The registry of [main] holds the four translators and nothing else. *)
Lemma translators_lookup key (tr : CDEventTranslator) :
  main.translators !! key = Some tr ->
  (key = "gitea.push" /\ tr = GiteaPushTranslator.Translate) \/
  (key = "gitea.pull_request" /\ tr = GiteaPullRequestTranslator.Translate) \/
  (key = "gitea.create" /\ tr = GiteaCreateTranslator.Translate) \/
  (key = "gitea.delete" /\ tr = GiteaDeleteTranslator.Translate).
Proof.
  unfold main.translators. simpl. rewrite !lookup_insert, lookup_empty.
  repeat case_decide; intros [= <-]; subst; tauto.
Qed.

End Translators.

(** ** More of the message processor *)

Lemma Split_segments (s : string) (sep : ascii) (p : string) :
  In p (strings.Split s sep) -> strings.ContainsByte p sep = false.
Proof.
  revert p. induction s as [|c s IH]; simpl; intros p Hp.
  - destruct Hp as [<-|[]]. reflexivity.
  - destruct (Ascii.eqb c sep) eqn:Hc.
    + destruct Hp as [<-|Hp]; [reflexivity|auto].
    + pose proof (Split_length s sep) as Hlen.
      destruct (strings.Split s sep) as [|q qs]; simpl in *; [lia|].
      destruct Hp as [<-|Hp]; [|auto].
      simpl. rewrite Hc. apply IH. now left.
Qed.

(** X1. The routing key loses nothing but the first segment: a subject of
    at least two segments is its first segment, which holds no dot, then a
    dot, then its routing key. *)
Theorem routing_key_restores_subject (subject : string) :
  2 <= length (strings.Split subject ".") ->
  exists first,
    strings.Split subject "." !! 0 = Some first /\
    strings.ContainsByte first "." = false /\
    subject = (first ++ "." ++ adapter.routing_key subject)%string.
Proof.
  intros Hlen. unfold adapter.routing_key.
  pose proof (Join_Split subject ".") as Hjoin.
  pose proof (Split_segments subject ".") as Hseg.
  destruct (strings.Split subject ".") as [|first [|second rest]];
    simpl in Hlen; try lia.
  exists first. repeat split.
  - apply Hseg. now left.
  - rewrite <- Hjoin at 1. reflexivity.
Qed.

Section MoreProcess.

Import adapter.

Context {L : GoLibraries}.

Implicit Types (c : CDEventAdapter) (msg : JetstreamMsg).

(** X2. [Process] calls at most one translator and publishes at most one
    event for a message, and an event it publishes is the one the
    translator it called returned for the payload of the message. *)
Theorem Process_calls_at_most_once c msg :
  length (translate_calls (fst (Process c msg))) <= 1 /\
  length (publish_calls (fst (Process c msg))) <= 1 /\
  forall cdEvent,
    In cdEvent (publish_calls (fst (Process c msg))) ->
    exists tr,
      translate_calls (fst (Process c msg)) = [(tr, Data msg)] /\
      translators c !! routing_key (Subject msg) = Some tr /\
      tr (Data msg) = Ok cdEvent.
Proof.
  rewrite Process_defer. simpl fst.
  rewrite translate_calls_app, publish_calls_app, !app_nil_r.
  destruct (Process_body_path c msg); simpl; (split; [lia|split; [lia|]]);
    try (now intros ? []).
  intros ev [<-|[]]. eauto.
Qed.

(** X3. [Process] returns [nil] exactly when it called a translator that
    returned an event and the publisher returned [nil] for that event. *)
Theorem Process_succeeds_iff c msg :
  snd (Process c msg) = Ok tt <->
  exists tr cdEvent,
    translate_calls (fst (Process c msg)) = [(tr, Data msg)] /\
    tr (Data msg) = Ok cdEvent /\
    publisher c cdEvent = Ok tt.
Proof.
  rewrite Process_defer. simpl fst. simpl snd.
  rewrite translate_calls_app, app_nil_r.
  destruct (Process_body_path c msg)
    as [| | | | |md tr e ? ? ? ? Hev|md tr v ? ? ? ? Hev|md tr ev ? ? ? ? Hev];
    simpl; split; try discriminate;
    try (intros (tr' & ev' & Hc & Ht & Hp); discriminate Hc).
  - intros (tr' & ev' & [= <-] & Ht & Hp). congruence.
  - intros (tr' & ev' & [= <-] & Ht & Hp). congruence.
  - intros Hp. exists tr, ev. auto.
  - intros (tr' & ev' & [= <-] & Ht & Hp). congruence.
Qed.

(** X4. An error of the translator is the error of [Process]: the
    translator registered for the routing key is called once, nothing is
    published, and the message is acknowledged. *)
Theorem Process_surfaces_translation_error c msg md
    (tr : translator.CDEventTranslator) e :
  Metadata msg = Ok md ->
  json_Unmarshal_map (Data msg) = None ->
  2 <= length (strings.Split (Subject msg) ".") ->
  translators c !! routing_key (Subject msg) = Some tr ->
  tr (Data msg) = Err e ->
  snd (Process c msg) = Err e /\
  translate_calls (fst (Process c msg)) = [(tr, Data msg)] /\
  publish_calls (fst (Process c msg)) = [] /\
  ack_calls (fst (Process c msg)) = 1.
Proof.
  intros Hmd Hjson Hparts Htr Hev.
  rewrite Process_defer. simpl fst. simpl snd.
  rewrite translate_calls_app, publish_calls_app, ack_calls_app, !app_nil_r.
  rewrite body_never_acks.
  destruct (Process_body_path c msg); simpl; try congruence; try lia;
    repeat split; congruence.
Qed.

(** X5. A panic of the translator leaves [Process] as a panic, after the
    deferred [Ack] has acknowledged the message; nothing is published. *)
Theorem Process_propagates_translator_panic c msg md
    (tr : translator.CDEventTranslator) v :
  Metadata msg = Ok md ->
  json_Unmarshal_map (Data msg) = None ->
  2 <= length (strings.Split (Subject msg) ".") ->
  translators c !! routing_key (Subject msg) = Some tr ->
  tr (Data msg) = Panic v ->
  snd (Process c msg) = Panic v /\
  publish_calls (fst (Process c msg)) = [] /\
  last (fst (Process c msg)) = Some CallAck.
Proof.
  intros Hmd Hjson Hparts Htr Hev.
  rewrite Process_defer. simpl fst. simpl snd.
  rewrite last_snoc, publish_calls_app, !app_nil_r.
  destruct (Process_body_path c msg); simpl; try congruence; try lia;
    repeat split; congruence.
Qed.

(** X6. When the translator returns an event, [Process] ends as the call
    of [Publish] on that event ends: with its error, its panic, or
    [nil]. *)
Theorem Process_returns_what_Publish_returns c msg md
    (tr : translator.CDEventTranslator) cdEvent :
  Metadata msg = Ok md ->
  json_Unmarshal_map (Data msg) = None ->
  2 <= length (strings.Split (Subject msg) ".") ->
  translators c !! routing_key (Subject msg) = Some tr ->
  tr (Data msg) = Ok cdEvent ->
  snd (Process c msg) = publisher c cdEvent.
Proof.
  intros Hmd Hjson Hparts Htr Hev. rewrite Process_defer. simpl snd.
  destruct (Process_body_path c msg); simpl; try congruence; try lia.
Qed.

(** X7. What [Ack] returns is dropped: a message processes the same,
    call for call and with the same outcome, whether its [Ack] succeeds or
    fails. *)
Theorem Process_ignores_ack_result c msg (ack : option error) :
  Process c {| Data := Data msg; Subject := Subject msg; Ack := ack;
               Metadata := Metadata msg |}
  = Process c msg.
Proof. destruct msg. reflexivity. Qed.

(** X8. [Process] reads one entry of the registry, that of the routing
    key: registering a translator under any other key changes nothing for
    the message. *)
Theorem Process_reads_one_registry_entry c msg key
    (tr : translator.CDEventTranslator) :
  key <> routing_key (Subject msg) ->
  Process {| publisher := publisher c;
             translators := <[key := tr]> (translators c) |} msg
  = Process c msg.
Proof.
  intros Hkey. unfold Process, Process_body. simpl.
  fold (routing_key (Subject msg)). now rewrite lookup_insert_ne.
Qed.

End MoreProcess.

(** ** More of the translators *)

Section MoreTranslators.

Import structs cdevents translator.

Context {L : GoLibraries}.

Ltac step_translator :=
  unfold ignore_error, check_error, addGiteaEventAsCustomData, SetCustomData,
    CheckCustomData, index, cdeventsv04.NewChangeMergedEvent,
    cdeventsv04.NewChangeCreatedEvent, cdeventsv04.NewBranchCreatedEvent,
    cdeventsv04.NewBranchDeletedEvent, returns, bind;
  simpl.

(** The helper never panics on one of the four payload structs. *)
Lemma addSourcesFromRepositoryUrl_returns giteaEvent raw cdEvent :
  rawRepoUrl giteaEvent = Ok raw ->
  exists cdEvent' err,
    addSourcesFromRepositoryUrl giteaEvent cdEvent = Ok (cdEvent', err).
Proof.
  intros Hraw.
  destruct (addSourcesFromRepositoryUrl_spec giteaEvent raw cdEvent Hraw) as [err H].
  eauto.
Qed.

(** The helper leaves type and subject repository alone. *)
Lemma addSourcesFromRepositoryUrl_keeps giteaEvent cdEvent cdEvent' err :
  addSourcesFromRepositoryUrl giteaEvent cdEvent = Ok (cdEvent', err) ->
  GetType cdEvent' = GetType cdEvent /\
  GetSubjectRepository cdEvent' = GetSubjectRepository cdEvent.
Proof.
  unfold addSourcesFromRepositoryUrl.
  destruct (rawRepoUrl giteaEvent) as [raw| |]; simpl; try discriminate.
  destruct (url_Parse raw) as [u|e]; [|intros [= <- <-]; tauto].
  destruct (url_JoinPath (url.Host u) [url.Path u]);
    intros [= <- <-]; simpl; auto.
Qed.

(** X9. [addSourcesFromRepositoryUrl] writes the source and the subject
    source and nothing else: type, subject id, subject repository and
    custom data of the event are as before.  When it returns an error it
    has not called [SetSubjectSource]: a subject source that was set is as
    before, and one that was empty is still empty (the URL did not parse,
    and the source is as before too) or is what [SetSource] defaulted it
    to, the new source. *)
Theorem addSourcesFromRepositoryUrl_frame giteaEvent cdEvent cdEvent' err :
  addSourcesFromRepositoryUrl giteaEvent cdEvent = Ok (cdEvent', err) ->
  GetType cdEvent' = GetType cdEvent /\
  GetSubjectId cdEvent' = GetSubjectId cdEvent /\
  GetSubjectRepository cdEvent' = GetSubjectRepository cdEvent /\
  GetCustomData cdEvent' = GetCustomData cdEvent /\
  GetCustomDataContentType cdEvent' = GetCustomDataContentType cdEvent /\
  (err <> None -> GetSubjectSource cdEvent <> "" ->
   GetSubjectSource cdEvent' = GetSubjectSource cdEvent) /\
  (err <> None -> GetSubjectSource cdEvent = "" ->
   (GetSubjectSource cdEvent' = "" /\ GetSource cdEvent' = GetSource cdEvent) \/
   GetSubjectSource cdEvent' = GetSource cdEvent').
Proof.
  unfold addSourcesFromRepositoryUrl.
  destruct (rawRepoUrl giteaEvent) as [raw| |]; simpl; try discriminate.
  destruct (url_Parse raw) as [u|e]; [|intros [= <- <-]; tauto].
  destruct (url_JoinPath (url.Host u) [url.Path u]);
    intros [= <- <-]; simpl; repeat split; try congruence.
  - intros _ Hss. apply String.eqb_neq in Hss. now rewrite Hss.
  - intros _ ->. now right.
Qed.

(** The source and subject source the helper leaves depend on the
    repository URL and on what the two fields held, not on the kind of
    payload. *)
Lemma addSourcesFromRepositoryUrl_by_url g1 g2 e1 e2 e1' e2' err1 err2 :
  rawRepoUrl g1 = rawRepoUrl g2 ->
  GetSource e1 = GetSource e2 ->
  GetSubjectSource e1 = GetSubjectSource e2 ->
  addSourcesFromRepositoryUrl g1 e1 = Ok (e1', err1) ->
  addSourcesFromRepositoryUrl g2 e2 = Ok (e2', err2) ->
  GetSource e1' = GetSource e2' /\ GetSubjectSource e1' = GetSubjectSource e2'.
Proof.
  unfold addSourcesFromRepositoryUrl. intros <- Hs Hss.
  destruct (rawRepoUrl g1) as [raw| |]; simpl; try discriminate.
  destruct (url_Parse raw) as [u|e];
    [|intros [= <- <-] [= <- <-]; auto].
  destruct (url_JoinPath (url.Host u) [url.Path u]);
    intros [= <- <-] [= <- <-]; simpl; rewrite ?Hss; auto.
Qed.

(** What each translator does, case by case. *)
Lemma GiteaPushTranslator_cases data :
  match json_Unmarshal_GiteaPushEvent data with
  | Failure e => GiteaPushTranslator.Translate data = Err e
  | Value p =>
      if (TotalCommits p =? 0)%Z then
        GiteaPushTranslator.Translate data =
        Err (Errorf "Push event contains no new commits, will not convert to a CD Event")
      else
        exists e1 err,
          addSourcesFromRepositoryUrl (any_GiteaPushEvent p)
            (newEvent ChangeMergedEventTypeV0_2_0) = Ok (e1, err) /\
          GiteaPushTranslator.Translate data =
          match Commits p with
          | [] => Panic (index_out_of_range 0 0)
          | commit :: _ =>
              Ok (fst (addGiteaEventAsCustomData (any_GiteaPushEvent p)
                         (SetSubjectRepository
                            {| Id := FullName (PushRepository p) |}
                            (SetSubjectId (structs.Id commit) e1))))
          end
  end.
Proof.
  unfold GiteaPushTranslator.Translate.
  destruct (json_Unmarshal_GiteaPushEvent data) as [p|e]; [|reflexivity].
  cbn [returns bind]. destruct (TotalCommits p =? 0)%Z; [reflexivity|].
  destruct (addSourcesFromRepositoryUrl_returns (any_GiteaPushEvent p) _
              (newEvent ChangeMergedEventTypeV0_2_0) eq_refl) as (e1 & err & H).
  exists e1, err. split; [exact H|]. step_translator. rewrite H. simpl.
  destruct (Commits p); reflexivity.
Qed.

Lemma GiteaPullRequestTranslator_cases data :
  match json_Unmarshal_GiteaPullRequestEvent data with
  | Failure e => GiteaPullRequestTranslator.Translate data = Err e
  | Value p =>
      let built (type : CDEventType) :=
        exists e1 err,
          addSourcesFromRepositoryUrl (any_GiteaPullRequestEvent p)
            (SetSubjectRepository {| Id := FullName (PullRequestRepository p) |}
               (newEvent type)) = Ok (e1, err) /\
          GiteaPullRequestTranslator.Translate data =
          Ok (fst (addGiteaEventAsCustomData (any_GiteaPullRequestEvent p)
                     (SetSubjectId
                        ("pr-" ++ Sprintf_d (PullRequestId (PullRequest p))) e1))) in
      if String.eqb (Action p) "opened" then built ChangeCreatedEventTypeV0_3_0
      else if String.eqb (Action p) "closed" then built ChangeMergedEventTypeV0_2_0
      else GiteaPullRequestTranslator.Translate data =
           Err (Errorf ("unsupported Gitea Pull Request action: " ++ Action p))
  end.
Proof.
  unfold GiteaPullRequestTranslator.Translate.
  destruct (json_Unmarshal_GiteaPullRequestEvent data) as [p|e]; [|reflexivity].
  cbn [returns bind].
  destruct (String.eqb (Action p) "opened");
    [|destruct (String.eqb (Action p) "closed"); [|reflexivity]].
  - destruct (addSourcesFromRepositoryUrl_returns (any_GiteaPullRequestEvent p) _
                (SetSubjectRepository {| Id := FullName (PullRequestRepository p) |}
                   (newEvent ChangeCreatedEventTypeV0_3_0)) eq_refl)
      as (e1 & err & H).
    exists e1, err. split; [exact H|]. step_translator. rewrite H. reflexivity.
  - destruct (addSourcesFromRepositoryUrl_returns (any_GiteaPullRequestEvent p) _
                (SetSubjectRepository {| Id := FullName (PullRequestRepository p) |}
                   (newEvent ChangeMergedEventTypeV0_2_0)) eq_refl)
      as (e1 & err & H).
    exists e1, err. split; [exact H|]. step_translator. rewrite H. reflexivity.
Qed.

Lemma GiteaCreateTranslator_cases data :
  match json_Unmarshal_GiteaCreateEvent data with
  | Failure e => GiteaCreateTranslator.Translate data = Err e
  | Value p =>
      if String.eqb (CreateRefType p) "branch" then
        exists e1 err,
          addSourcesFromRepositoryUrl (any_GiteaCreateEvent p)
            (SetSubjectRepository {| Id := FullName (CreateRepository p) |}
               (newEvent BranchCreatedEventTypeV0_2_0)) = Ok (e1, err) /\
          GiteaCreateTranslator.Translate data =
          Ok (fst (addGiteaEventAsCustomData (any_GiteaCreateEvent p)
                     (SetSubjectId (CreateRef p) e1)))
      else GiteaCreateTranslator.Translate data =
           Err (Errorf ("unsupported Gitea create ref type: " ++ CreateRefType p))
  end.
Proof.
  unfold GiteaCreateTranslator.Translate.
  destruct (json_Unmarshal_GiteaCreateEvent data) as [p|e]; [|reflexivity].
  cbn [returns bind].
  destruct (String.eqb (CreateRefType p) "branch"); [|reflexivity].
  destruct (addSourcesFromRepositoryUrl_returns (any_GiteaCreateEvent p) _
              (SetSubjectRepository {| Id := FullName (CreateRepository p) |}
                 (newEvent BranchCreatedEventTypeV0_2_0)) eq_refl)
    as (e1 & err & H).
  exists e1, err. split; [exact H|]. step_translator. rewrite H. reflexivity.
Qed.

Lemma GiteaDeleteTranslator_cases data :
  match json_Unmarshal_GiteaDeleteEvent data with
  | Failure e => GiteaDeleteTranslator.Translate data = Err e
  | Value p =>
      if String.eqb (DeleteRefType p) "branch" then
        exists e1 err,
          addSourcesFromRepositoryUrl (any_GiteaDeleteEvent p)
            (SetSubjectRepository {| Id := FullName (DeleteRepository p) |}
               (newEvent BranchDeletedEventTypeV0_2_0)) = Ok (e1, err) /\
          GiteaDeleteTranslator.Translate data =
          Ok (fst (addGiteaEventAsCustomData (any_GiteaDeleteEvent p)
                     (SetSubjectId (DeleteRef p) e1)))
      else GiteaDeleteTranslator.Translate data =
           Err (Errorf ("unsupported Gitea create ref type: " ++ DeleteRefType p))
  end.
Proof.
  unfold GiteaDeleteTranslator.Translate.
  destruct (json_Unmarshal_GiteaDeleteEvent data) as [p|e]; [|reflexivity].
  cbn [returns bind].
  destruct (String.eqb (DeleteRefType p) "branch"); [|reflexivity].
  destruct (addSourcesFromRepositoryUrl_returns (any_GiteaDeleteEvent p) _
              (SetSubjectRepository {| Id := FullName (DeleteRepository p) |}
                 (newEvent BranchDeletedEventTypeV0_2_0)) eq_refl)
    as (e1 & err & H).
  exists e1, err. split; [exact H|]. step_translator. rewrite H. reflexivity.
Qed.

(** X10. On a create payload, [Translate] returns a "branch created" event
    when the ref type is [branch], with the ref as subject id and the
    repository's full name as subject repository id; on any other ref type
    it fails with an error that names the ref type. *)
Theorem GiteaCreateTranslator_selects_by_ref_type data p :
  json_Unmarshal_GiteaCreateEvent data = Value p ->
  (CreateRefType p = "branch" ->
   exists cdEvent,
     GiteaCreateTranslator.Translate data = Ok cdEvent /\
     GetType cdEvent = BranchCreatedEventTypeV0_2_0 /\
     GetSubjectId cdEvent = CreateRef p /\
     GetSubjectRepository cdEvent = Some {| Id := FullName (CreateRepository p) |}) /\
  (CreateRefType p <> "branch" ->
   GiteaCreateTranslator.Translate data =
   Err (Errorf ("unsupported Gitea create ref type: " ++ CreateRefType p))).
Proof.
  intros Hp. pose proof (GiteaCreateTranslator_cases data) as H.
  rewrite Hp in H. split.
  - intros Hb. rewrite Hb in H. simpl in H. destruct H as (e1 & err & Hs & ->).
    destruct (addSourcesFromRepositoryUrl_keeps _ _ _ _ Hs) as (Ht & Hr).
    eexists. split; [reflexivity|]. simpl. rewrite Ht, Hr. auto.
  - intros Hb. apply String.eqb_neq in Hb. now rewrite Hb in H.
Qed.

(** X11. On a delete payload, [Translate] returns a "branch deleted" event
    when the ref type is [branch], with the ref as subject id and the
    repository's full name as subject repository id; on any other ref type
    it fails, and its error speaks of a "create ref type", as the create
    translator's does. *)
Theorem GiteaDeleteTranslator_selects_by_ref_type data p :
  json_Unmarshal_GiteaDeleteEvent data = Value p ->
  (DeleteRefType p = "branch" ->
   exists cdEvent,
     GiteaDeleteTranslator.Translate data = Ok cdEvent /\
     GetType cdEvent = BranchDeletedEventTypeV0_2_0 /\
     GetSubjectId cdEvent = DeleteRef p /\
     GetSubjectRepository cdEvent = Some {| Id := FullName (DeleteRepository p) |}) /\
  (DeleteRefType p <> "branch" ->
   GiteaDeleteTranslator.Translate data =
   Err (Errorf ("unsupported Gitea create ref type: " ++ DeleteRefType p))).
Proof.
  intros Hp. pose proof (GiteaDeleteTranslator_cases data) as H.
  rewrite Hp in H. split.
  - intros Hb. rewrite Hb in H. simpl in H. destruct H as (e1 & err & Hs & ->).
    destruct (addSourcesFromRepositoryUrl_keeps _ _ _ _ Hs) as (Ht & Hr).
    eexists. split; [reflexivity|]. simpl. rewrite Ht, Hr. auto.
  - intros Hb. apply String.eqb_neq in Hb. now rewrite Hb in H.
Qed.

(** What an event returned by a registered translator holds: the decoded
    payload, tagged with its Go type, as JSON custom data; and the source
    and subject source the helper leaves in a fresh event. *)
Lemma translators_returned_event key (tr : CDEventTranslator) data cdEvent :
  main.translators !! key = Some tr ->
  tr data = Ok cdEvent ->
  exists giteaEvent raw e0 e1 err,
    decodes_to data giteaEvent /\
    rawRepoUrl giteaEvent = Ok raw /\
    GetSource e0 = "" /\ GetSubjectSource e0 = "" /\
    addSourcesFromRepositoryUrl giteaEvent e0 = Ok (e1, err) /\
    GetSource cdEvent = GetSource e1 /\
    GetSubjectSource cdEvent = GetSubjectSource e1 /\
    GetCustomData cdEvent = Some (any_KindContent (Sprintf_T giteaEvent) giteaEvent) /\
    GetCustomDataContentType cdEvent = "application/json".
Proof.
  intros Hkey Hev.
  assert (Hbuilt : forall g raw e0 e1 err id,
             addSourcesFromRepositoryUrl g e0 = Ok (e1, err) ->
             decodes_to data g -> rawRepoUrl g = Ok raw ->
             GetSource e0 = "" -> GetSubjectSource e0 = "" ->
             cdEvent = fst (addGiteaEventAsCustomData g (id e1)) ->
             GetSource (id e1) = GetSource e1 ->
             GetSubjectSource (id e1) = GetSubjectSource e1 ->
             exists giteaEvent raw e0 e1 err,
               decodes_to data giteaEvent /\
               rawRepoUrl giteaEvent = Ok raw /\
               GetSource e0 = "" /\ GetSubjectSource e0 = "" /\
               addSourcesFromRepositoryUrl giteaEvent e0 = Ok (e1, err) /\
               GetSource cdEvent = GetSource e1 /\
               GetSubjectSource cdEvent = GetSubjectSource e1 /\
               GetCustomData cdEvent
               = Some (any_KindContent (Sprintf_T giteaEvent) giteaEvent) /\
               GetCustomDataContentType cdEvent = "application/json").
  { intros g raw e0 e1 err id Hs Hd Hraw H0 H0' -> Hi Hi'.
    exists g, raw, e0, e1, err. simpl. rewrite Hi, Hi'. tauto. }
  destruct (translators_lookup _ _ Hkey) as [[_ ->]|[[_ ->]|[[_ ->]|[_ ->]]]].
  - pose proof (GiteaPushTranslator_cases data) as H. rewrite Hev in H.
    destruct (json_Unmarshal_GiteaPushEvent data) as [p|] eqn:Hp; [|discriminate].
    destruct (TotalCommits p =? 0)%Z; [discriminate|].
    destruct H as (e1 & err & Hs & H).
    destruct (Commits p) as [|commit rest]; [discriminate|]. injection H as H.
    eapply (Hbuilt (any_GiteaPushEvent p) _ _ e1 err
             (fun e => SetSubjectRepository {| Id := FullName (PushRepository p) |}
                         (SetSubjectId (structs.Id commit) e))
             Hs); first [exact Hp | reflexivity | auto].
  - pose proof (GiteaPullRequestTranslator_cases data) as H. rewrite Hev in H.
    destruct (json_Unmarshal_GiteaPullRequestEvent data) as [p|] eqn:Hp;
      [|discriminate].
    simpl in H.
    destruct (String.eqb (Action p) "opened");
      [|destruct (String.eqb (Action p) "closed"); [|discriminate]];
      destruct H as (e1 & err & Hs & [= H]);
      eapply (Hbuilt (any_GiteaPullRequestEvent p) _ _ e1 err
               (SetSubjectId ("pr-" ++ Sprintf_d (PullRequestId (PullRequest p))))
               Hs); first [exact Hp | reflexivity | auto].
  - pose proof (GiteaCreateTranslator_cases data) as H. rewrite Hev in H.
    destruct (json_Unmarshal_GiteaCreateEvent data) as [p|] eqn:Hp; [|discriminate].
    destruct (String.eqb (CreateRefType p) "branch"); [|discriminate].
    destruct H as (e1 & err & Hs & [= H]).
    eapply (Hbuilt (any_GiteaCreateEvent p) _ _ e1 err (SetSubjectId (CreateRef p))
             Hs); first [exact Hp | reflexivity | auto].
  - pose proof (GiteaDeleteTranslator_cases data) as H. rewrite Hev in H.
    destruct (json_Unmarshal_GiteaDeleteEvent data) as [p|] eqn:Hp; [|discriminate].
    destruct (String.eqb (DeleteRefType p) "branch"); [|discriminate].
    destruct H as (e1 & err & Hs & [= H]).
    eapply (Hbuilt (any_GiteaDeleteEvent p) _ _ e1 err (SetSubjectId (DeleteRef p))
             Hs); first [exact Hp | reflexivity | auto].
Qed.

(** X12. Every event a registered translator returns carries, as custom
    data of content type [application/json], the payload as that
    translator decoded it, wrapped in a struct whose [Kind] is the name of
    the payload's Go type: [structs.GiteaPushEvent] under [gitea.push],
    [structs.GiteaPullRequestEvent] under [gitea.pull_request],
    [structs.GiteaCreateEvent] under [gitea.create] and
    [structs.GiteaDeleteEvent] under [gitea.delete]. *)
Theorem translators_attach_payload key (tr : CDEventTranslator) data cdEvent :
  main.translators !! key = Some tr ->
  tr data = Ok cdEvent ->
  GetCustomDataContentType cdEvent = "application/json" /\
  ((key = "gitea.push" /\
    exists p,
      json_Unmarshal_GiteaPushEvent data = Value p /\
      GetCustomData cdEvent
      = Some (any_KindContent "structs.GiteaPushEvent" (any_GiteaPushEvent p))) \/
   (key = "gitea.pull_request" /\
    exists p,
      json_Unmarshal_GiteaPullRequestEvent data = Value p /\
      GetCustomData cdEvent
      = Some (any_KindContent "structs.GiteaPullRequestEvent"
                (any_GiteaPullRequestEvent p))) \/
   (key = "gitea.create" /\
    exists p,
      json_Unmarshal_GiteaCreateEvent data = Value p /\
      GetCustomData cdEvent
      = Some (any_KindContent "structs.GiteaCreateEvent" (any_GiteaCreateEvent p))) \/
   (key = "gitea.delete" /\
    exists p,
      json_Unmarshal_GiteaDeleteEvent data = Value p /\
      GetCustomData cdEvent
      = Some (any_KindContent "structs.GiteaDeleteEvent" (any_GiteaDeleteEvent p)))).
Proof.
  intros Hkey Hev.
  destruct (translators_lookup _ _ Hkey) as [[-> ->]|[[-> ->]|[[-> ->]|[-> ->]]]].
  - pose proof (GiteaPushTranslator_cases data) as H. rewrite Hev in H.
    destruct (json_Unmarshal_GiteaPushEvent data) as [p|] eqn:Hp; [|discriminate].
    destruct (TotalCommits p =? 0)%Z; [discriminate|].
    destruct H as (e1 & err & Hs & H).
    destruct (Commits p) as [|commit rest]; [discriminate|]. injection H as ->.
    split; [reflexivity|]. left. split; [reflexivity|]. now exists p.
  - pose proof (GiteaPullRequestTranslator_cases data) as H. rewrite Hev in H.
    destruct (json_Unmarshal_GiteaPullRequestEvent data) as [p|] eqn:Hp;
      [|discriminate].
    simpl in H.
    destruct (String.eqb (Action p) "opened");
      [|destruct (String.eqb (Action p) "closed"); [|discriminate]];
      destruct H as (e1 & err & Hs & [= ->]);
      (split; [reflexivity|]); right; left; (split; [reflexivity|]); now exists p.
  - pose proof (GiteaCreateTranslator_cases data) as H. rewrite Hev in H.
    destruct (json_Unmarshal_GiteaCreateEvent data) as [p|] eqn:Hp; [|discriminate].
    destruct (String.eqb (CreateRefType p) "branch"); [|discriminate].
    destruct H as (e1 & err & Hs & [= ->]).
    split; [reflexivity|]. do 2 right. left. split; [reflexivity|]. now exists p.
  - pose proof (GiteaDeleteTranslator_cases data) as H. rewrite Hev in H.
    destruct (json_Unmarshal_GiteaDeleteEvent data) as [p|] eqn:Hp; [|discriminate].
    destruct (String.eqb (DeleteRefType p) "branch"); [|discriminate].
    destruct H as (e1 & err & Hs & [= ->]).
    split; [reflexivity|]. do 3 right. split; [reflexivity|]. now exists p.
Qed.

(** X13. Events of any two registered translators whose payloads name the
    same repository URL have the same source and the same subject source,
    whatever the kinds of the payloads and whether or not the URL parses
    and joins. *)
Theorem translators_agree_on_sources
    key1 (tr1 : CDEventTranslator) data1 cdEvent1 kind1 payload1
    key2 (tr2 : CDEventTranslator) data2 cdEvent2 kind2 payload2 :
  main.translators !! key1 = Some tr1 ->
  main.translators !! key2 = Some tr2 ->
  tr1 data1 = Ok cdEvent1 ->
  tr2 data2 = Ok cdEvent2 ->
  GetCustomData cdEvent1 = Some (any_KindContent kind1 payload1) ->
  GetCustomData cdEvent2 = Some (any_KindContent kind2 payload2) ->
  rawRepoUrl payload1 = rawRepoUrl payload2 ->
  GetSource cdEvent1 = GetSource cdEvent2 /\
  GetSubjectSource cdEvent1 = GetSubjectSource cdEvent2.
Proof.
  intros Hk1 Hk2 He1 He2 Hc1 Hc2 Hraw.
  destruct (translators_returned_event _ _ _ _ Hk1 He1)
    as (g1 & raw1 & a0 & a1 & erra & _ & Hr1 & Ha & Has & Hsa & -> & -> & Hca & _).
  destruct (translators_returned_event _ _ _ _ Hk2 He2)
    as (g2 & raw2 & b0 & b1 & errb & _ & Hr2 & Hb & Hbs & Hsb & -> & -> & Hcb & _).
  rewrite Hca in Hc1. rewrite Hcb in Hc2.
  injection Hc1 as _ <-. injection Hc2 as _ <-.
  apply (addSourcesFromRepositoryUrl_by_url g1 g2 a0 b0 a1 b1 erra errb);
    congruence.
Qed.

(** X14. Of the registered translators only the push translator can panic,
    and only on a payload that decodes with [TotalCommits <> 0] and an
    empty commits list, at the index expression [Commits[0]]. *)
Theorem translators_panic_only_on_missing_commits key
    (tr : CDEventTranslator) data v :
  main.translators !! key = Some tr ->
  tr data = Panic v ->
  key = "gitea.push" /\
  v = index_out_of_range 0 0 /\
  exists p,
    json_Unmarshal_GiteaPushEvent data = Value p /\
    TotalCommits p <> 0%Z /\
    Commits p = [].
Proof.
  intros Hkey Hev.
  destruct (translators_lookup _ _ Hkey) as [[-> ->]|[[_ ->]|[[_ ->]|[_ ->]]]].
  - pose proof (GiteaPushTranslator_cases data) as H. rewrite Hev in H.
    destruct (json_Unmarshal_GiteaPushEvent data) as [p|] eqn:Hp; [|discriminate].
    destruct (Z.eqb_spec (TotalCommits p) 0); [discriminate|].
    destruct H as (e1 & err & Hs & H).
    destruct (Commits p) eqn:Hc; [|discriminate]. injection H as ->.
    repeat split; eauto.
  - pose proof (GiteaPullRequestTranslator_cases data) as H. rewrite Hev in H.
    destruct (json_Unmarshal_GiteaPullRequestEvent data) as [p|]; [|discriminate].
    simpl in H.
    destruct (String.eqb (Action p) "opened");
      [|destruct (String.eqb (Action p) "closed"); [|discriminate]];
      destruct H as (e1 & err & Hs & H); discriminate.
  - pose proof (GiteaCreateTranslator_cases data) as H. rewrite Hev in H.
    destruct (json_Unmarshal_GiteaCreateEvent data) as [p|]; [|discriminate].
    destruct (String.eqb (CreateRefType p) "branch"); [|discriminate].
    destruct H as (e1 & err & Hs & H); discriminate.
  - pose proof (GiteaDeleteTranslator_cases data) as H. rewrite Hev in H.
    destruct (json_Unmarshal_GiteaDeleteEvent data) as [p|]; [|discriminate].
    destruct (String.eqb (DeleteRefType p) "branch"); [|discriminate].
    destruct H as (e1 & err & Hs & H); discriminate.
Qed.

(** X15. An error a registered translator returns is the error of
    [json.Unmarshal] on the payload or one of the translators' own three
    errors; an error of [url.Parse] or [url.JoinPath] is never returned. *)
Theorem translators_errors key (tr : CDEventTranslator) data e :
  main.translators !! key = Some tr ->
  tr data = Err e ->
  json_Unmarshal_GiteaPushEvent data = Failure e \/
  json_Unmarshal_GiteaPullRequestEvent data = Failure e \/
  json_Unmarshal_GiteaCreateEvent data = Failure e \/
  json_Unmarshal_GiteaDeleteEvent data = Failure e \/
  e = Errorf "Push event contains no new commits, will not convert to a CD Event" \/
  (exists action,
     e = Errorf ("unsupported Gitea Pull Request action: " ++ action)) \/
  (exists refType,
     e = Errorf ("unsupported Gitea create ref type: " ++ refType)).
Proof.
  intros Hkey Hev.
  destruct (translators_lookup _ _ Hkey) as [[_ ->]|[[_ ->]|[[_ ->]|[_ ->]]]].
  - pose proof (GiteaPushTranslator_cases data) as H. rewrite Hev in H.
    destruct (json_Unmarshal_GiteaPushEvent data) as [p|]; [|injection H as <-; auto].
    destruct (TotalCommits p =? 0)%Z; [injection H as ->; tauto|].
    destruct H as (e1 & err & Hs & H). destruct (Commits p); discriminate.
  - pose proof (GiteaPullRequestTranslator_cases data) as H. rewrite Hev in H.
    destruct (json_Unmarshal_GiteaPullRequestEvent data) as [p|];
      [|injection H as <-; auto].
    simpl in H.
    destruct (String.eqb (Action p) "opened");
      [|destruct (String.eqb (Action p) "closed")];
      try (destruct H as (e1 & err & Hs & H); discriminate).
    injection H as ->. do 5 right. left. eauto.
  - pose proof (GiteaCreateTranslator_cases data) as H. rewrite Hev in H.
    destruct (json_Unmarshal_GiteaCreateEvent data) as [p|];
      [|injection H as <-; auto].
    destruct (String.eqb (CreateRefType p) "branch");
      [destruct H as (e1 & err & Hs & H); discriminate|].
    injection H as ->. do 6 right. eauto.
  - pose proof (GiteaDeleteTranslator_cases data) as H. rewrite Hev in H.
    destruct (json_Unmarshal_GiteaDeleteEvent data) as [p|];
      [|injection H as <-; tauto].
    destruct (String.eqb (DeleteRefType p) "branch");
      [destruct H as (e1 & err & Hs & H); discriminate|].
    injection H as ->. do 6 right. eauto.
Qed.

End MoreTranslators.

(** ** The publisher *)

Section Publisher.

Import trace CloudEventJetstreamPublisher.

Context {CE : CloudEventsLibraries}.

(** The ways through [Publish], by the first step that fails. *)
Lemma Publish_cases (p : t) cdEvent :
  Publish p cdEvent =
  match AsCloudEvent cdEvent with
  | Failure e => ([CallAsCloudEvent cdEvent], Err e)
  | Value cloudEvent =>
      let subject := Context_GetType cloudEvent in
      match cejsm_New 10 (nc p) subject with
      | Failure e =>
          ([CallAsCloudEvent cdEvent; CallWithTimeout 10;
            CallNew 10 (nc p) subject; CallCancel], Err e)
      | Value proto =>
          match cloudevents_NewClient proto with
          | Failure e =>
              ([CallAsCloudEvent cdEvent; CallWithTimeout 10;
                CallNew 10 (nc p) subject; CallNewClient proto; CallCancel],
               Err e)
          | Value client =>
              ([CallAsCloudEvent cdEvent; CallWithTimeout 10;
                CallNew 10 (nc p) subject; CallNewClient proto;
                CallSend 10 client cloudEvent; CallCancel],
               adapter.of_error (Client_Send 10 client cloudEvent))
          end
      end
  end.
Proof.
  unfold Publish, tbind, call, defer, returns.
  destruct (AsCloudEvent cdEvent) as [cloudEvent|e]; [|reflexivity]. simpl.
  destruct (cejsm_New 10 (nc p) (Context_GetType cloudEvent)) as [proto|e];
    [|reflexivity].
  simpl. destruct (cloudevents_NewClient proto) as [client|e]; [|reflexivity].
  simpl. destruct (Client_Send 10 client cloudEvent); reflexivity.
Qed.

(** X16. [Publish] sends at most once, and what it sends is the cloud
    event of the CDEvent it was given, through a client of a protocol that
    was created on the publisher's connection with the type of that cloud
    event as send subject and a deadline of ten seconds. *)
Theorem Publish_sends_the_converted_event (p : t) cdEvent cloudEvent :
  In cloudEvent (sends (fst (Publish p cdEvent))) ->
  sends (fst (Publish p cdEvent)) = [cloudEvent] /\
  AsCloudEvent cdEvent = Value cloudEvent /\
  exists proto client,
    cejsm_New 10 (nc p) (Context_GetType cloudEvent) = Value proto /\
    cloudevents_NewClient proto = Value client /\
    In (CallSend 10 client cloudEvent) (fst (Publish p cdEvent)).
Proof.
  rewrite Publish_cases.
  destruct (AsCloudEvent cdEvent) as [ce|e]; [|intros []]. simpl.
  destruct (cejsm_New 10 (nc p) (Context_GetType ce)) as [proto|e] eqn:Hn;
    [|intros []].
  destruct (cloudevents_NewClient proto) as [client|e] eqn:Hc; [|intros []].
  simpl. intros [<-|[]]. repeat split; auto.
  exists proto, client. repeat split; auto. do 4 right. now left.
Qed.

(** X17. [Publish] returns [nil] exactly when the conversion, the creation
    of the protocol, the creation of the client and the send all
    succeed. *)
Theorem Publish_succeeds_iff (p : t) cdEvent :
  snd (Publish p cdEvent) = Ok tt <->
  exists cloudEvent proto client,
    AsCloudEvent cdEvent = Value cloudEvent /\
    cejsm_New 10 (nc p) (Context_GetType cloudEvent) = Value proto /\
    cloudevents_NewClient proto = Value client /\
    Client_Send 10 client cloudEvent = None.
Proof.
  rewrite Publish_cases. split.
  - destruct (AsCloudEvent cdEvent) as [ce|e]; [|discriminate]. simpl.
    destruct (cejsm_New 10 (nc p) (Context_GetType ce)) as [proto|e] eqn:Hn;
      [|discriminate].
    destruct (cloudevents_NewClient proto) as [client|e] eqn:Hc; [|discriminate].
    simpl. destruct (Client_Send 10 client ce) eqn:Hs; [discriminate|].
    intros _. exists ce, proto, client. repeat split; auto.
  - intros (ce & proto & client & -> & Hn & Hc & Hs). simpl.
    now rewrite Hn, Hc, Hs.
Qed.

(** X18. The deadline context of [Publish] is scoped: there is at most
    one, it is created exactly when the conversion succeeded, and it is
    cancelled once, as the last call, whether the later steps succeed or
    fail. *)
Theorem Publish_cancels_its_context (p : t) cdEvent :
  cancels (fst (Publish p cdEvent)) = timeouts (fst (Publish p cdEvent)) /\
  (timeouts (fst (Publish p cdEvent)) = 1 <->
   exists cloudEvent, AsCloudEvent cdEvent = Value cloudEvent) /\
  (timeouts (fst (Publish p cdEvent)) = 0 <->
   exists e, AsCloudEvent cdEvent = Failure e) /\
  (timeouts (fst (Publish p cdEvent)) = 1 ->
   last (fst (Publish p cdEvent)) = Some CallCancel).
Proof.
  rewrite Publish_cases.
  destruct (AsCloudEvent cdEvent) as [ce|e]; simpl.
  - destruct (cejsm_New 10 (nc p) (Context_GetType ce)) as [proto|e];
      [destruct (cloudevents_NewClient proto) as [client|e]|];
      simpl; (repeat split; eauto; try discriminate);
      intros (? & [=]).
  - repeat split; eauto; try discriminate; intros (? & [=]).
Qed.

(** X19. [Publish] does not panic, and an error it returns is that of its
    first failing step; unless that step is the send itself, nothing was
    sent. *)
Theorem Publish_error_is_first_failure (p : t) cdEvent :
  (forall v, snd (Publish p cdEvent) <> Panic v) /\
  forall e,
    snd (Publish p cdEvent) = Err e ->
    (AsCloudEvent cdEvent = Failure e /\ fst (Publish p cdEvent) = [CallAsCloudEvent cdEvent]) \/
    exists cloudEvent,
      AsCloudEvent cdEvent = Value cloudEvent /\
      ((cejsm_New 10 (nc p) (Context_GetType cloudEvent) = Failure e /\
        sends (fst (Publish p cdEvent)) = []) \/
       exists proto,
         cejsm_New 10 (nc p) (Context_GetType cloudEvent) = Value proto /\
         ((cloudevents_NewClient proto = Failure e /\
           sends (fst (Publish p cdEvent)) = []) \/
          exists client,
            cloudevents_NewClient proto = Value client /\
            Client_Send 10 client cloudEvent = Some e)).
Proof.
  rewrite Publish_cases.
  destruct (AsCloudEvent cdEvent) as [ce|e0]; simpl.
  - destruct (cejsm_New 10 (nc p) (Context_GetType ce)) as [proto|e0] eqn:Hn;
      [destruct (cloudevents_NewClient proto) as [client|e0] eqn:Hc|]; simpl.
    + destruct (Client_Send 10 client ce) as [e0|] eqn:Hs; simpl;
        (split; [discriminate|]); intros e [= <-].
      right. exists ce. split; [reflexivity|]. right. exists proto.
      split; [exact Hn|]. right. exists client. auto.
    + split; [discriminate|]. intros e [= <-].
      right. exists ce. split; [reflexivity|]. right. exists proto. auto.
    + split; [discriminate|]. intros e [= <-].
      right. exists ce. auto.
  - split; [discriminate|]. intros e [= <-]. auto.
Qed.

End Publisher.

Section Pipeline.

Import adapter CloudEventJetstreamPublisher.

Context {L : GoLibraries} {CE : CloudEventsLibraries}.

(** X20. For the adapter [NewCDEventAdapter] builds, [Process] returns
    [nil] exactly when it called a translator that returned an event and
    that event was converted and sent with every step of [Publish]
    succeeding. *)
Theorem Process_with_publisher_succeeds_iff (conn : Conn)
    (registry : gmap string translator.CDEventTranslator) (msg : JetstreamMsg) :
  snd (Process (NewCDEventAdapter conn registry) msg) = Ok tt <->
  exists (tr : translator.CDEventTranslator) cdEvent cloudEvent proto client,
    registry !! routing_key (Subject msg) = Some tr /\
    tr (Data msg) = Ok cdEvent /\
    AsCloudEvent cdEvent = Value cloudEvent /\
    cejsm_New 10 conn (Context_GetType cloudEvent) = Value proto /\
    cloudevents_NewClient proto = Value client /\
    Client_Send 10 client cloudEvent = None /\
    translate_calls (fst (Process (NewCDEventAdapter conn registry) msg))
    = [(tr, Data msg)].
Proof.
  set (c := NewCDEventAdapter conn registry).
  assert (Hpub : forall ev,
             publisher c ev = Ok tt <->
             exists cloudEvent proto client,
               AsCloudEvent ev = Value cloudEvent /\
               cejsm_New 10 conn (Context_GetType cloudEvent) = Value proto /\
               cloudevents_NewClient proto = Value client /\
               Client_Send 10 client cloudEvent = None).
  { intros ev. unfold c, NewCDEventAdapter. simpl. rewrite Publish_cases. simpl.
    split.
    - destruct (AsCloudEvent ev) as [ce|e]; [|discriminate]. simpl.
      destruct (cejsm_New 10 conn (Context_GetType ce)) as [proto|e] eqn:Hn;
        [|discriminate].
      destruct (cloudevents_NewClient proto) as [client|e] eqn:Hc; [|discriminate].
      simpl. destruct (Client_Send 10 client ce) eqn:Hs; [discriminate|].
      intros _. exists ce, proto, client. repeat split; auto.
    - intros (ce & proto & client & -> & Hn & Hc & Hs). simpl.
      now rewrite Hn, Hc, Hs. }
  rewrite Process_defer. simpl fst. simpl snd.
  rewrite translate_calls_app, app_nil_r.
  destruct (Process_body_path c msg)
    as [| | | | |md tr e ? ? ? Hreg Hev|md tr v ? ? ? Hreg Hev
        |md tr ev ? ? ? Hreg Hev];
    simpl; split; try discriminate;
    try (intros (tr' & ev' & ce & proto & client & _ & _ & _ & _ & _ & _ & Hc);
         discriminate Hc);
    try (intros (tr' & ev' & ce & proto & client & _ & Ht & _ & _ & _ & _ & [= <-]);
         congruence).
  - intros Hok. apply Hpub in Hok as (ce & proto & client & Ha & Hn & Hc & Hs).
    exists tr, ev, ce, proto, client. auto 10.
  - intros (tr' & ev' & ce & proto & client & _ & Ht & Ha & Hn & Hc & Hs & [= <-]).
    apply Hpub. assert (ev' = ev) as -> by congruence. eauto 10.
Qed.

End Pipeline.

(** ** Streams at start-up *)

Section Streams.

Import jetstream main_streams.

Context {JS : JetStream}.

(** X21. [MustCreateStream] ends the process exactly when the stream name
    is in use and the update of the stream fails; the exit status is then
    [1], and the failure is logged first. *)
Theorem MustCreateStream_exits_iff (config : StreamConfig) :
  (snd (MustCreateStream config) = Exited 1 <->
   snd (CreateStream config) = Some ErrStreamNameAlreadyInUse /\
   snd (UpdateStream config) <> None) /\
  (forall code, snd (MustCreateStream config) = Exited code -> code = 1%Z) /\
  (forall code,
     In (CallExit code) (fst (MustCreateStream config)) ->
     snd (MustCreateStream config) = Exited code /\
     exists e,
       snd (UpdateStream config) = Some e /\
       In (CallError "Failed to update existing stream" (Error e))
          (fst (MustCreateStream config))).
Proof.
  unfold MustCreateStream.
  destruct (CreateStream config) as [stream [[|text]|]]; simpl;
    [destruct (UpdateStream config) as [stream' [e|]]; simpl|..];
    (split; [split; [intros H|intros [H1 H2]]|split; [intros code H|intros code H]]);
    try discriminate; try congruence; try (split; congruence).
  - destruct H as [|[|[|[|[[= <-]|[]]]]]]; try discriminate.
    split; [reflexivity|]. exists e. split; [reflexivity|]. do 3 right. now left.
  - destruct H as [|[|[|[]]]]; discriminate.
  - destruct H as [|[|[]]]; discriminate.
  - destruct H as [|[]]; discriminate.
Qed.

(** X22. When [CreateStream] fails with another error than "name in use",
    [MustCreateStream] logs the error and returns: it does not end the
    process, it does not try an update, and the stream it returns is the
    one [CreateStream] returned with its error. *)
Theorem MustCreateStream_returns_on_create_error (config : StreamConfig) text :
  snd (CreateStream config) = Some (OtherError text) ->
  snd (MustCreateStream config) = Returned (fst (CreateStream config)) /\
  In (CallError "Error when creating stream" text) (fst (MustCreateStream config)) /\
  (forall code, ~ In (CallExit code) (fst (MustCreateStream config))) /\
  (forall config', ~ In (CallUpdateStream config') (fst (MustCreateStream config))).
Proof.
  unfold MustCreateStream.
  destruct (CreateStream config) as [stream err]. simpl. intros ->. simpl.
  repeat split; auto; intros ? [|[|[]]]; discriminate.
Qed.

(** X23. [MustCreateStream] first creates the stream, and updates it
    exactly when the creation reported the name in use, with the
    configuration it was given; without an exit it returns the stream of
    the last of these calls. *)
Theorem MustCreateStream_updates_existing (config : StreamConfig) :
  head (fst (MustCreateStream config)) = Some (CallCreateStream config) /\
  (forall config',
     In (CallUpdateStream config') (fst (MustCreateStream config)) <->
     config' = config /\
     snd (CreateStream config) = Some ErrStreamNameAlreadyInUse) /\
  (forall stream,
     snd (MustCreateStream config) = Returned stream ->
     stream = match snd (CreateStream config) with
              | Some ErrStreamNameAlreadyInUse => fst (UpdateStream config)
              | _ => fst (CreateStream config)
              end).
Proof.
  unfold MustCreateStream.
  destruct (CreateStream config) as [stream [[|text]|]]; simpl;
    [destruct (UpdateStream config) as [stream' [e|]]; simpl|..];
    (split; [reflexivity|split; [intros config'; split; [intros H|intros [-> H]]
                                |intros s H]]);
    try discriminate; try (injection H as <-; reflexivity);
    try (repeat (destruct H as [H|H]); try discriminate H; try contradiction;
         injection H as <-; split; reflexivity);
    do 2 right; now left.
Qed.

End Streams.

(** ** The worker *)

Section Worker.

Import trace main_worker.

Context {L : GoLibraries}.

Implicit Types (c : adapter.CDEventAdapter) (messages : list adapter.JetstreamMsg).

Lemma acks_app (t1 t2 : list Call) : acks (t1 ++ t2) = acks t1 + acks t2.
Proof. unfold acks. now rewrite omap_app, length_app. Qed.

Lemma errors_logged_app (t1 t2 : list Call) :
  errors_logged (t1 ++ t2) = errors_logged t1 ++ errors_logged t2.
Proof. apply omap_app. Qed.

Lemma published_app (t1 t2 : list Call) :
  published (t1 ++ t2) = published t1 ++ published t2.
Proof. apply omap_app. Qed.

Lemma acks_InProcess (t : list adapter.Call) :
  acks (map InProcess t) = adapter.ack_calls t.
Proof.
  unfold acks, adapter.ack_calls.
  induction t as [|[] t IH]; simpl in *; auto.
Qed.

Lemma errors_logged_InProcess (t : list adapter.Call) :
  errors_logged (map InProcess t) = [].
Proof. induction t; simpl; auto. Qed.

Lemma published_InProcess (t : list adapter.Call) :
  published (map InProcess t) = adapter.publish_calls t.
Proof.
  unfold adapter.publish_calls.
  induction t as [|[] t IH]; simpl in *; auto. now rewrite IH.
Qed.

Lemma Process_acks_once c msg : adapter.ack_calls (fst (adapter.Process c msg)) = 1.
Proof.
  rewrite Process_defer. simpl fst. rewrite ack_calls_app, body_never_acks.
  reflexivity.
Qed.

(** One turn of the loop. *)
Lemma loop_cons c msg rest :
  loop c (msg :: rest) =
  match snd (adapter.Process c msg) with
  | Ok _ =>
      (map InProcess (fst (adapter.Process c msg)) ++ fst (loop c rest),
       snd (loop c rest))
  | Err e =>
      (map InProcess (fst (adapter.Process c msg))
       ++ [CallError "Error when processing message" (Error e)]
       ++ fst (loop c rest),
       snd (loop c rest))
  | Panic v => (map InProcess (fst (adapter.Process c msg)), Panic v)
  end.
Proof.
  simpl. destruct (adapter.Process c msg) as [t [u|e|v]]; simpl;
    try destruct (loop c rest); reflexivity.
Qed.

(** The trace of [Process], seen from the worker, ends with the [Ack]. *)
Lemma Process_ends_with_ack c msg :
  map InProcess (fst (adapter.Process c msg))
  = map InProcess (fst (adapter.Process_body c msg)) ++ [InProcess adapter.CallAck].
Proof. rewrite Process_defer. simpl fst. now rewrite map_app. Qed.

Lemma loop_no_panic c messages :
  (forall msg v, In msg messages -> snd (adapter.Process c msg) <> Panic v) ->
  snd (loop c messages) = Ok tt /\
  acks (fst (loop c messages)) = length messages /\
  errors_logged (fst (loop c messages)) =
  omap (fun msg => match snd (adapter.Process c msg) with
                   | Err e => Some (Error e)
                   | _ => None
                   end) messages /\
  published (fst (loop c messages)) =
  flat_map (fun msg => adapter.publish_calls (fst (adapter.Process c msg))) messages /\
  exists t, fst (loop c messages) = t ++ [CallInfo "Stopped processing messages"].
Proof.
  induction messages as [|msg rest IH]; intros Hnp.
  { simpl. repeat split; auto. now exists []. }
  destruct IH as (Hr & Ha & He & Hp & t0 & Ht).
  { intros m v Hin. apply Hnp. now right. }
  pose proof (Process_acks_once c msg) as Hack.
  specialize (Hnp msg).
  rewrite loop_cons. cbn [omap list_omap flat_map length].
  destruct (snd (adapter.Process c msg)) as [u|e|v]; cbn [fst snd].
  - rewrite acks_app, errors_logged_app, published_app, acks_InProcess,
      errors_logged_InProcess, published_InProcess, Hack, Ha, He, Hp.
    repeat split; auto. rewrite Ht. eexists. now rewrite app_assoc.
  - rewrite !acks_app, !errors_logged_app, !published_app, acks_InProcess,
      errors_logged_InProcess, published_InProcess, Hack, Ha, He, Hp.
    repeat split; auto. rewrite Ht. eexists. now rewrite !app_assoc.
  - exfalso. apply (Hnp v); [now left|reflexivity].
Qed.

(** X24. An error of [Process] does not stop the worker.  When no message
    makes [Process] panic, the worker handles every message it receives,
    in order: each is acknowledged once, the error of each failed message
    is logged, the events published are those of the messages in order,
    and the worker ends by stopping the consumer and signalling the wait
    group. *)
Theorem worker_survives_errors c messages :
  (forall msg v, In msg messages -> snd (adapter.Process c msg) <> Panic v) ->
  snd (worker c messages) = Ok tt /\
  acks (fst (worker c messages)) = length messages /\
  errors_logged (fst (worker c messages)) =
  omap (fun msg => match snd (adapter.Process c msg) with
                   | Err e => Some (Error e)
                   | _ => None
                   end) messages /\
  published (fst (worker c messages)) =
  flat_map (fun msg => adapter.publish_calls (fst (adapter.Process c msg))) messages /\
  exists t, fst (worker c messages)
            = t ++ [CallInfo "Stopped processing messages"; CallStop; CallDone].
Proof.
  intros Hnp.
  destruct (loop_no_panic c messages Hnp) as (Hr & Ha & He & Hp & t & Ht).
  unfold worker, defer. cbn [fst snd].
  rewrite !acks_app, !errors_logged_app, !published_app, Ha, He, Hp, !app_nil_r.
  repeat split; auto; try (cbn; lia).
  exists t. rewrite Ht. now rewrite <- !app_assoc.
Qed.

Lemma loop_panic c before msg after v :
  (forall m w, In m before -> snd (adapter.Process c m) <> Panic w) ->
  snd (adapter.Process c msg) = Panic v ->
  snd (loop c (before ++ msg :: after)) = Panic v /\
  acks (fst (loop c (before ++ msg :: after))) = length before + 1 /\
  exists t, fst (loop c (before ++ msg :: after))
            = t ++ [InProcess adapter.CallAck].
Proof.
  intros Hnp Hpanic. induction before as [|m rest IH].
  - cbn [app length]. rewrite loop_cons, Hpanic. cbn [fst snd].
    rewrite acks_InProcess, Process_acks_once. repeat split; auto.
    rewrite Process_ends_with_ack. eauto.
  - destruct IH as (Hr & Ha & t0 & Ht).
    { intros m' w Hin. apply Hnp. now right. }
    pose proof (Process_acks_once c m) as Hack.
    specialize (Hnp m).
    rewrite <- app_comm_cons, loop_cons. cbn [length].
    destruct (snd (adapter.Process c m)) as [u|e|w]; cbn [fst snd].
    + rewrite acks_app, acks_InProcess, Hack, Ha.
      repeat split; auto. rewrite Ht. eexists. now rewrite app_assoc.
    + rewrite !acks_app, acks_InProcess, Hack, Ha.
      repeat split; auto. rewrite Ht. eexists. now rewrite !app_assoc.
    + exfalso. apply (Hnp w); [now left|reflexivity].
Qed.

(** X25. A panic of [Process] ends the worker: the messages before the
    panicking one are handled, that message is still acknowledged by the
    deferred [Ack] of [Process], no later message is touched, and the
    deferred calls of the worker run before the panic leaves it. *)
Theorem worker_stops_at_first_panic c before msg after v :
  (forall m w, In m before -> snd (adapter.Process c m) <> Panic w) ->
  snd (adapter.Process c msg) = Panic v ->
  snd (worker c (before ++ msg :: after)) = Panic v /\
  acks (fst (worker c (before ++ msg :: after))) = length before + 1 /\
  exists t, fst (worker c (before ++ msg :: after))
            = t ++ [InProcess adapter.CallAck; CallStop; CallDone].
Proof.
  intros Hnp Hpanic.
  destruct (loop_panic c before msg after v Hnp Hpanic) as (Hr & Ha & t & Ht).
  unfold worker, defer. cbn [fst snd].
  rewrite !acks_app, Ha. repeat split; auto; try (cbn; lia).
  exists t. rewrite Ht. now rewrite <- !app_assoc.
Qed.

End Worker.

(** ** The program on Go's libraries: the repository's tests *)

#[local] Existing Instance GoStd.libraries.

Import adapter cdevents translator tests.

(** [TestProcess], "translates message data and publishes translated
    event". *)
Example TestProcess_translates_and_publishes :
  let r := Process (testAdapter "test.event")
             (newMockJetstreamMsg "webhook.test.event" msgData) in
  snd r = Ok tt /\
  translate_calls (fst r) = [(MockCDEventTranslator, msgData)] /\
  publish_calls (fst r) = [cde].
Proof. vm_compute. auto. Qed.

(** [TestProcess], "error when no translator matching subject". *)
Example TestProcess_no_translator :
  let r := Process (testAdapter "test.bar")
             (newMockJetstreamMsg "webhook.test.foo" msgData) in
  snd r = Err (Errorf "no translator found for subject: test.foo") /\
  publish_calls (fst r) = [].
Proof. vm_compute. auto. Qed.

(** [TestProcess], "error on less than 2 subject parts". *)
Example TestProcess_few_parts :
  let r := Process (testAdapter "test.bar") (newMockJetstreamMsg "webhook" msgData) in
  snd r =
  Err (Errorf "unable to determine type of message as subject has to few parts: webhook") /\
  publish_calls (fst r) = [].
Proof. vm_compute. auto. Qed.

Ltac run_test := vm_compute; eexists; repeat split; reflexivity.

(** [TestGiteaPushTranslator], "returns ChangeMergedEvent on push to main
    branch payload". *)
Example TestGiteaPushTranslator_main :
  asserted (GiteaPushTranslator.Translate pushMainPayload)
    ChangeMergedEventTypeV0_2_0 "9d7b2d18bf7f315c666a4b3607f47bd452e7c8d2"
    "git.example.com" "git.example.com/yoloco/project1" "yoloco/project1".
Proof. run_test. Qed.

(** [TestGiteaPushTranslator], "error on push to new branch with no new
    commits". *)
Example TestGiteaPushTranslator_new_branch :
  GiteaPushTranslator.Translate pushNewBranchPayload =
  Err (Errorf "Push event contains no new commits, will not convert to a CD Event").
Proof. vm_compute. reflexivity. Qed.

(** [TestGiteaPullRequestTranslator], both cases. *)
Example TestGiteaPullRequestTranslator_opened :
  asserted (GiteaPullRequestTranslator.Translate prOpenedPayload)
    ChangeCreatedEventTypeV0_3_0 "pr-3"
    "git.example.com" "git.example.com/yoloco/project1" "yoloco/project1".
Proof. run_test. Qed.

Example TestGiteaPullRequestTranslator_closed :
  asserted (GiteaPullRequestTranslator.Translate prClosedPayload)
    ChangeMergedEventTypeV0_2_0 "pr-3"
    "git.example.com" "git.example.com/yoloco/project1" "yoloco/project1".
Proof. run_test. Qed.

(** [TestGiteaCreateTranslator] and [TestGiteaDeleteTranslator]. *)
Example TestGiteaCreateTranslator :
  asserted (GiteaCreateTranslator.Translate createPayload)
    BranchCreatedEventTypeV0_2_0 "foo"
    "git.example.com" "git.example.com/yoloco/project1" "yoloco/project1".
Proof. run_test. Qed.

Example TestGiteaDeleteTranslator :
  asserted (GiteaDeleteTranslator.Translate deletePayload)
    BranchDeletedEventTypeV0_2_0 "foo"
    "git.example.com" "git.example.com/yoloco/project1" "yoloco/project1".
Proof. run_test. Qed.

(** ** The claims at concrete messages and payloads *)

(** The payload [hello] is no JSON text, whatever the fuel of the scanner. *)
Lemma notJson_rejected fuel depth : GoStd.scan_value fuel depth "hello" = None.
Proof. destruct fuel; reflexivity. Qed.

(** A host with a port is no base for [url.JoinPath] when it starts with a
    digit: its first path segment has a colon. *)
Lemma JoinPath_rejects_address_with_port :
  GoStd.JoinPath "192.168.1.1:3000" ["/yoloco/project1"]
  = Failure (Errorf ("parse " ++ GoStd.Quote "192.168.1.1:3000"
                     ++ ": first path segment in URL cannot contain colon")).
Proof. reflexivity. Qed.

(** C1 as stated fails: with a registered routing key and a three-segment
    subject, no translator is called when the payload is not JSON, nor
    when the metadata cannot be extracted. *)
Lemma Process_skips_translator_counterexample :
  let c := testAdapter "test.event" in
  let msg := newMockJetstreamMsg "webhook.test.event" notJson in
  let msg' := msgWithoutMetadata "webhook.test.event" msgData in
  2 <= length (strings.Split (Subject msg) ".") /\
  translators c !! routing_key (Subject msg) = Some MockCDEventTranslator /\
  translate_calls (fst (Process c msg)) = [] /\
  translate_calls (fst (Process c msg')) = [].
Proof. vm_compute. repeat split; auto. Qed.

Lemma Process_invokes_registered_translator_witness :
  translate_calls
    (fst (Process (testAdapter "test.event")
            (newMockJetstreamMsg "webhook.test.event" msgData)))
  = [(MockCDEventTranslator, msgData)].
Proof.
  eapply (Process_invokes_registered_translator
            (testAdapter "test.event")
            (newMockJetstreamMsg "webhook.test.event" msgData)).
  - reflexivity.
  - vm_compute. reflexivity.
  - vm_compute. lia.
  - vm_compute. reflexivity.
Defined.

Lemma Process_publishes_translated_event_witness :
  publish_calls
    (fst (Process (testAdapter "test.event")
            (newMockJetstreamMsg "webhook.test.event" msgData)))
  = [cde].
Proof.
  apply (Process_publishes_translated_event _ _ MockCDEventTranslator msgData).
  - vm_compute. left. reflexivity.
  - reflexivity.
Defined.

(** C4 as stated fails: when [Metadata] returns an error, [Process]
    returns it and the message is acknowledged all the same. *)
Lemma Process_metadata_error_counterexample :
  let c := testAdapter "test.event" in
  let msg := msgWithoutMetadata "webhook.test.event" msgData in
  Metadata msg = Err (Errorf "nats: not a JetStream message") /\
  snd (Process c msg) = Err (Errorf "nats: not a JetStream message") /\
  ack_calls (fst (Process c msg)) = 1.
Proof. vm_compute. auto. Qed.

Lemma Process_metadata_error_is_acknowledged_witness :
  Process (testAdapter "test.event")
    (msgWithoutMetadata "webhook.test.event" msgData)
  = ([CallAck], Err (Errorf "nats: not a JetStream message")).
Proof.
  apply Process_metadata_error_is_acknowledged. reflexivity.
Defined.

(** C5 as stated fails: for a one-segment subject and a payload that is not
    JSON, the error [Process] returns is that of [json.Unmarshal], not the
    "too few parts" error; so it is when the metadata cannot be
    extracted. *)
Lemma Process_few_parts_counterexample :
  let c := testAdapter "test.bar" in
  let msg := newMockJetstreamMsg "webhook" notJson in
  let msg' := msgWithoutMetadata "webhook" msgData in
  let few_parts :=
    Errorf "unable to determine type of message as subject has to few parts: webhook" in
  length (strings.Split (Subject msg) ".") < 2 /\
  (exists e, json_Unmarshal_map (Data msg) = Some e /\ snd (Process c msg) = Err e) /\
  snd (Process c msg) <> Err few_parts /\
  snd (Process c msg') <> Err few_parts.
Proof.
  vm_compute. repeat split; [lia|eexists; split; reflexivity|discriminate..].
Qed.

Lemma Process_few_parts_witness :
  let c := testAdapter "test.bar" in
  let msg := newMockJetstreamMsg "webhook" msgData in
  translate_calls (fst (Process c msg)) = [] /\
  publish_calls (fst (Process c msg)) = [] /\
  snd (Process c msg) <> Ok tt /\
  (forall md,
     Metadata msg = Ok md ->
     json_Unmarshal_map (Data msg) = None ->
     snd (Process c msg) =
     Err (Errorf ("unable to determine type of message as subject has to few parts: "
                  ++ Subject msg))) /\
  (forall e, Metadata msg = Err e -> snd (Process c msg) = Err e) /\
  (forall md e,
     Metadata msg = Ok md ->
     json_Unmarshal_map (Data msg) = Some e ->
     snd (Process c msg) = Err e).
Proof.
  apply (Process_few_parts (testAdapter "test.bar")
           (newMockJetstreamMsg "webhook" msgData)).
  vm_compute. lia.
Defined.

(** C6 as stated fails: for an unregistered routing key and a payload that
    is not JSON, the error [Process] returns is that of [json.Unmarshal],
    not "no translator found"; so it is when the metadata cannot be
    extracted. *)
Lemma Process_no_translator_counterexample :
  let c := testAdapter "test.bar" in
  let msg := newMockJetstreamMsg "webhook.test.foo" notJson in
  let msg' := msgWithoutMetadata "webhook.test.foo" msgData in
  let not_found := Errorf "no translator found for subject: test.foo" in
  2 <= length (strings.Split (Subject msg) ".") /\
  routing_key (Subject msg) = "test.foo" /\
  translators c !! routing_key (Subject msg) = None /\
  (exists e, json_Unmarshal_map (Data msg) = Some e /\ snd (Process c msg) = Err e) /\
  snd (Process c msg) <> Err not_found /\
  snd (Process c msg') <> Err not_found.
Proof.
  vm_compute.
  repeat split; [lia|eexists; split; reflexivity|discriminate..].
Qed.

Lemma Process_no_translator_witness :
  let c := testAdapter "test.bar" in
  let msg := newMockJetstreamMsg "webhook.test.foo" msgData in
  translate_calls (fst (Process c msg)) = [] /\
  publish_calls (fst (Process c msg)) = [] /\
  snd (Process c msg) <> Ok tt /\
  (forall md,
     Metadata msg = Ok md ->
     json_Unmarshal_map (Data msg) = None ->
     snd (Process c msg) =
     Err (Errorf ("no translator found for subject: " ++ routing_key (Subject msg)))) /\
  (forall e, Metadata msg = Err e -> snd (Process c msg) = Err e) /\
  (forall md e,
     Metadata msg = Ok md ->
     json_Unmarshal_map (Data msg) = Some e ->
     snd (Process c msg) = Err e).
Proof.
  apply (Process_no_translator (testAdapter "test.bar")
           (newMockJetstreamMsg "webhook.test.foo" msgData)).
  - vm_compute. lia.
  - vm_compute. reflexivity.
Defined.

(** C7 fails on the code.  The helper that all four translators share
    sets the source to the host of the repository URL and the subject
    source to what [url.JoinPath] makes of host and path; its error is
    dropped by every caller.  For a repository served from an address with
    a port, the URL parses into host and path, [url.JoinPath] rejects the
    host as a base, and each of the pull-request, create and delete
    translators of the registry returns its event with the host alone as
    subject source, where the claim has host joined with path.  For a
    named host with a port, [url.JoinPath] succeeds and returns the host
    without the path. *)
Theorem translators_subject_source_without_path :
  (exists u,
     url_Parse "http://192.168.1.1:3000/yoloco/project1" = Value u /\
     url.Host u = "192.168.1.1:3000" /\
     url.Path u = "/yoloco/project1" /\
     exists e, url_JoinPath (url.Host u) [url.Path u] = Failure e) /\
  (exists p cdEvent,
     main.translators !! "gitea.pull_request"
     = Some GiteaPullRequestTranslator.Translate /\
     json_Unmarshal_GiteaPullRequestEvent prWithPortPayload = Value p /\
     structs.HtmlUrl (structs.PullRequestRepository p)
     = "http://192.168.1.1:3000/yoloco/project1" /\
     GiteaPullRequestTranslator.Translate prWithPortPayload = Ok cdEvent /\
     GetSource cdEvent = "192.168.1.1:3000" /\
     GetSubjectSource cdEvent = "192.168.1.1:3000") /\
  (exists p cdEvent,
     main.translators !! "gitea.create" = Some GiteaCreateTranslator.Translate /\
     json_Unmarshal_GiteaCreateEvent createWithPortPayload = Value p /\
     structs.HtmlUrl (structs.CreateRepository p)
     = "http://192.168.1.1:3000/yoloco/project1" /\
     GiteaCreateTranslator.Translate createWithPortPayload = Ok cdEvent /\
     GetSource cdEvent = "192.168.1.1:3000" /\
     GetSubjectSource cdEvent = "192.168.1.1:3000") /\
  (exists p cdEvent,
     main.translators !! "gitea.delete" = Some GiteaDeleteTranslator.Translate /\
     json_Unmarshal_GiteaDeleteEvent deleteWithPortPayload = Value p /\
     structs.HtmlUrl (structs.DeleteRepository p)
     = "http://192.168.1.1:3000/yoloco/project1" /\
     GiteaDeleteTranslator.Translate deleteWithPortPayload = Ok cdEvent /\
     GetSource cdEvent = "192.168.1.1:3000" /\
     GetSubjectSource cdEvent = "192.168.1.1:3000") /\
  (exists p u cdEvent,
     json_Unmarshal_GiteaPullRequestEvent prWithNamedPortPayload = Value p /\
     url_Parse (structs.HtmlUrl (structs.PullRequestRepository p)) = Value u /\
     url.Host u = "git.example.com:3000" /\
     url.Path u = "/yoloco/project1" /\
     GiteaPullRequestTranslator.Translate prWithNamedPortPayload = Ok cdEvent /\
     GetSource cdEvent = "git.example.com:3000" /\
     GetSubjectSource cdEvent = "git.example.com:3000").
Proof.
  split; [|split; [|split; [|split]]].
  - eexists. split; [vm_compute; reflexivity|]. split; [reflexivity|].
    split; [reflexivity|]. eexists. vm_compute. reflexivity.
  - do 2 eexists. split; [reflexivity|]. repeat split; vm_compute; reflexivity.
  - do 2 eexists. split; [reflexivity|]. repeat split; vm_compute; reflexivity.
  - do 2 eexists. split; [reflexivity|]. repeat split; vm_compute; reflexivity.
  - do 3 eexists. repeat split; vm_compute; reflexivity.
Qed.

(** No translator checks a field for emptiness: the delete translator
    returns, for a payload that names no ref and no repository, an event
    whose source, subject id and subject source are all empty. *)
Example GiteaDeleteTranslator_empty_fields :
  exists cdEvent,
    main.translators !! "gitea.delete" = Some GiteaDeleteTranslator.Translate /\
    GiteaDeleteTranslator.Translate deleteWithoutRepositoryPayload = Ok cdEvent /\
    GetSource cdEvent = "" /\
    GetSubjectId cdEvent = "" /\
    GetSubjectSource cdEvent = "".
Proof. eexists. split; [reflexivity|]. repeat split; vm_compute; reflexivity. Qed.

(** C8 fails on the code at two pushes of one new commit.  For a
    repository whose URL has a port, the URL parses into host and path, yet
    [url.JoinPath] rejects the host as a base, the helper's error is
    dropped, and the event is returned with the host alone as subject
    source, as [SetSource] defaulted it, without the repository path.  For
    a payload that counts one commit and lists none, [Translate] panics
    and returns no event. *)
Lemma GiteaPushTranslator_subject_source_lost :
  (exists p u cdEvent,
     json_Unmarshal_GiteaPushEvent pushWithPortPayload = Value p /\
     structs.TotalCommits p = 1%Z /\
     structs.Commits p
     = [{| structs.Id := "9d7b2d18bf7f315c666a4b3607f47bd452e7c8d2" |}] /\
     url_Parse (structs.HtmlUrl (structs.PushRepository p)) = Value u /\
     url.Host u = "192.168.1.1:3000" /\
     url.Path u = "/yoloco/project1" /\
     GiteaPushTranslator.Translate pushWithPortPayload = Ok cdEvent /\
     GetSource cdEvent = "192.168.1.1:3000" /\
     GetSubjectSource cdEvent = "192.168.1.1:3000") /\
  (exists p,
     json_Unmarshal_GiteaPushEvent pushWithoutCommitsPayload = Value p /\
     structs.TotalCommits p = 1%Z /\
     GiteaPushTranslator.Translate pushWithoutCommitsPayload
     = Panic "runtime error: index out of range [0] with length 0").
Proof.
  split.
  - do 3 eexists. repeat split; vm_compute; reflexivity.
  - eexists. repeat split; vm_compute; reflexivity.
Qed.

(** With a named host and a port, [url.JoinPath] reads the host as a scheme
    and the port as an opaque part, and the path is lost. *)
Example GiteaPushTranslator_path_lost :
  exists cdEvent,
    GiteaPushTranslator.Translate pushWithNamedPortPayload = Ok cdEvent /\
    GetSource cdEvent = "git.example.com:3000" /\
    GetSubjectSource cdEvent = "git.example.com:3000".
Proof. eexists. repeat split; vm_compute; reflexivity. Qed.

Lemma GiteaPushTranslator_change_merged_witness :
  exists cdEvent,
    GiteaPushTranslator.Translate pushMainPayload = Ok cdEvent /\
    GetType cdEvent = ChangeMergedEventTypeV0_2_0 /\
    GetSubjectId cdEvent = "9d7b2d18bf7f315c666a4b3607f47bd452e7c8d2" /\
    GetSource cdEvent = "git.example.com" /\
    GetSubjectSource cdEvent = "git.example.com/yoloco/project1" /\
    GetSubjectRepository cdEvent = Some {| Id := "yoloco/project1" |}.
Proof.
  apply (GiteaPushTranslator_change_merged pushMainPayload
           {| structs.TotalCommits := 1;
              structs.Commits :=
                [{| structs.Id := "9d7b2d18bf7f315c666a4b3607f47bd452e7c8d2" |}];
              structs.PushRepository :=
                {| structs.FullName := "yoloco/project1";
                   structs.HtmlUrl := "http://git.example.com/yoloco/project1" |} |}
           {| structs.Id := "9d7b2d18bf7f315c666a4b3607f47bd452e7c8d2" |} []
           {| url.Scheme := "http"; url.Opaque := ""; url.Host := "git.example.com";
              url.Path := "/yoloco/project1"; url.OmitHost := false;
              url.ForceQuery := false; url.RawQuery := ""; url.Fragment := "" |}
           "git.example.com/yoloco/project1").
  - vm_compute. reflexivity.
  - vm_compute. discriminate.
  - reflexivity.
  - vm_compute. reflexivity.
  - vm_compute. reflexivity.
Defined.

Lemma GiteaPullRequestTranslator_selects_by_action_witness :
  exists cdEvent,
    GiteaPullRequestTranslator.Translate prOpenedPayload = Ok cdEvent /\
    GetType cdEvent = ChangeCreatedEventTypeV0_3_0 /\
    GetSubjectId cdEvent = "pr-3" /\
    exists digits,
      GetSubjectId cdEvent = ("pr-" ++ digits)%string /\
      option_map Z.of_int (NilZero.int_of_string digits) = Some 3%Z.
Proof.
  destruct (json_Unmarshal_GiteaPullRequestEvent prOpenedPayload) as [p|] eqn:E;
    [|vm_compute in E; discriminate].
  destruct (GiteaPullRequestTranslator_selects_by_action prOpenedPayload p E)
    as (Hopened & _ & _ & Hreads).
  assert (Hp : p = {| structs.Action := "opened";
                      structs.PullRequest := {| structs.PullRequestId := 3 |};
                      structs.PullRequestRepository :=
                        {| structs.FullName := "yoloco/project1";
                           structs.HtmlUrl :=
                             "http://git.example.com/yoloco/project1" |} |})
    by (vm_compute in E; congruence).
  subst p. destruct (Hopened eq_refl) as (cdEvent & Hev & Htype & Hid).
  exists cdEvent. split; [exact Hev|]. split; [exact Htype|].
  split; [exact Hid|]. exact (Hreads cdEvent Hev).
Defined.

Lemma GiteaPushTranslator_index_guarded_by_total_commits_witness :
  GiteaPushTranslator.Translate pushWithoutCommitsPayload
  = Panic "runtime error: index out of range [0] with length 0".
Proof.
  destruct (json_Unmarshal_GiteaPushEvent pushWithoutCommitsPayload) as [p|] eqn:E;
    [|vm_compute in E; discriminate].
  destruct (GiteaPushTranslator_index_guarded_by_total_commits
              pushWithoutCommitsPayload p E) as [_ Hpanic].
  assert (Hp : structs.TotalCommits p = 1%Z /\ structs.Commits p = [])
    by (vm_compute in E; injection E as <-; split; reflexivity).
  destruct Hp as [Ht Hc]. apply Hpanic; [rewrite Ht; discriminate|exact Hc].
Defined.

(** ** More properties at concrete messages and payloads *)

Lemma routing_key_restores_subject_witness :
  exists first,
    strings.Split "webhooks.gitea.push" "." !! 0 = Some first /\
    strings.ContainsByte first "." = false /\
    "webhooks.gitea.push" = (first ++ "." ++ routing_key "webhooks.gitea.push")%string.
Proof.
  apply (routing_key_restores_subject "webhooks.gitea.push"). vm_compute. lia.
Defined.

Lemma Process_surfaces_translation_error_witness :
  let msg := newMockJetstreamMsg "webhooks.gitea.push" pushNewBranchPayload in
  let e := Errorf "Push event contains no new commits, will not convert to a CD Event" in
  snd (Process mainAdapter msg) = Err e /\
  translate_calls (fst (Process mainAdapter msg))
  = [(GiteaPushTranslator.Translate, Data msg)] /\
  publish_calls (fst (Process mainAdapter msg)) = [] /\
  ack_calls (fst (Process mainAdapter msg)) = 1.
Proof.
  eapply (Process_surfaces_translation_error mainAdapter
            (newMockJetstreamMsg "webhooks.gitea.push" pushNewBranchPayload)).
  - reflexivity.
  - vm_compute. reflexivity.
  - vm_compute. lia.
  - reflexivity.
  - vm_compute. reflexivity.
Defined.

Lemma Process_propagates_translator_panic_witness :
  let msg := newMockJetstreamMsg "webhooks.gitea.push" pushWithoutCommitsPayload in
  snd (Process mainAdapter msg)
  = Panic "runtime error: index out of range [0] with length 0" /\
  publish_calls (fst (Process mainAdapter msg)) = [] /\
  last (fst (Process mainAdapter msg)) = Some CallAck.
Proof.
  eapply (Process_propagates_translator_panic mainAdapter
            (newMockJetstreamMsg "webhooks.gitea.push" pushWithoutCommitsPayload)
            _ GiteaPushTranslator.Translate).
  - reflexivity.
  - vm_compute. reflexivity.
  - vm_compute. lia.
  - reflexivity.
  - vm_compute. reflexivity.
Defined.

Lemma Process_returns_what_Publish_returns_witness :
  snd (Process (testAdapter "test.event")
         (newMockJetstreamMsg "webhook.test.event" msgData))
  = MockCDEventPublisher cde.
Proof.
  eapply (Process_returns_what_Publish_returns (testAdapter "test.event")
            (newMockJetstreamMsg "webhook.test.event" msgData)
            _ MockCDEventTranslator cde).
  - reflexivity.
  - vm_compute. reflexivity.
  - vm_compute. lia.
  - reflexivity.
  - reflexivity.
Defined.

Lemma Process_reads_one_registry_entry_witness :
  let msg := newMockJetstreamMsg "webhook.test.event" msgData in
  Process {| publisher := MockCDEventPublisher;
             translators :=
               <["test.other" := GiteaPushTranslator.Translate]>
                 (translators (testAdapter "test.event")) |} msg
  = Process (testAdapter "test.event") msg.
Proof.
  apply (Process_reads_one_registry_entry (testAdapter "test.event")
           (newMockJetstreamMsg "webhook.test.event" msgData)
           "test.other" GiteaPushTranslator.Translate).
  vm_compute. discriminate.
Defined.

Lemma Process_rejects_undecodable_payload_witness :
  let msg := newMockJetstreamMsg "webhooks.gitea.push" notJson in
  snd (Process mainAdapter msg) = Err GoStd.syntax_error /\
  translate_calls (fst (Process mainAdapter msg)) = [] /\
  publish_calls (fst (Process mainAdapter msg)) = [].
Proof.
  eapply (Process_rejects_undecodable_payload mainAdapter
            (newMockJetstreamMsg "webhooks.gitea.push" notJson)).
  - reflexivity.
  - vm_compute. reflexivity.
Defined.

Lemma addSourcesFromRepositoryUrl_frame_witness :
  let giteaEvent :=
    any_GiteaCreateEvent
      {| structs.CreateRef := "foo"; structs.CreateRefType := "branch";
         structs.CreateRepository :=
           {| structs.FullName := "yoloco/project1";
              structs.HtmlUrl := "http://192.168.1.1:3000/yoloco/project1" |} |} in
  let cdEvent := SetSubjectId "foo" (newEvent BranchCreatedEventTypeV0_2_0) in
  exists cdEvent' err,
    addSourcesFromRepositoryUrl giteaEvent cdEvent = Ok (cdEvent', err) /\
    err <> None /\
    GetSource cdEvent' = "192.168.1.1:3000" /\
    GetSubjectSource cdEvent' = "192.168.1.1:3000" /\
    GetType cdEvent' = GetType cdEvent /\
    GetSubjectId cdEvent' = GetSubjectId cdEvent /\
    GetSubjectRepository cdEvent' = GetSubjectRepository cdEvent /\
    GetCustomData cdEvent' = GetCustomData cdEvent /\
    GetCustomDataContentType cdEvent' = GetCustomDataContentType cdEvent /\
    (err <> None -> GetSubjectSource cdEvent <> "" ->
     GetSubjectSource cdEvent' = GetSubjectSource cdEvent) /\
    (err <> None -> GetSubjectSource cdEvent = "" ->
     (GetSubjectSource cdEvent' = "" /\ GetSource cdEvent' = GetSource cdEvent) \/
     GetSubjectSource cdEvent' = GetSource cdEvent').
Proof.
  intros giteaEvent cdEvent.
  destruct (addSourcesFromRepositoryUrl giteaEvent cdEvent)
    as [[cdEvent' err]| |] eqn:E; [|vm_compute in E; discriminate..].
  exists cdEvent', err. split; [reflexivity|].
  split; [vm_compute in E; injection E as _ <-; discriminate|].
  split; [vm_compute in E; injection E as <- _; reflexivity|].
  split; [vm_compute in E; injection E as <- _; reflexivity|].
  exact (addSourcesFromRepositoryUrl_frame giteaEvent cdEvent cdEvent' err E).
Defined.

Lemma addSourcesFromRepositoryUrl_idempotent_witness :
  let giteaEvent :=
    any_GiteaCreateEvent
      {| structs.CreateRef := "foo"; structs.CreateRefType := "branch";
         structs.CreateRepository :=
           {| structs.FullName := "yoloco/project1";
              structs.HtmlUrl := "http://git.example.com/yoloco/project1" |} |} in
  let cdEvent' :=
    SetSubjectSource "git.example.com/yoloco/project1"
      (SetSource "git.example.com" (newEvent BranchCreatedEventTypeV0_2_0)) in
  addSourcesFromRepositoryUrl giteaEvent cdEvent' = Ok (cdEvent', None).
Proof.
  intros giteaEvent cdEvent'.
  apply (addSourcesFromRepositoryUrl_idempotent giteaEvent
           (newEvent BranchCreatedEventTypeV0_2_0)).
  vm_compute. reflexivity.
Defined.

Lemma GiteaCreateTranslator_selects_by_ref_type_witness :
  exists cdEvent,
    GiteaCreateTranslator.Translate createPayload = Ok cdEvent /\
    GetType cdEvent = BranchCreatedEventTypeV0_2_0 /\
    GetSubjectId cdEvent = "foo" /\
    GetSubjectRepository cdEvent = Some {| Id := "yoloco/project1" |}.
Proof.
  pose (p := {| structs.CreateRef := "foo"; structs.CreateRefType := "branch";
                structs.CreateRepository :=
                  {| structs.FullName := "yoloco/project1";
                     structs.HtmlUrl := "http://git.example.com/yoloco/project1" |} |}).
  assert (E : json_Unmarshal_GiteaCreateEvent createPayload = Value p)
    by (vm_compute; reflexivity).
  destruct (GiteaCreateTranslator_selects_by_ref_type createPayload p E) as [H _].
  apply H. reflexivity.
Defined.

Lemma GiteaDeleteTranslator_selects_by_ref_type_witness :
  exists cdEvent,
    GiteaDeleteTranslator.Translate deletePayload = Ok cdEvent /\
    GetType cdEvent = BranchDeletedEventTypeV0_2_0 /\
    GetSubjectId cdEvent = "foo" /\
    GetSubjectRepository cdEvent = Some {| Id := "yoloco/project1" |}.
Proof.
  pose (p := {| structs.DeleteRef := "foo"; structs.DeleteRefType := "branch";
                structs.DeleteRepository :=
                  {| structs.FullName := "yoloco/project1";
                     structs.HtmlUrl := "http://git.example.com/yoloco/project1" |} |}).
  assert (E : json_Unmarshal_GiteaDeleteEvent deletePayload = Value p)
    by (vm_compute; reflexivity).
  destruct (GiteaDeleteTranslator_selects_by_ref_type deletePayload p E) as [H _].
  apply H. reflexivity.
Defined.

Lemma translators_attach_payload_witness :
  exists cdEvent p,
    GiteaCreateTranslator.Translate createPayload = Ok cdEvent /\
    json_Unmarshal_GiteaCreateEvent createPayload = Value p /\
    GetCustomData cdEvent
    = Some (any_KindContent "structs.GiteaCreateEvent" (any_GiteaCreateEvent p)) /\
    GetCustomDataContentType cdEvent = "application/json".
Proof.
  destruct (GiteaCreateTranslator.Translate createPayload) as [cdEvent| |] eqn:E;
    [|vm_compute in E; discriminate..].
  exists cdEvent.
  destruct (translators_attach_payload "gitea.create"
              GiteaCreateTranslator.Translate createPayload cdEvent)
    as [Ht [[Hk _]|[[Hk _]|[(_ & p & Hp & Hc)|[Hk _]]]]];
    [reflexivity|exact E|discriminate Hk..| |discriminate Hk].
  exists p. split; [reflexivity|]. split; [exact Hp|]. split; [exact Hc|exact Ht].
Defined.

Lemma translators_agree_on_sources_witness :
  exists cdEvent1 cdEvent2,
    GiteaPushTranslator.Translate pushMainPayload = Ok cdEvent1 /\
    GiteaPullRequestTranslator.Translate prOpenedPayload = Ok cdEvent2 /\
    GetSource cdEvent1 = GetSource cdEvent2 /\
    GetSubjectSource cdEvent1 = GetSubjectSource cdEvent2.
Proof.
  destruct (GiteaPushTranslator.Translate pushMainPayload) as [cdEvent1| |] eqn:E1;
    [|vm_compute in E1; discriminate..].
  destruct (GiteaPullRequestTranslator.Translate prOpenedPayload)
    as [cdEvent2| |] eqn:E2; [|vm_compute in E2; discriminate..].
  exists cdEvent1, cdEvent2. split; [reflexivity|]. split; [reflexivity|].
  eapply (translators_agree_on_sources
            "gitea.push" GiteaPushTranslator.Translate pushMainPayload cdEvent1 _ _
            "gitea.pull_request" GiteaPullRequestTranslator.Translate
            prOpenedPayload cdEvent2 _ _).
  - reflexivity.
  - reflexivity.
  - exact E1.
  - exact E2.
  - vm_compute in E1. injection E1 as <-. reflexivity.
  - vm_compute in E2. injection E2 as <-. reflexivity.
  - reflexivity.
Defined.

Lemma translators_panic_only_on_missing_commits_witness :
  exists p,
    json_Unmarshal_GiteaPushEvent pushWithoutCommitsPayload = Value p /\
    structs.TotalCommits p <> 0%Z /\
    structs.Commits p = [].
Proof.
  destruct (translators_panic_only_on_missing_commits "gitea.push"
              GiteaPushTranslator.Translate pushWithoutCommitsPayload
              "runtime error: index out of range [0] with length 0")
    as (_ & _ & H); [reflexivity|vm_compute; reflexivity|exact H].
Defined.

Lemma translators_errors_witness :
  let e := Errorf "Push event contains no new commits, will not convert to a CD Event" in
  json_Unmarshal_GiteaPushEvent pushNewBranchPayload = Failure e \/
  json_Unmarshal_GiteaPullRequestEvent pushNewBranchPayload = Failure e \/
  json_Unmarshal_GiteaCreateEvent pushNewBranchPayload = Failure e \/
  json_Unmarshal_GiteaDeleteEvent pushNewBranchPayload = Failure e \/
  e = Errorf "Push event contains no new commits, will not convert to a CD Event" \/
  (exists action,
     e = Errorf ("unsupported Gitea Pull Request action: " ++ action)) \/
  (exists refType,
     e = Errorf ("unsupported Gitea create ref type: " ++ refType)).
Proof.
  apply (translators_errors "gitea.push" GiteaPushTranslator.Translate
           pushNewBranchPayload).
  - reflexivity.
  - vm_compute. reflexivity.
Defined.

Lemma GiteaPushTranslator_join_error_dropped_witness :
  exists cdEvent,
    GiteaPushTranslator.Translate pushWithPortPayload = Ok cdEvent /\
    GetSource cdEvent = "192.168.1.1:3000" /\
    GetSubjectSource cdEvent = "192.168.1.1:3000".
Proof.
  eapply (GiteaPushTranslator_join_error_dropped pushWithPortPayload
            {| structs.TotalCommits := 1;
               structs.Commits :=
                 [{| structs.Id := "9d7b2d18bf7f315c666a4b3607f47bd452e7c8d2" |}];
               structs.PushRepository :=
                 {| structs.FullName := "yoloco/project1";
                    structs.HtmlUrl := "http://192.168.1.1:3000/yoloco/project1" |} |}
            _ []
            {| url.Scheme := "http"; url.Opaque := ""; url.Host := "192.168.1.1:3000";
               url.Path := "/yoloco/project1"; url.OmitHost := false;
               url.ForceQuery := false; url.RawQuery := ""; url.Fragment := "" |}).
  - vm_compute. reflexivity.
  - vm_compute. discriminate.
  - reflexivity.
  - vm_compute. reflexivity.
  - vm_compute. reflexivity.
Defined.

Lemma Publish_sends_the_converted_event_witness :
  let p := @CloudEventJetstreamPublisher.Build_t doubles.transport_up tt in
  CloudEventJetstreamPublisher.sends
    (fst (CloudEventJetstreamPublisher.Publish p cde)) = [cde] /\
  @AsCloudEvent doubles.transport_up cde = Value cde /\
  exists proto client,
    @cejsm_New doubles.transport_up 10 tt
      (@Context_GetType doubles.transport_up cde) = Value proto /\
    @cloudevents_NewClient doubles.transport_up proto = Value client /\
    In (CloudEventJetstreamPublisher.CallSend 10 client cde)
       (fst (CloudEventJetstreamPublisher.Publish p cde)).
Proof.
  apply (@Publish_sends_the_converted_event doubles.transport_up
           (@CloudEventJetstreamPublisher.Build_t doubles.transport_up tt) cde cde).
  vm_compute. left. reflexivity.
Defined.

Lemma MustCreateStream_returns_on_create_error_witness :
  let run := @main_streams.MustCreateStream doubles.stream_create_fails
               doubles.webhookStream in
  snd run = main_streams.Returned None /\
  In (main_streams.CallError "Error when creating stream" "nats: timeout") (fst run) /\
  (forall code, ~ In (main_streams.CallExit code) (fst run)) /\
  (forall config', ~ In (main_streams.CallUpdateStream config') (fst run)).
Proof.
  apply (@MustCreateStream_returns_on_create_error doubles.stream_create_fails
           doubles.webhookStream "nats: timeout").
  reflexivity.
Defined.

Lemma worker_survives_errors_witness :
  let messages :=
    [newMockJetstreamMsg "webhooks.gitea.push" pushMainPayload;
     newMockJetstreamMsg "webhooks.gitea.push" pushNewBranchPayload;
     newMockJetstreamMsg "webhooks.gitea.create" createPayload] in
  snd (main_worker.worker mainAdapter messages) = Ok tt /\
  main_worker.acks (fst (main_worker.worker mainAdapter messages)) = 3 /\
  main_worker.errors_logged (fst (main_worker.worker mainAdapter messages))
  = ["Push event contains no new commits, will not convert to a CD Event"] /\
  length (main_worker.published (fst (main_worker.worker mainAdapter messages))) = 2.
Proof.
  intros messages.
  destruct (worker_survives_errors mainAdapter messages) as (Hr & Ha & He & Hp & _).
  { intros msg v [<-|[<-|[<-|[]]]]; vm_compute; discriminate. }
  split; [exact Hr|]. split; [exact Ha|].
  rewrite He, Hp. split; vm_compute; reflexivity.
Defined.

Lemma worker_stops_at_first_panic_witness :
  let messages :=
    [newMockJetstreamMsg "webhooks.gitea.push" pushMainPayload]
    ++ newMockJetstreamMsg "webhooks.gitea.push" pushWithoutCommitsPayload
    :: [newMockJetstreamMsg "webhooks.gitea.create" createPayload] in
  snd (main_worker.worker mainAdapter messages)
  = Panic "runtime error: index out of range [0] with length 0" /\
  main_worker.acks (fst (main_worker.worker mainAdapter messages)) = 2 /\
  exists t, fst (main_worker.worker mainAdapter messages)
            = t ++ [main_worker.InProcess CallAck; main_worker.CallStop;
                    main_worker.CallDone].
Proof.
  apply (worker_stops_at_first_panic mainAdapter
           [newMockJetstreamMsg "webhooks.gitea.push" pushMainPayload]
           (newMockJetstreamMsg "webhooks.gitea.push" pushWithoutCommitsPayload)
           [newMockJetstreamMsg "webhooks.gitea.create" createPayload]).
  - intros m w [<-|[]]. vm_compute. discriminate.
  - vm_compute. reflexivity.
Defined.
